(** * The remote-resource access layer of the store back-office client

    A shallow embedding of [src/app/services/api.ts] (the [api] gateway, the
    [AuthProvider] session context that is stored with it), of the bulk
    delete of [src/app/(app)/products/[id].tsx] and of the category search of
    the categories screen, followed by the properties of the specification
    that concern them.

    Conventions of the embedding.
    - An [async] function is a computation in the monad [M]: it reads and
      changes a [World] and either returns a value or throws a JavaScript
      error.  An awaited call is a monadic bind.
    - Everything observable that the code does to its surroundings (an HTTP
      request, an [EventRegister.emit], a navigation, an alert, a React state
      setter of a screen) is appended to one chronological [trace].
    - The remote platform is an arbitrary deterministic function of the
      requests already sent and of the request at hand.
    - The code runs on one thread.  An operation is modelled from its call
      to its return or throw; an [async] function that is called and not
      awaited runs up to its first [await], and its continuation is kept
      in [pending] until [settle] resumes it.
    - JavaScript numbers that the code computes with are integers (counts,
      page numbers, identifiers); an integer that is a binary64 value is
      modelled by that integer in [Z].  The one place where a quotient is
      taken is modelled with its binary64 rounding and the [Math.ceil]
      around it (see [Js.binary64_div] and [Js.ceil_div]). *)

From Stdlib Require Import ZArith List String Ascii Bool Lia.
From stdpp Require Import base option list gmap strings pretty.

Local Open Scope Z_scope.
Local Open Scope string_scope.

(** ** JavaScript values *)

Module Js.

(** The numbers [Math.ceil (a / b)] can produce from integers. *)
Inductive number : Type :=
| Int (z : Z)
| NaN
| PosInfinity
| NegInfinity.

(** The binary64 quotient [a / b] of two positive integers, as a pair
    [(m, e)] that stands for [m * 2^e].  The exact quotient is rounded to
    the nearest multiple of [2^e], ties to the even multiple, where [e] is
    the exponent at which the quotient has 53 significant bits, and
    [-1074], the exponent of the subnormal numbers, when that is
    larger. *)
Definition binary64_div (a b : Z) : Z * Z :=
  let at_scale (e : Z) : Z * Z :=
    if (0 <=? e)%Z then (a, b * 2 ^ e) else (a * 2 ^ (- e), b) in
  let e0 := Z.log2 a - Z.log2 b - 52 in
  let e1 :=
    if (2 ^ 52 <=? fst (at_scale e0) / snd (at_scale e0))%Z then e0
    else e0 - 1 in
  let e := Z.max e1 (- 1074) in
  let (n, d) := at_scale e in
  let q := n / d in
  let r := n mod d in
  let m :=
    if (2 * r <? d)%Z then q
    else if (d <? 2 * r)%Z then q + 1
    else if Z.even q then q else q + 1 in
  (m, e).

(** [Math.ceil (a / b)] for an integer or [undefined] numerator [a] and an
    integer denominator [b].  [undefined / b] is [NaN]; a division by zero
    gives an infinity, or [NaN] for [0 / 0]; otherwise the binary64
    quotient, which takes the sign of [a] and the sign of [b], is rounded
    up, and a quotient of magnitude [2^1024] or more is an infinity.  A
    negative zero is not told from zero. *)
Definition ceil_div (a : option Z) (b : Z) : number :=
  match a with
  | None => NaN
  | Some a =>
      if Z.eqb b 0 then
        if Z.ltb 0 a then PosInfinity
        else if Z.ltb a 0 then NegInfinity
        else NaN
      else if Z.eqb a 0 then Int 0
      else
        let (m, e) := binary64_div (Z.abs a) (Z.abs b) in
        if Z.eqb (Z.sgn a) (Z.sgn b) then
          let up := if (0 <=? e)%Z then m * 2 ^ e else - ((- m) / 2 ^ (- e)) in
          if (2 ^ 1024 <=? up)%Z then PosInfinity else Int up
        else
          let down := if (0 <=? e)%Z then m * 2 ^ e else m / 2 ^ (- e) in
          if (2 ^ 1024 <=? down)%Z then NegInfinity else Int (- down)
  end.

(** Truthiness of a string-or-undefined value: [undefined], [null] and the
    empty string are falsy. *)
Definition truthy_string (o : option string) : bool :=
  match o with
  | Some s => negb (String.eqb s "")
  | None => false
  end.

(** [o || d] for a string-or-undefined [o]. *)
Definition or_string (o : option string) (d : string) : string :=
  match o with
  | Some s => if String.eqb s "" then d else s
  | None => d
  end.

(** [n || 0] for a number-or-undefined [n]. *)
Definition or_zero (n : option Z) : Z :=
  match n with
  | Some z => z
  | None => 0
  end.

(** [String.prototype.includes]: [includes s t] holds when [t] occurs in
    [s] as a contiguous run of characters. *)
Fixpoint includes (s t : string) : bool :=
  String.prefix t s ||
  match s with
  | EmptyString => false
  | String _ s' => includes s' t
  end.

End Js.

(** ** Data of [api.ts] *)

(** An element of a platform list or a request payload that the gateway only
    passes along, as its JSON text. *)
Definition Payload : Type := string.

(** [interface Category] *)
#[local] Set Warnings "-register-all".
Inductive Category : Type :=
  mkCategory {
    cat_id : Z;
    cat_parent_id : Z;
    cat_name : string;
    cat_is_active : bool;
    cat_position : Z;
    cat_level : Z;
    cat_product_count : Z;
    (* [None] when the field is missing at run time *)
    cat_children_data : option (list Category)
  }.

(** The fields of a response body that the gateway reads; each one may be
    missing. *)
Record Obj : Type := mkObj {
  obj_items : option (list Payload);
  obj_children_data : option (list Category);
  obj_total_count : option Z;
  obj_message : option string
}.

(** A response body, and the run-time value of a token: a JSON string or a
    JSON object. *)
Inductive Value : Type :=
| VString (s : string)
| VObject (o : Obj).

(** [`${v}`] *)
Definition template (v : Value) : string :=
  match v with
  | VString s => s
  | VObject _ => "[object Object]"
  end.

Definition truthy (v : Value) : bool :=
  match v with
  | VString s => negb (String.eqb s "")
  | VObject _ => true
  end.

(** Property reads on a body: a string has none of these properties. *)
Definition data_items (d : Value) : option (list Payload) :=
  match d with VObject o => obj_items o | VString _ => None end.
Definition data_children_data (d : Value) : option (list Category) :=
  match d with VObject o => obj_children_data o | VString _ => None end.
Definition data_total_count (d : Value) : option Z :=
  match d with VObject o => obj_total_count o | VString _ => None end.
Definition data_message (d : Value) : option string :=
  match d with VObject o => obj_message o | VString _ => None end.

(** [interface ProductFilters]: [status?: 1 | 2 | null], [search?: string] *)
Inductive ProductStatus : Type := Status1 | Status2.

Definition status_number (s : ProductStatus) : Z :=
  match s with Status1 => 1 | Status2 => 2 end.

Record ProductFilters : Type := mkProductFilters {
  pf_status : option ProductStatus;
  pf_search : option string
}.

(** The [searchCriteria] query parameter. *)
Inductive FilterValue : Type :=
| FNumber (z : Z)
| FString (s : string).

Record Filter : Type := mkFilter {
  field : string;
  value : FilterValue;
  conditionType : string
}.

Record FilterGroup : Type := mkFilterGroup { filters : list Filter }.

Record SortOrder : Type := mkSortOrder {
  so_field : string;
  so_direction : string
}.

Record SearchCriteria : Type := mkSearchCriteria {
  currentPage : Z;
  pageSize : Z;
  sortOrders : list SortOrder;
  (* [None]: the property was never assigned *)
  filterGroups : option (list FilterGroup)
}.

(** ** HTTP *)

Inductive Method : Type := GET | POST | PUT | DELETE.

Inductive Body : Type :=
| BodyCredentials (username password : string)
| BodyProduct (productData : Payload)
| BodyMediaEntry (position : Z) (base64_encoded_data type name : string).

Record Request : Type := mkRequest {
  req_method : Method;
  req_url : string;
  req_headers : list (string * string);
  req_params : option SearchCriteria;
  req_body : option Body
}.

Record Response : Type := mkResponse {
  status : Z;
  data : Value
}.

(** What happens to a request: the platform answers, or the request is sent
    and no answer arrives, or the request is never sent. *)
Inductive Outcome : Type :=
| Responded (r : Response)
| NoResponse (msg : string)
| NotSent (msg : string).

(** A thrown JavaScript error: [new Error (message)] has neither [response]
    nor [request]; an [AxiosError] carries them. *)
Record JsError : Type := mkJsError {
  message : string;
  response : option Response;
  request : bool
}.

Definition Error (msg : string) : JsError :=
  {| message := msg; response := None; request := false |}.

(** ** The session context's data and the world *)

(** [interface User] *)
Record User : Type := mkUser {
  username : string;
  token : Value
}.

(** What the code does to its surroundings, in order of occurrence. *)
Inductive Effect : Type :=
| Sent (r : Request)                         (* a request given to axios or fetch *)
| Emitted (eventName : string)               (* EventRegister.emit *)
| Replaced (route : string)                  (* router.replace *)
| Alerted (title msg : string)               (* Alert.alert *)
| SetLoading (b : bool)
| SetSelectedProducts (skus : list string)
| SetIsSelectionMode (b : bool)
| StartedFetchProducts                       (* fetchProducts(), not awaited *)
| ConsoleLogged.

(** Callbacks registered with [EventRegister]; the only one in the
    repository is the [AuthProvider]'s, which calls [handleLogout]. *)
Inductive Callback : Type := CallHandleLogout.

(** Suspended continuations of [async] functions that nobody awaits. *)
Inductive Task : Type := ResumeHandleLogout.

Record World : Type := mkWorld {
  storage : gmap string string;              (* AsyncStorage *)
  user : option User;                        (* AuthProvider state *)
  isAuthenticated : bool;                    (* AuthProvider state *)
  listeners : list (string * Callback);      (* EventRegister *)
  pending : list Task;
  server : list Request -> Request -> Outcome;
  trace : list Effect
}.

Definition set_storage (f : gmap string string -> gmap string string)
    (w : World) : World :=
  {| storage := f (storage w); user := user w;
     isAuthenticated := isAuthenticated w; listeners := listeners w;
     pending := pending w; server := server w; trace := trace w |}.

Definition set_user (u : option User) (w : World) : World :=
  {| storage := storage w; user := u;
     isAuthenticated := isAuthenticated w; listeners := listeners w;
     pending := pending w; server := server w; trace := trace w |}.

Definition set_isAuthenticated (b : bool) (w : World) : World :=
  {| storage := storage w; user := user w;
     isAuthenticated := b; listeners := listeners w;
     pending := pending w; server := server w; trace := trace w |}.

Definition set_listeners (l : list (string * Callback)) (w : World) : World :=
  {| storage := storage w; user := user w;
     isAuthenticated := isAuthenticated w; listeners := l;
     pending := pending w; server := server w; trace := trace w |}.

Definition set_pending (l : list Task) (w : World) : World :=
  {| storage := storage w; user := user w;
     isAuthenticated := isAuthenticated w; listeners := listeners w;
     pending := l; server := server w; trace := trace w |}.

Definition log (e : Effect) (w : World) : World :=
  {| storage := storage w; user := user w;
     isAuthenticated := isAuthenticated w; listeners := listeners w;
     pending := pending w; server := server w; trace := trace w ++ [e] |}.

(** The requests sent so far, oldest first. *)
Definition sent (t : list Effect) : list Request :=
  omap (fun e => match e with Sent r => Some r | _ => None end) t.

(** The events emitted so far. *)
Definition emitted (t : list Effect) : list string :=
  omap (fun e => match e with Emitted n => Some n | _ => None end) t.

(** ** The monad of [async] functions *)

Inductive Result (A : Type) : Type :=
| Return (a : A)
| Throw (e : JsError).
Arguments Return {A} a.
Arguments Throw {A} e.

Definition M (A : Type) : Type := World -> Result A * World.

Definition ret {A} (a : A) : M A := fun w => (Return a, w).

Definition throw {A} (e : JsError) : M A := fun w => (Throw e, w).

Definition bind {A B} (m : M A) (k : A -> M B) : M B :=
  fun w =>
    match m w with
    | (Return a, w') => k a w'
    | (Throw e, w') => (Throw e, w')
    end.

(** [try { body } catch (error) { handler }] *)
Definition try_catch {A} (body : M A) (handler : JsError -> M A) : M A :=
  fun w =>
    match body w with
    | (Return a, w') => (Return a, w')
    | (Throw e, w') => handler e w'
    end.

(** [try { body } finally { final }], for a [final] that does not throw. *)
Definition try_finally {A} (body : M A) (final : World -> World) : M A :=
  fun w => let (r, w') := body w in (r, final w').

(** A statement that only changes the world. *)
Definition effect (f : World -> World) : M unit := fun w => (Return tt, f w).

Notation "x <- m ;; k" := (bind m (fun x => k))
  (at level 100, m at next level, right associativity).
Notation "m ;; k" := (bind m (fun _ => k))
  (at level 100, right associativity).

(** [for (const x of l) { await f x }] *)
Fixpoint for_of {A} (l : list A) (f : A -> M unit) : M unit :=
  match l with
  | [] => ret tt
  | x :: l' => f x ;; for_of l' f
  end.

(** ** Collaborators: AsyncStorage, the router, the network *)

Module AsyncStorage.
Definition getItem (key : string) : M (option string) :=
  fun w => (Return (storage w !! key), w).
Definition setItem (key val : string) : M unit :=
  effect (set_storage (insert key val)).
Definition removeItem (key : string) : M unit :=
  effect (set_storage (delete key)).
End AsyncStorage.

Module router.
Definition replace (route : string) : M unit := effect (log (Replaced route)).
End router.

(** Hands a request to the network: the platform's answer depends on the
    requests sent before and on this one. *)
Definition send (r : Request) : M Outcome :=
  fun w => (Return (server w (sent (trace w)) r), log (Sent r) w).

Definition is_2xx (s : Z) : bool := (200 <=? s)%Z && (s <? 300)%Z.

(** axios resolves on a 2xx answer and rejects with an [AxiosError]
    otherwise: with [response] when the platform answered, with [request]
    only when no answer arrived, with neither when the request never left. *)
Definition axios (r : Request) : M Response :=
  o <- send r ;;
  match o with
  | Responded resp =>
      if is_2xx (status resp) then ret resp
      else throw {| message := "Request failed with status code "
                                 ++ pretty (status resp);
                    response := Some resp; request := true |}
  | NoResponse msg =>
      throw {| message := msg; response := None; request := true |}
  | NotSent msg =>
      throw {| message := msg; response := None; request := false |}
  end.

(** [fetch] resolves on every answer and rejects only without one. *)
Definition fetch (r : Request) : M Response :=
  o <- send r ;;
  match o with
  | Responded resp => ret resp
  | NoResponse msg => throw (Error msg)
  | NotSent msg => throw (Error msg)
  end.

Definition ok (r : Response) : bool := is_2xx (status r).

(** ** [AuthProvider]: logout *)

(** [handleLogout] up to its [await]. *)
Definition handleLogout_until_await : M unit :=
  AsyncStorage.removeItem "user".

(** [handleLogout] after its [await]. *)
Definition handleLogout_after_await : M unit :=
  effect (set_user None) ;;
  effect (set_isAuthenticated false) ;;
  router.replace "/".

Definition handleLogout : M unit :=
  try_catch
    (handleLogout_until_await ;; handleLogout_after_await)
    (fun error => effect (log ConsoleLogged)).

(** A callback that [EventRegister] calls and does not await runs up to
    its first [await]; the rest is left pending. *)
Definition call (c : Callback) (w : World) : World :=
  match c with
  | CallHandleLogout =>
      match handleLogout_until_await w with
      | (Return _, w') => set_pending (pending w' ++ [ResumeHandleLogout]) w'
      | (Throw _, w') => log ConsoleLogged w'
      end
  end.

Definition resume (t : Task) (w : World) : World :=
  match t with
  | ResumeHandleLogout =>
      snd (try_catch handleLogout_after_await
             (fun error => effect (log ConsoleLogged)) w)
  end.

(** Runs the continuations that are pending, oldest first. *)
Definition settle (w : World) : World :=
  fold_left (fun w t => resume t w) (pending w) (set_pending [] w).

Module EventRegister.
Definition addEventListener (eventName : string) (c : Callback) : M unit :=
  effect (fun w => set_listeners (listeners w ++ [(eventName, c)]) w).

(** Calls every callback registered under [eventName], in order. *)
Definition emit (eventName : string) : M unit :=
  effect (fun w =>
    fold_left
      (fun w l => if String.eqb (fst l) eventName then call (snd l) w else w)
      (listeners w)
      (log (Emitted eventName) w)).
End EventRegister.

(** ** [api.ts] *)

Definition BASE_URL : string := "https://www.wholesale-supplier.uk".

Definition handleAuthError (error : JsError) : M unit :=
  match response error with
  | Some r =>
      if (status r =? 401)%Z then
        EventRegister.emit "logout" ;;
        throw (Error "Your session has expired. Please login again.")
      else throw error
  | None => throw error
  end.

(** The part of every [catch] block that follows [handleAuthError]. *)
Definition classify {A} (failed other : string) (error : JsError) : M A :=
  match response error with
  | Some r => throw (Error (Js.or_string (data_message (data r)) failed))
  | None =>
      if request error then
        throw (Error
          "No response from server. Please check your internet connection.")
      else throw (Error other)
  end.

(** [catch (error) { handleAuthError(error); if (error.response) ... }] *)
Definition on_error {A} (failed other : string) (error : JsError) : M A :=
  handleAuthError error ;; classify failed other error.

Definition bearer (token : Value) : string * string :=
  ("Authorization", "Bearer " ++ template token).

Definition content_json : string * string :=
  ("Content-Type", "application/json").

Definition created_at_desc : SortOrder :=
  {| so_field := "created_at"; so_direction := "DESC" |}.

(** The result of a list operation. *)
Record Paged (T : Type) : Type := mkPaged {
  items : option (list T);
  total_count : option Z;
  current_page : Z;
  total_pages : Js.number
}.
Arguments mkPaged {T}.
Arguments items {T}.
Arguments total_count {T}.
Arguments current_page {T}.
Arguments total_pages {T}.

Record DashboardStats : Type := mkDashboardStats {
  total_orders : option Z;
  total_customers : option Z;
  total_products : option Z
}.

Definition set_filterGroups (g : option (list FilterGroup))
    (sc : SearchCriteria) : SearchCriteria :=
  {| currentPage := currentPage sc; pageSize := pageSize sc;
     sortOrders := sortOrders sc; filterGroups := g |}.

(** [searchCriteria.filterGroups.push(g)] *)
Definition push_group (g : FilterGroup) (sc : SearchCriteria)
    : M SearchCriteria :=
  match filterGroups sc with
  | Some gs => ret (set_filterGroups (Some (gs ++ [g])%list) sc)
  | None => throw (Error "TypeError: Cannot read property 'push' of undefined")
  end.

(** [searchCriteria.filterGroups[index].filters.push(f)] *)
Definition push_filter (index : nat) (f : Filter) (sc : SearchCriteria)
    : M SearchCriteria :=
  match filterGroups sc with
  | Some gs =>
      match gs !! index with
      | Some g =>
          ret (set_filterGroups
                 (Some (<[index := {| filters := (filters g ++ [f])%list |}]> gs)) sc)
      | None =>
          throw (Error "TypeError: Cannot read property 'filters' of undefined")
      end
  | None => throw (Error "TypeError: Cannot read property '0' of undefined")
  end.

Definition like (fieldName search : string) : Filter :=
  {| field := fieldName; value := FString ("%" ++ search ++ "%");
     conditionType := "like" |}.

(** The [searchCriteria] that [getProducts] builds before its request. *)
Definition getProducts_searchCriteria (page pageSize : Z)
    (filters : option ProductFilters) : M SearchCriteria :=
  let searchCriteria :=
    {| currentPage := page; pageSize := pageSize;
       sortOrders := [created_at_desc]; filterGroups := None |} in
  match filters with
  | None => ret searchCriteria
  | Some filters =>
      let searchCriteria :=
        match pf_status filters with
        | Some st =>
            set_filterGroups
              (Some [ {| filters :=
                           [ {| field := "status";
                                value := FNumber (status_number st);
                                conditionType := "eq" |} ] |} ])
              searchCriteria
        | None => searchCriteria
        end in
      if Js.truthy_string (pf_search filters) then
        let search := default "" (pf_search filters) in
        let index : nat :=
          match filterGroups searchCriteria with
          | Some _ => 1%nat
          | None => 0%nat
          end in
        let searchCriteria :=
          set_filterGroups
            (Some (default [] (filterGroups searchCriteria))) searchCriteria in
        searchCriteria <- push_group {| filters := [] |} searchCriteria ;;
        searchCriteria <- push_filter index (like "name" search) searchCriteria ;;
        searchCriteria <- push_filter index (like "sku" search) searchCriteria ;;
        searchCriteria <-
          push_filter index (like "description" search) searchCriteria ;;
        push_filter index (like "eancode" search) searchCriteria
      else ret searchCriteria
  end.

Definition no_response_message : string :=
  "No response from server. Please check your internet connection.".

Module api.

Definition login (username password : string) : M Value :=
  try_catch
    (resp <- axios {| req_method := POST;
                      req_url := BASE_URL ++ "/rest/V1/integration/admin/token";
                      req_headers := [];
                      req_params := None;
                      req_body := Some (BodyCredentials username password) |} ;;
     if negb (truthy (data resp)) then
       throw (Error "No token received from server")
     else ret (data resp))
    (fun error =>
       match response error with
       | Some r =>
           throw (Error (Js.or_string (data_message (data r))
                           "Invalid credentials"))
       | None =>
           if request error then throw (Error no_response_message)
           else throw (Error "An error occurred while trying to log in.")
       end).

Definition getOrders (token : Value) (page pageSize : Z)
    : M (Paged Payload) :=
  try_catch
    (resp <- axios {| req_method := GET;
                      req_url := BASE_URL ++ "/rest/V1/orders";
                      req_headers := [bearer token];
                      req_params :=
                        Some {| currentPage := page; pageSize := pageSize;
                                sortOrders := [created_at_desc];
                                filterGroups := None |};
                      req_body := None |} ;;
     ret {| items := data_items (data resp);
            total_count := data_total_count (data resp);
            current_page := page;
            total_pages :=
              Js.ceil_div (data_total_count (data resp)) pageSize |})
    (on_error "Failed to fetch orders"
              "An error occurred while fetching orders.").

Definition getOrderDetails (token : Value) (orderId : string) : M Value :=
  try_catch
    (resp <- axios {| req_method := GET;
                      req_url := BASE_URL ++ "/rest/V1/orders/" ++ orderId;
                      req_headers := [bearer token];
                      req_params := None;
                      req_body := None |} ;;
     ret (data resp))
    (on_error "Failed to fetch order details"
              "An error occurred while fetching order details.").

Definition getProducts (token : Value) (page pageSize : Z)
    (filters : option ProductFilters) : M (Paged Payload) :=
  try_catch
    (searchCriteria <- getProducts_searchCriteria page pageSize filters ;;
     resp <- axios {| req_method := GET;
                      req_url := BASE_URL ++ "/rest/V1/products";
                      req_headers := [bearer token];
                      req_params := Some searchCriteria;
                      req_body := None |} ;;
     ret {| items := data_items (data resp);
            total_count := data_total_count (data resp);
            current_page := page;
            total_pages :=
              Js.ceil_div (data_total_count (data resp)) pageSize |})
    (on_error "Failed to fetch products"
              "An error occurred while fetching products.").

Definition getProductDetails (token : Value) (sku : string) : M Value :=
  try_catch
    (resp <- axios {| req_method := GET;
                      req_url := BASE_URL ++ "/rest/V1/products/" ++ sku;
                      req_headers := [bearer token];
                      req_params := None;
                      req_body := None |} ;;
     ret (data resp))
    (on_error "Failed to fetch product details"
              "An error occurred while fetching product details.").

Definition getCustomers (token : Value) (page pageSize : Z)
    : M (Paged Payload) :=
  try_catch
    (resp <- axios {| req_method := GET;
                      req_url := BASE_URL ++ "/rest/V1/customers/search";
                      req_headers := [bearer token];
                      req_params :=
                        Some {| currentPage := page; pageSize := pageSize;
                                sortOrders := [created_at_desc];
                                filterGroups := None |};
                      req_body := None |} ;;
     ret {| items := data_items (data resp);
            total_count := data_total_count (data resp);
            current_page := page;
            total_pages :=
              Js.ceil_div (data_total_count (data resp)) pageSize |})
    (on_error "Failed to fetch customers"
              "An error occurred while fetching customers.").

Definition getCustomerDetails (token : Value) (customerId : string)
    : M Value :=
  try_catch
    (resp <- axios {| req_method := GET;
                      req_url := BASE_URL ++ "/rest/V1/customers/" ++ customerId;
                      req_headers := [bearer token];
                      req_params := None;
                      req_body := None |} ;;
     ret (data resp))
    (on_error "Failed to fetch customer details"
              "An error occurred while fetching customer details.").

Definition getCategories (token : Value) (page pageSize : Z)
    : M (Paged Category) :=
  try_catch
    (resp <- axios {| req_method := GET;
                      req_url := BASE_URL ++ "/rest/V1/categories";
                      req_headers := [bearer token];
                      req_params :=
                        Some {| currentPage := page; pageSize := pageSize;
                                sortOrders :=
                                  [ {| so_field := "position";
                                       so_direction := "ASC" |} ];
                                filterGroups := None |};
                      req_body := None |} ;;
     ret {| items := data_children_data (data resp);
            total_count := Some (Js.or_zero (data_total_count (data resp)));
            current_page := page;
            total_pages :=
              Js.ceil_div
                (Some (Js.or_zero (data_total_count (data resp))))
                pageSize |})
    (on_error "Failed to fetch categories"
              "An error occurred while fetching categories.").

Definition getCategoryDetails (token : Value) (categoryId : string)
    : M Value :=
  try_catch
    (resp <- axios {| req_method := GET;
                      req_url := BASE_URL ++ "/rest/V1/categories/" ++ categoryId;
                      req_headers := [bearer token];
                      req_params := None;
                      req_body := None |} ;;
     ret (data resp))
    (on_error "Failed to fetch category details"
              "An error occurred while fetching category details.").

Definition getStats (token : Value) : M DashboardStats :=
  try_catch
    (orders <- getOrders token 1 1 ;;
     customers <- getCustomers token 1 1 ;;
     products <- getProducts token 1 1 None ;;
     ret {| total_orders := total_count orders;
            total_customers := total_count customers;
            total_products := total_count products |})
    (fun error =>
       if String.eqb (message error) "Failed to fetch" then
         throw (Error
           "No response from server. Please check your connection.")
       else throw error).

Definition createProduct (token : Value) (productData : Payload)
    : M Value :=
  try_catch
    (resp <- axios {| req_method := POST;
                      req_url := BASE_URL ++ "/rest/V1/products";
                      req_headers := [bearer token; content_json];
                      req_params := None;
                      req_body := Some (BodyProduct productData) |} ;;
     ret (data resp))
    (on_error "Failed to create product"
              "An error occurred while creating the product.").

Definition uploadProductImage (token : Value) (sku imageData : string)
    (position : Z) (type : string) : M Value :=
  try_catch
    (resp <- axios {| req_method := POST;
                      req_url :=
                        BASE_URL ++ "/rest/V1/products/" ++ sku ++ "/media";
                      req_headers := [bearer token; content_json];
                      req_params := None;
                      req_body :=
                        Some (BodyMediaEntry position imageData type
                                ("product_" ++ pretty position ++ ".jpg")) |} ;;
     ret (data resp))
    (on_error "Failed to upload image"
              "An error occurred while uploading the image.").

Definition deleteProduct (token : Value) (sku : string) : M unit :=
  try_catch
    (axios {| req_method := DELETE;
              req_url := BASE_URL ++ "/rest/V1/products/" ++ sku;
              req_headers := [bearer token];
              req_params := None;
              req_body := None |} ;;
     ret tt)
    (on_error "Failed to delete product"
              "An error occurred while deleting the product.").

Definition deleteProductImage (token : Value) (sku : string) (imageId : Z)
    : M unit :=
  try_catch
    (axios {| req_method := DELETE;
              req_url :=
                BASE_URL ++ "/rest/V1/products/" ++ sku ++ "/media/"
                  ++ pretty imageId;
              req_headers := [bearer token];
              req_params := None;
              req_body := None |} ;;
     ret tt)
    (on_error "Failed to delete product image"
              "An error occurred while deleting the product image.").

Definition updateProduct (token : Value) (sku : string)
    (productData : Payload) : M Value :=
  try_catch
    (effect (log ConsoleLogged) ;;
     resp <- axios {| req_method := PUT;
                      req_url := BASE_URL ++ "/rest/V1/products/" ++ sku;
                      req_headers := [bearer token; content_json];
                      req_params := None;
                      req_body := Some (BodyProduct productData) |} ;;
     ret (data resp))
    (fun error =>
       effect (log ConsoleLogged) ;;
       on_error "Failed to update product"
                "An error occurred while updating the product." error).

(** [`Bearer ${token}`] for what [AsyncStorage.getItem] returned. *)
Definition bearer_stored (token : option string) : string * string :=
  ("Authorization", "Bearer " ++ default "null" token).

Definition deleteCategory (id : Z) : M unit :=
  token <- AsyncStorage.getItem "token" ;;
  resp <- fetch {| req_method := DELETE;
                   req_url := BASE_URL ++ "/categories/" ++ pretty id;
                   req_headers := [bearer_stored token; content_json];
                   req_params := None;
                   req_body := None |} ;;
  if negb (ok resp) then throw (Error "Failed to delete category")
  else ret tt.

End api.

(** ** [AuthProvider]: restoring and creating the session *)

Section AuthProvider.

(** [JSON.stringify] on a [User], and [JSON.parse] on a stored string,
    [None] when it throws. *)
Variable JSON_stringify : User -> string.
Variable JSON_parse : string -> option User.

Definition checkAuthState : M unit :=
  try_catch
    (userStr <- AsyncStorage.getItem "user" ;;
     if Js.truthy_string userStr then
       match JSON_parse (default "" userStr) with
       | Some user =>
           effect (set_user (Some user)) ;;
           effect (set_isAuthenticated true)
       | None => throw (Error "SyntaxError: JSON Parse error")
       end
     else ret tt)
    (fun error => ret tt).

Definition handleLogin (username password : string) : M unit :=
  try_catch
    (token <- api.login username password ;;
     let userData := {| username := username; token := token |} in
     AsyncStorage.setItem "user" (JSON_stringify userData) ;;
     effect (set_user (Some userData)) ;;
     effect (set_isAuthenticated true))
    (fun error => throw error).

(** The effect that runs when the provider mounts.  [checkAuthState] is
    not awaited there; it is modelled up to its end, which nothing else
    of the effect depends on. *)
Definition AuthProvider_mount : M unit :=
  checkAuthState ;;
  EventRegister.addEventListener "logout" CallHandleLogout.

End AuthProvider.

(** ** The products screen: bulk delete *)

Record MediaEntry : Type := mkMediaEntry {
  me_id : Z;
  me_media_type : string;
  me_label : string;
  me_position : Z;
  me_disabled : bool;
  me_file : string
}.

(** [interface Product], the fields that the bulk delete reads. *)
Record Product : Type := mkProduct {
  p_id : Z;
  p_sku : string;
  p_name : string;
  p_media_gallery_entries : option (list MediaEntry)
}.

(** [user?.token || ''] *)
Definition token_or_empty (u : option User) : Value :=
  match u with
  | Some u => if truthy (token u) then token u else VString ""
  | None => VString ""
  end.

(** The body of [for (const sku of selectedProducts)]. *)
Definition deleteSelected_item (u : option User) (products : list Product)
    (sku : string) : M unit :=
  let product := List.find (fun p => String.eqb (p_sku p) sku) products in
  match product ≫= p_media_gallery_entries with
  | Some entries =>
      for_of entries
        (fun image => api.deleteProductImage (token_or_empty u) sku (me_id image))
  | None => ret tt
  end ;;
  api.deleteProduct (token_or_empty u) sku.

(** The [onPress] of the Delete button of [handleDeleteSelected].  [u] is
    the [user] that the screen took from [useAuth()] when it rendered;
    [selectedProducts] is the [Set] in its iteration order. *)
Definition handleDeleteSelected_onPress (u : option User)
    (products : list Product) (selectedProducts : list string) : M unit :=
  try_finally
    (try_catch
       (effect (log (SetLoading true)) ;;
        for_of selectedProducts (deleteSelected_item u products) ;;
        effect (log (SetSelectedProducts [])) ;;
        effect (log (SetIsSelectionMode false)) ;;
        effect (log StartedFetchProducts) ;;
        effect (log (Alerted "Success" "Products deleted successfully")))
       (fun error => effect (log (Alerted "Error" (message error)))))
    (log (SetLoading false)).

Inductive Button : Type := CancelButton | DeleteButton.

Definition handleDeleteSelected (u : option User) (products : list Product)
    (selectedProducts : list string) (pressed : Button) : M unit :=
  effect (log (Alerted "Delete Products"
                 ("Are you sure you want to delete "
                    ++ pretty (Z.of_nat (length selectedProducts))
                    ++ " product(s)?"))) ;;
  match pressed with
  | CancelButton => ret tt
  | DeleteButton => handleDeleteSelected_onPress u products selectedProducts
  end.

(** ** The categories screen: search *)

Section CategoriesScreen.

(** [String.prototype.toLowerCase] *)
Variable toLowerCase : string -> string.

Fixpoint matchesSearch (searchLower : string) (cat : Category) : bool :=
  match cat with
  | mkCategory _ _ name _ _ _ _ children_data =>
      let matches := Js.includes (toLowerCase name) searchLower in
      match children_data with
      | Some children =>
          matches || existsb (matchesSearch searchLower) children
      | None => matches
      end
  end.

Definition filteredCategories (categories : list Category)
    (searchQuery : string) : list Category :=
  List.filter
    (fun category => matchesSearch (toLowerCase searchQuery) category)
    categories.

End CategoriesScreen.

(** [toLowerCase] on the letters A to Z; other characters are kept. *)
Definition ascii_toLowerCase (c : ascii) : ascii :=
  let n := nat_of_ascii c in
  if ((65 <=? n) && (n <=? 90))%nat then ascii_of_nat (n + 32) else c.

Fixpoint latin_toLowerCase (s : string) : string :=
  match s with
  | EmptyString => EmptyString
  | String c s' => String (ascii_toLowerCase c) (latin_toLowerCase s')
  end.

(** ** The operations of the client, as data *)

(** Every entry point of the modelled code: the gateway operations of
    [api], the session operations of [AuthProvider], the bulk delete, and
    the resumption of what is pending. *)
Inductive Operation : Type :=
| OpLogin (username password : string)
| OpGetOrders (token : Value) (page pageSize : Z)
| OpGetOrderDetails (token : Value) (orderId : string)
| OpGetProducts (token : Value) (page pageSize : Z)
    (filters : option ProductFilters)
| OpGetProductDetails (token : Value) (sku : string)
| OpGetCustomers (token : Value) (page pageSize : Z)
| OpGetCustomerDetails (token : Value) (customerId : string)
| OpGetCategories (token : Value) (page pageSize : Z)
| OpGetCategoryDetails (token : Value) (categoryId : string)
| OpGetStats (token : Value)
| OpCreateProduct (token : Value) (productData : Payload)
| OpUploadProductImage (token : Value) (sku imageData : string)
    (position : Z) (type : string)
| OpDeleteProduct (token : Value) (sku : string)
| OpDeleteProductImage (token : Value) (sku : string) (imageId : Z)
| OpUpdateProduct (token : Value) (sku : string) (productData : Payload)
| OpDeleteCategory (id : Z)
| OpCheckAuthState
| OpMount
| OpHandleLogin (username password : string)
| OpHandleLogout
| OpDeleteSelected (products : list Product) (selectedProducts : list string)
    (pressed : Button)
| OpSettle.

(** Forgets the value an operation returns. *)
Definition void {A} (m : M A) : M unit := m ;; ret tt.

Section Operations.

Variable JSON_stringify : User -> string.
Variable JSON_parse : string -> option User.

Definition perform (op : Operation) : M unit :=
  match op with
  | OpLogin u p => void (api.login u p)
  | OpGetOrders t page size => void (api.getOrders t page size)
  | OpGetOrderDetails t i => void (api.getOrderDetails t i)
  | OpGetProducts t page size f => void (api.getProducts t page size f)
  | OpGetProductDetails t sku => void (api.getProductDetails t sku)
  | OpGetCustomers t page size => void (api.getCustomers t page size)
  | OpGetCustomerDetails t i => void (api.getCustomerDetails t i)
  | OpGetCategories t page size => void (api.getCategories t page size)
  | OpGetCategoryDetails t i => void (api.getCategoryDetails t i)
  | OpGetStats t => void (api.getStats t)
  | OpCreateProduct t d => void (api.createProduct t d)
  | OpUploadProductImage t sku img pos ty =>
      void (api.uploadProductImage t sku img pos ty)
  | OpDeleteProduct t sku => api.deleteProduct t sku
  | OpDeleteProductImage t sku i => api.deleteProductImage t sku i
  | OpUpdateProduct t sku d => void (api.updateProduct t sku d)
  | OpDeleteCategory i => api.deleteCategory i
  | OpCheckAuthState => checkAuthState JSON_parse
  | OpMount => AuthProvider_mount JSON_parse
  | OpHandleLogin u p => handleLogin JSON_stringify u p
  | OpHandleLogout => handleLogout
  | OpDeleteSelected products sel b =>
      fun w => handleDeleteSelected (user w) products sel b w
  | OpSettle => effect settle
  end.

(** The world after a sequence of operations, each run to its end,
    whether it returns or throws. *)
Definition perform_all (ops : list Operation) (w : World) : World :=
  fold_left (fun w op => snd (perform op w)) ops w.

End Operations.

(** The gateway operations whose [catch] block calls [handleAuthError]. *)
Definition calls_handleAuthError (op : Operation) : bool :=
  match op with
  | OpGetOrders _ _ _ | OpGetOrderDetails _ _ | OpGetProducts _ _ _ _
  | OpGetProductDetails _ _ | OpGetCustomers _ _ _ | OpGetCustomerDetails _ _
  | OpGetCategories _ _ _ | OpGetCategoryDetails _ _ | OpCreateProduct _ _
  | OpUploadProductImage _ _ _ _ _ | OpDeleteProduct _ _
  | OpDeleteProductImage _ _ _ | OpUpdateProduct _ _ _ => true
  | _ => false
  end.

(** The four list operations, and the page count each returns. *)
Inductive ListOperation : Type :=
| ListOrders
| ListProducts (filters : option ProductFilters)
| ListCustomers
| ListCategories.

Definition list_total_pages (op : ListOperation) (token : Value)
    (page pageSize : Z) : M Js.number :=
  match op with
  | ListOrders => r <- api.getOrders token page pageSize ;; ret (total_pages r)
  | ListProducts f =>
      r <- api.getProducts token page pageSize f ;; ret (total_pages r)
  | ListCustomers =>
      r <- api.getCustomers token page pageSize ;; ret (total_pages r)
  | ListCategories =>
      r <- api.getCategories token page pageSize ;; ret (total_pages r)
  end.

(** ** Notions of the specification *)

(** [n] is the ceiling of [totalCount / pageSize], for a positive
    [pageSize]: the least [n] with [totalCount <= n * pageSize]. *)
Definition is_ceiling (totalCount pageSize n : Z) : Prop :=
  (n - 1) * pageSize < totalCount <= n * pageSize.

(** Between [w] and [w'] one request was sent, and the platform answered
    it with [resp]. *)
Definition answered (w w' : World) (resp : Response) : Prop :=
  exists q, sent (trace w') = (sent (trace w) ++ [q])%list
            /\ server w (sent (trace w)) q = Responded resp.

(** The platform accepts a request: it answers with a 2xx status. *)
Definition accepted (o : Outcome) : bool :=
  match o with
  | Responded r => is_2xx (status r)
  | _ => false
  end.

(** The platform accepts each of [qs], sent in this order after
    [history]. *)
Fixpoint all_accepted (srv : list Request -> Request -> Outcome)
    (history qs : list Request) : bool :=
  match qs with
  | [] => true
  | q :: qs' =>
      accepted (srv history q) && all_accepted srv (history ++ [q])%list qs'
  end.

(** The platform answers the next request, whatever it is, with status
    401. *)
Definition answers_401 (w : World) : Prop :=
  forall q, exists d,
    server w (sent (trace w)) q = Responded {| status := 401; data := d |}.

(** The error of an expired session. *)
Definition session_expired : JsError :=
  Error "Your session has expired. Please login again.".

(** What [handleAuthError] throws, and the world it leaves. *)
Definition is_401 (error : JsError) : bool :=
  match response error with
  | Some r => (status r =? 401)%Z
  | None => false
  end.

Definition thrown (error : JsError) : JsError :=
  if is_401 error then session_expired else error.

Definition after_auth_error (error : JsError) (w : World) : World :=
  if is_401 error then snd (EventRegister.emit "logout" w) else w.

(** The listeners that [emit] calls for an event. *)
Definition listening (eventName : string) (w : World) : list Callback :=
  map snd (List.filter (fun l => String.eqb (fst l) eventName) (listeners w)).

(** The steps of the bulk delete: the requests that delete the media
    entries of a product, then the request that deletes the product. *)
Definition media_request (token : Value) (sku : string) (imageId : Z)
    : Request :=
  {| req_method := DELETE;
     req_url := BASE_URL ++ "/rest/V1/products/" ++ sku ++ "/media/"
                  ++ pretty imageId;
     req_headers := [bearer token];
     req_params := None;
     req_body := None |}.

Definition product_request (token : Value) (sku : string) : Request :=
  {| req_method := DELETE;
     req_url := BASE_URL ++ "/rest/V1/products/" ++ sku;
     req_headers := [bearer token];
     req_params := None;
     req_body := None |}.

Definition media_of (products : list Product) (sku : string)
    : list MediaEntry :=
  default []
    (List.find (fun p => String.eqb (p_sku p) sku) products
       ≫= p_media_gallery_entries).

Definition sub_steps (token : Value) (products : list Product) (sku : string)
    : list Request :=
  map (fun image => media_request token sku (me_id image))
      (media_of products sku).

Definition steps (token : Value) (products : list Product) (sku : string)
    : list Request :=
  (sub_steps token products sku ++ [product_request token sku])%list.

Definition plan (token : Value) (products : list Product)
    (selectedProducts : list string) : list Request :=
  concat (map (steps token products) selectedProducts).

(** The tree of categories: children and descendants. *)
Definition child_of (d c : Category) : Prop :=
  exists children, cat_children_data c = Some children /\ In d children.

Inductive descendant_of : Category -> Category -> Prop :=
| descendant_child d c : child_of d c -> descendant_of d c
| descendant_step d m c :
    descendant_of d m -> child_of m c -> descendant_of d c.

(** [t] occurs in [s] as a contiguous run of characters. *)
Definition substring_of (t s : string) : Prop :=
  exists before after, s = before ++ t ++ after.

(** The name of [c] contains [query], both taken in lower case. *)
Definition name_contains (toLowerCase : string -> string) (query : string)
    (c : Category) : Prop :=
  substring_of (toLowerCase query) (toLowerCase (cat_name c)).

(** The error with which axios rejects, for an outcome that is not
    accepted. *)
Definition rejection (o : Outcome) : JsError :=
  match o with
  | Responded resp =>
      {| message := "Request failed with status code " ++ pretty (status resp);
         response := Some resp; request := true |}
  | NoResponse msg => {| message := msg; response := None; request := true |}
  | NotSent msg => {| message := msg; response := None; request := false |}
  end.

(** The shape of a gateway operation: one request through axios, a value
    computed from the answer, a [catch] block that calls
    [handleAuthError]. *)
Definition guarded {A} (q : Request) (f : Response -> A)
    (failed other : string) : M A :=
  try_catch (resp <- axios q ;; ret (f resp)) (on_error failed other).

(** The request of [getCategories]. *)
Definition getCategories_request (token : Value) (page size : Z) : Request :=
  {| req_method := GET;
     req_url := BASE_URL ++ "/rest/V1/categories";
     req_headers := [bearer token];
     req_params :=
       Some {| currentPage := page; pageSize := size;
               sortOrders :=
                 [ {| so_field := "position"; so_direction := "ASC" |} ];
               filterGroups := None |};
     req_body := None |}.

(** The request of [deleteCategory], for what the storage holds under
    the key [token]. *)
Definition deleteCategory_request (id : Z) (stored : option string)
    : Request :=
  {| req_method := DELETE;
     req_url := BASE_URL ++ "/categories/" ++ pretty id;
     req_headers := [api.bearer_stored stored; content_json];
     req_params := None;
     req_body := None |}.

(** [w'] is [w] after one request [q] was answered with status 401 and
    handled by [handleAuthError]: one [logout] event was emitted and every
    listener of it was called. *)
Definition expired_from (w w' : World) (q : Request) : Prop :=
  server w' = server w
  /\ listeners w' = listeners w
  /\ user w' = user w
  /\ isAuthenticated w' = isAuthenticated w
  /\ sent (trace w') = (sent (trace w) ++ [q])%list
  /\ emitted (trace w') = (emitted (trace w) ++ ["logout"])%list
  /\ pending w'
     = (pending w
          ++ repeat ResumeHandleLogout (length (listening "logout" w)))%list
  /\ (forall k, k <> "user" -> storage w' !! k = storage w !! k).

(** The platform answers every request with status 401. *)
Definition always_401 (srv : list Request -> Request -> Outcome) : Prop :=
  forall history q, exists d,
    srv history q = Responded {| status := 401; data := d |}.

(** Placeholders for [JSON.stringify] and [JSON.parse] in examples that
    do not depend on them. *)
Definition sample_stringify (u : User) : string :=
  username u ++ ":" ++ template (token u).

Definition sample_parse (s : string) : option User :=
  Some {| username := s; token := VString s |}.

(** A computation leaves every key of the storage other than [user] as it
    found it. *)
Definition keeps_storage {A} (m : M A) : Prop :=
  forall w k, k <> "user" -> storage (snd (m w)) !! k = storage w !! k.

Definition keeps_storage_fun (f : World -> World) : Prop :=
  forall w k, k <> "user" -> storage (f w) !! k = storage w !! k.

(** The alerts shown so far. *)
Definition alerts (t : list Effect) : list (string * string) :=
  omap (fun e => match e with Alerted title msg => Some (title, msg)
                         | _ => None end) t.

(** The world after a sequence of effects was logged. *)
Definition logs (es : list Effect) (w : World) : World :=
  fold_left (fun w e => log e w) es w.

(** One step of the bulk delete: a request through the gateway whose
    answer is not looked at. *)
Definition attempt (q : Request) : M unit :=
  guarded q (fun _ => tt) "Failed" "An error occurred".

(** The [catch] blocks of calls that are in flight run one after the
    other as their rejections arrive; each starts with
    [handleAuthError].  [receive_all errors w] is the world after
    [handleAuthError] has run on each of [errors], with nothing that is
    pending resumed in between. *)
Definition receive_all (errors : list JsError) (w : World) : World :=
  fold_left (fun w error => snd (handleAuthError error w)) errors w.

(** The platform answers the next request, whatever it is, with [o]. *)
Definition answers_with (w : World) (o : Outcome) : Prop :=
  forall q, server w (sent (trace w)) q = o.

(** The request of [login]. *)
Definition login_request (username password : string) : Request :=
  {| req_method := POST;
     req_url := BASE_URL ++ "/rest/V1/integration/admin/token";
     req_headers := [];
     req_params := None;
     req_body := Some (BodyCredentials username password) |}.

(** The requests of the list operations that carry no filter. *)
Definition getOrders_request (token : Value) (page size : Z) : Request :=
  {| req_method := GET;
     req_url := BASE_URL ++ "/rest/V1/orders";
     req_headers := [bearer token];
     req_params :=
       Some {| currentPage := page; pageSize := size;
               sortOrders := [created_at_desc]; filterGroups := None |};
     req_body := None |}.

Definition getCustomers_request (token : Value) (page size : Z) : Request :=
  {| req_method := GET;
     req_url := BASE_URL ++ "/rest/V1/customers/search";
     req_headers := [bearer token];
     req_params :=
       Some {| currentPage := page; pageSize := size;
               sortOrders := [created_at_desc]; filterGroups := None |};
     req_body := None |}.

Definition getProducts_request (token : Value) (sc : SearchCriteria)
    : Request :=
  {| req_method := GET;
     req_url := BASE_URL ++ "/rest/V1/products";
     req_headers := [bearer token];
     req_params := Some sc;
     req_body := None |}.

(** The filter groups that the criteria of [getProducts] hold, read off
    the filters: a group for a status that is given, then a group for a
    search string that is not empty. *)
Definition status_group (st : ProductStatus) : FilterGroup :=
  {| filters := [ {| field := "status"; value := FNumber (status_number st);
                     conditionType := "eq" |} ] |}.

Definition search_group (search : string) : FilterGroup :=
  {| filters :=
       [ {| field := "name"; value := FString ("%" ++ search ++ "%");
            conditionType := "like" |};
         {| field := "sku"; value := FString ("%" ++ search ++ "%");
            conditionType := "like" |};
         {| field := "description"; value := FString ("%" ++ search ++ "%");
            conditionType := "like" |};
         {| field := "eancode"; value := FString ("%" ++ search ++ "%");
            conditionType := "like" |} ] |}.

Definition expected_groups (f : option ProductFilters)
    : option (list FilterGroup) :=
  match f with
  | None => None
  | Some f =>
      match pf_status f, pf_search f with
      | Some st, Some (String c s) =>
          Some [status_group st; search_group (String c s)]
      | Some st, _ => Some [status_group st]
      | None, Some (String c s) => Some [search_group (String c s)]
      | None, _ => None
      end
  end.

(** The token that a gateway operation is given. *)
Definition token_of (op : Operation) : option Value :=
  match op with
  | OpGetOrders t _ _ | OpGetOrderDetails t _ | OpGetProducts t _ _ _
  | OpGetProductDetails t _ | OpGetCustomers t _ _ | OpGetCustomerDetails t _
  | OpGetCategories t _ _ | OpGetCategoryDetails t _ | OpGetStats t
  | OpCreateProduct t _ | OpUploadProductImage t _ _ _ _ | OpDeleteProduct t _
  | OpDeleteProductImage t _ _ | OpUpdateProduct t _ _ => Some t
  | _ => None
  end.

(** What the list operations make of an accepted answer. *)
Definition paged (page size : Z) (resp : Response) : Paged Payload :=
  {| items := data_items (data resp);
     total_count := data_total_count (data resp);
     current_page := page;
     total_pages := Js.ceil_div (data_total_count (data resp)) size |}.

(** The criteria of a list request without filters. *)
Definition plain_criteria (page size : Z) : SearchCriteria :=
  {| currentPage := page; pageSize := size;
     sortOrders := [created_at_desc]; filterGroups := None |}.

(** The three requests of [getStats], in the order it sends them. *)
Definition getStats_requests (token : Value) : list Request :=
  [getOrders_request token 1 1; getCustomers_request token 1 1;
   getProducts_request token (plain_criteria 1 1)].

(** The request of [updateProduct]. *)
Definition updateProduct_request (token : Value) (sku : string)
    (productData : Payload) : Request :=
  {| req_method := PUT;
     req_url := BASE_URL ++ "/rest/V1/products/" ++ sku;
     req_headers := [bearer token; content_json];
     req_params := None;
     req_body := Some (BodyProduct productData) |}.

(** The request of [uploadProductImage]. *)
Definition uploadProductImage_request (token : Value) (sku imageData : string)
    (position : Z) (type : string) : Request :=
  {| req_method := POST;
     req_url := BASE_URL ++ "/rest/V1/products/" ++ sku ++ "/media";
     req_headers := [bearer token; content_json];
     req_params := None;
     req_body :=
       Some (BodyMediaEntry position imageData type
               ("product_" ++ pretty position ++ ".jpg")) |}.

(** The request of [createProduct]. *)
Definition createProduct_request (token : Value) (productData : Payload)
    : Request :=
  {| req_method := POST;
     req_url := BASE_URL ++ "/rest/V1/products";
     req_headers := [bearer token; content_json];
     req_params := None;
     req_body := Some (BodyProduct productData) |}.

(** The request of [getProductDetails]. *)
Definition getProductDetails_request (token : Value) (sku : string)
    : Request :=
  {| req_method := GET;
     req_url := BASE_URL ++ "/rest/V1/products/" ++ sku;
     req_headers := [bearer token];
     req_params := None;
     req_body := None |}.

(** The world when the application starts again: only the storage (and
    the platform) is what it was. *)
Definition restart (w : World) : World :=
  {| storage := storage w; user := None; isAuthenticated := false;
     listeners := []; pending := []; server := server w; trace := [] |}.

(** A codec for users whose token is a string and whose name has no
    colon, for examples: the name, a colon, the token. *)
Fixpoint split_colon (s : string) : option (string * string) :=
  match s with
  | EmptyString => None
  | String c s' =>
      if Ascii.eqb c ":" then Some (EmptyString, s')
      else match split_colon s' with
           | Some (a, b) => Some (String c a, b)
           | None => None
           end
  end.

Definition colon_stringify (u : User) : string :=
  username u ++ ":" ++ template (token u).

Definition colon_parse (s : string) : option User :=
  match split_colon s with
  | Some (a, b) => Some {| username := a; token := VString b |}
  | None => None
  end.

(** An operation ended by emitting [logout] from a world that had the
    storage, the listeners and the pending continuations of [w], and
    threw the session-expired error. *)
Definition torn_from (w : World) (r : Result unit * World) : Prop :=
  exists w0,
    r = (Throw session_expired, snd (EventRegister.emit "logout" w0))
    /\ storage w0 = storage w
    /\ listeners w0 = listeners w
    /\ pending w0 = pending w.

(** ** The list screens: paging

    [handleNextPage] and [handlePrevPage] are the same in the orders, the
    products, the customers and the categories screen.  [totalPages] is
    the [total_pages] of the last answer. *)

Module Paging.

(** [a < b] for an integer [a] and a number [b]. *)
Definition lt_number (a : Z) (b : Js.number) : bool :=
  match b with
  | Js.Int z => (a <? z)%Z
  | Js.PosInfinity => true
  | Js.NaN | Js.NegInfinity => false
  end.

Definition handleNextPage (currentPage : Z) (totalPages : Js.number) : Z :=
  if lt_number currentPage totalPages then currentPage + 1 else currentPage.

Definition handlePrevPage (currentPage : Z) : Z :=
  if (1 <? currentPage)%Z then currentPage - 1 else currentPage.

Inductive Press : Type := PressNext | PressPrev.

Definition press (totalPages : Js.number) (currentPage : Z) (p : Press) : Z :=
  match p with
  | PressNext => handleNextPage currentPage totalPages
  | PressPrev => handlePrevPage currentPage
  end.

(** The page after a sequence of presses, [totalPages] staying as it
    is. *)
Definition presses (totalPages : Js.number) (ps : list Press)
    (currentPage : Z) : Z :=
  fold_left (press totalPages) ps currentPage.

End Paging.

(** ** The products screen: selection

    [selectedProducts] is a [Set]: a list without repetition, in the order
    of insertion. *)

Module ProductsScreen.

Record Selection : Type := mkSelection {
  sel_selectedProducts : list string;
  sel_isSelectionMode : bool
}.

(** The state of a screen that has just been opened. *)
Definition opened : Selection :=
  {| sel_selectedProducts := []; sel_isSelectionMode := false |}.

Definition has (sku : string) (s : list string) : bool :=
  existsb (String.eqb sku) s.

Definition toggleProductSelection (sku : string) (s : Selection)
    : Selection :=
  let newSelection :=
    if has sku (sel_selectedProducts s)
    then List.filter (fun x => negb (String.eqb x sku)) (sel_selectedProducts s)
    else (sel_selectedProducts s ++ [sku])%list in
  {| sel_selectedProducts := newSelection;
     sel_isSelectionMode :=
       if (length newSelection =? 0)%nat then false
       else sel_isSelectionMode s |}.

Definition handleProductLongPress (product : Product) (s : Selection)
    : Selection :=
  if negb (sel_isSelectionMode s) then
    {| sel_selectedProducts := [p_sku product]; sel_isSelectionMode := true |}
  else toggleProductSelection (p_sku product) s.

(** [handleProductPress] returns, beside the state, the [sku] of the
    product whose page it pushes on the router, if it does. *)
Definition handleProductPress (product : Product) (s : Selection)
    : Selection * option string :=
  if sel_isSelectionMode s then
    (toggleProductSelection (p_sku product) s, None)
  else (s, Some (p_sku product)).

Inductive Touch : Type :=
| TouchPress (product : Product)
| TouchLongPress (product : Product).

Definition touch (s : Selection) (t : Touch) : Selection :=
  match t with
  | TouchPress p => fst (handleProductPress p s)
  | TouchLongPress p => handleProductLongPress p s
  end.

Definition touches (ts : list Touch) (s : Selection) : Selection :=
  fold_left touch ts s.

End ProductsScreen.

(** ** The categories screen: expanding and rendering *)

Module CategoriesScreen.

Definition toggleCategory (categoryId : Z) (prev : list Z) : list Z :=
  if existsb (Z.eqb categoryId) prev
  then List.filter (fun id => negb (Z.eqb id categoryId)) prev
  else (prev ++ [categoryId])%list.

(** The cards that [renderCategoryItem] draws for [item], from top to
    bottom, each with its level: the card of [item], then, when [item] is
    expanded and has children, the cards of its children. *)
Fixpoint renderCategoryItem (expandedCategories : list Z) (level : Z)
    (item : Category) {struct item} : list (Z * Category) :=
  match item with
  | mkCategory id _ _ _ _ _ _ children_data =>
      (level, item) ::
      match children_data with
      | Some children =>
          if existsb (Z.eqb id) expandedCategories
             && (0 <? length children)%nat
          then flat_map
                 (renderCategoryItem expandedCategories (level + 1)) children
          else []
      | None => []
      end
  end.

(** The cards of the list: those of the categories that the search
    keeps. *)
Definition renderList (toLowerCase : string -> string)
    (expandedCategories : list Z) (categories : list Category)
    (searchQuery : string) : list (Z * Category) :=
  flat_map (renderCategoryItem expandedCategories 0)
    (filteredCategories toLowerCase categories searchQuery).

End CategoriesScreen.

(** [c] is [top] or one of its descendants. *)
Definition within (c top : Category) : Prop :=
  c = top \/ descendant_of c top.

(** [for (let i = start; i < l.length; i++) { await f(i, l[i]) }], on the
    elements of [l] from index [start] on. *)
Fixpoint for_index {A} (i : nat) (l : list A) (f : nat -> A -> M unit)
    : M unit :=
  match l with
  | [] => ret tt
  | x :: l' => f i x ;; for_index (S i) l' f
  end.

(** [l.filter((x, i) => keep(i))] *)
Fixpoint filter_index {A} (keep : nat -> bool) (i : nat) (l : list A)
    : list A :=
  match l with
  | [] => []
  | x :: l' =>
      if keep i then x :: filter_index keep (S i) l'
      else filter_index keep (S i) l'
  end.

(** ** The edit screen of a product *)

Module EditProductScreen.

Definition MAX_IMAGES : Z := 5.

(** An image that was picked and is not uploaded yet. *)
Record NewImage : Type := mkNewImage {
  ni_uri : string;
  ni_base64 : string;
  ni_position : Z
}.

(** [{...img, position: p}] *)
Definition with_position (p : Z) (img : MediaEntry) : MediaEntry :=
  {| me_id := me_id img; me_media_type := me_media_type img;
     me_label := me_label img; me_position := p;
     me_disabled := me_disabled img; me_file := me_file img |}.

Definition with_new_position (p : Z) (img : NewImage) : NewImage :=
  {| ni_uri := ni_uri img; ni_base64 := ni_base64 img; ni_position := p |}.

(** The [existingImages] that [removeExistingImage] leaves.  It sets the
    state twice, first to the filtered list, then to the filtered list
    with new positions; the second is what stays. *)
Definition removeExistingImage (imageId : Z) (existingImages : list MediaEntry)
    : list MediaEntry :=
  let updatedImages :=
    imap (fun index img => with_position (Z.of_nat index) img)
      (List.filter (fun img => negb (Z.eqb (me_id img) imageId))
         existingImages) in
  updatedImages.

(** The [newImages] that [removeNewImage] leaves. *)
Definition removeNewImage (index : nat) (existingImages : list MediaEntry)
    (prevImages : list NewImage) : list NewImage :=
  let updatedImages :=
    filter_index (fun i => negb (Nat.eqb i index)) 0 prevImages in
  imap (fun i img =>
          with_new_position
            (Z.of_nat (length existingImages) + Z.of_nat i) img)
    updatedImages.

(** What the image library hands back. *)
Record Asset : Type := mkAsset {
  asset_uri : string;
  asset_base64 : option string
}.

Inductive Picked : Type :=
| PickerThrows
| PickerResult (canceled : bool) (assets : list Asset).

(** [requestMediaLibraryPermission], for the status that the library
    reports. *)
Definition requestMediaLibraryPermission (status : string) : M bool :=
  if negb (String.eqb status "granted") then
    effect (log (Alerted "Permission Required"
                   "Please grant camera roll permissions to add images.")) ;;
    ret false
  else ret true.

(** [pickImage], for the status of the permission and for what the
    library hands back; it returns the [newImages] that it leaves. *)
Definition pickImage (status : string) (picked : Picked)
    (existingImages : list MediaEntry) (newImages : list NewImage)
    : M (list NewImage) :=
  try_catch
    (hasPermission <- requestMediaLibraryPermission status ;;
     if negb hasPermission then ret newImages
     else
       match picked with
       | PickerThrows => throw (Error "picker")
       | PickerResult canceled assets =>
           match canceled, assets with
           | false, asset :: _ =>
               let totalImages :=
                 Z.of_nat (length existingImages)
                 + Z.of_nat (length newImages) in
               if (MAX_IMAGES <=? totalImages)%Z then
                 effect (log (Alerted "Error"
                                ("Maximum " ++ pretty MAX_IMAGES
                                   ++ " images allowed"))) ;;
                 ret newImages
               else
                 ret (newImages
                        ++ [ {| ni_uri := asset_uri asset;
                                ni_base64 :=
                                  Js.or_string (asset_base64 asset) "";
                                ni_position := totalImages |} ])%list
           | _, _ => ret newImages
           end
       end)
    (fun error =>
       effect (log (Alerted "Error" "Failed to pick image")) ;;
       ret newImages).

Section Submit.

(** The numbers of the form, their [toString], [String.prototype.trim],
    the JSON text of the update that the form describes, and the
    identifiers of the media entries in the body of a product answer
    ([None] when it has no [media_gallery_entries]). *)
Variable Number : Type.
Variable toString : Number -> string.
Variable trim : string -> string.

Record FormData : Type := mkFormData {
  fd_name : string;
  fd_price : Number;
  fd_weight : Number;
  fd_status : option ProductStatus;
  fd_description : string
}.

Variable updateData : FormData -> Payload.
Variable media_gallery_ids : Value -> option (list Z).

Record State : Type := mkState {
  saving : bool;
  existingImages : list MediaEntry;
  newImages : list NewImage;
  formData : FormData
}.

Definition set_saving (b : bool) (s : State) : State :=
  {| saving := b; existingImages := existingImages s;
     newImages := newImages s; formData := formData s |}.

(** One turn of the upload loop, with its own [try] block. *)
Definition upload_one (token : Value) (sku : string) (image : NewImage)
    : M unit :=
  try_catch
    (void (api.uploadProductImage token sku (ni_base64 image)
             (ni_position image) "image/jpeg"))
    (fun error =>
       effect (log ConsoleLogged) ;;
       effect (log (Alerted "Error"
                      ("Failed to upload image: " ++ message error)))).

(** One turn of the deletion loop, with its own [try] block. *)
Definition delete_one (token : Value) (sku : string)
    (remainingImageIds : list Z) (imageId : Z) : M unit :=
  if negb (existsb (Z.eqb imageId) remainingImageIds) then
    try_catch
      (api.deleteProductImage token sku imageId)
      (fun error =>
         effect (log ConsoleLogged) ;;
         effect (log (Alerted "Error"
                        ("Failed to delete image: " ++ message error))))
  else ret tt.

(** The [try] block of [handleSubmit] after [setSaving(true)]. *)
Definition submit (u : option User) (sku : string) (s : State) : M unit :=
  if negb (negb (String.eqb (trim (fd_name (formData s))) ""))
     || negb (negb (String.eqb
                      (trim (toString (fd_price (formData s)))) ""))
  then effect (log (Alerted "Error" "Name and price are required"))
  else
    void (api.updateProduct (token_or_empty u) sku (updateData (formData s))) ;;
    for_of (newImages s) (upload_one (token_or_empty u) sku) ;;
    let remainingImageIds := map me_id (existingImages s) in
    details <- api.getProductDetails (token_or_empty u) sku ;;
    let originalImageIds := default [] (media_gallery_ids details) in
    for_of originalImageIds
      (delete_one (token_or_empty u) sku remainingImageIds) ;;
    effect (log (Alerted "Success" "Product updated successfully")).

(** [handleSubmit]: the state and the world that it leaves. *)
Definition handleSubmit (u : option User) (sku : string) (s : State)
    (w : World) : State * World :=
  let s1 := set_saving true s in
  let (_, w') :=
    try_catch (submit u sku s1)
      (fun error =>
         effect (log ConsoleLogged) ;;
         effect (log (Alerted "Error"
                        (Js.or_string (Some (message error))
                           "Failed to update product"))))
      w in
  (set_saving false s1, w').

End Submit.

Arguments FormData : clear implicits.
Arguments State : clear implicits.
Arguments fd_name {Number} _.
Arguments fd_price {Number} _.
Arguments fd_weight {Number} _.
Arguments fd_status {Number} _.
Arguments fd_description {Number} _.
Arguments saving {Number} _.
Arguments existingImages {Number} _.
Arguments newImages {Number} _.
Arguments formData {Number} _.
Arguments set_saving {Number} _ _.
Arguments submit {Number} _ _ _ _ _ _ _.
Arguments handleSubmit {Number} _ _ _ _ _ _ _ _.

End EditProductScreen.

(** ** The add screen of a product *)

Module AddProductScreen.

Section Submit.

(** The numbers of the form, their truthiness, and the JSON text of the
    product that the form describes. *)
Variable Number : Type.
Variable truthy_number : Number -> bool.

Record FormData : Type := mkFormData {
  fd_sku : string;
  fd_name : string;
  fd_price : Number;
  fd_weight : Number;
  fd_description : string;
  fd_eancode : string;
  fd_status : option ProductStatus
}.

Variable productData : FormData -> Payload.

(** [removeImage] *)
Definition removeImage (index : nat) (additionalImages : list string)
    : list string :=
  filter_index (fun i => negb (Nat.eqb i index)) 0 additionalImages.

(** [setEncode] *)
Definition setEncode (data : string) (formData : FormData) : FormData :=
  {| fd_sku := fd_sku formData; fd_name := fd_name formData;
     fd_price := fd_price formData; fd_weight := fd_weight formData;
     fd_description := fd_description formData; fd_eancode := data;
     fd_status := fd_status formData |}.

(** [error.response?.data?.message || error.message] *)
Definition shown_message (error : JsError) : string :=
  Js.or_string
    (match response error with
     | Some r => data_message (data r)
     | None => None
     end)
    (message error).

Definition handleSubmit (u : option User) (formData : FormData)
    (mainImage : option string) (additionalImages : list string) : M unit :=
  if negb (negb (String.eqb (fd_sku formData) ""))
     || negb (negb (String.eqb (fd_name formData) ""))
     || negb (truthy_number (fd_price formData))
  then effect (log (Alerted "Error" "Please fill in all required fields"))
  else
    try_finally
      (try_catch
         (effect (log (SetLoading true)) ;;
          void (api.createProduct (token_or_empty u) (productData formData)) ;;
          (if Js.truthy_string mainImage then
             void (api.uploadProductImage (token_or_empty u)
                     (fd_sku formData) (default "" mainImage) 0 "image/jpeg")
           else ret tt) ;;
          for_index 0 additionalImages
            (fun i image =>
               void (api.uploadProductImage (token_or_empty u)
                       (fd_sku formData) image (Z.of_nat i + 1)
                       "image/jpeg")) ;;
          effect (log (Alerted "Success" "Product created successfully")))
         (fun error =>
            effect (log ConsoleLogged) ;;
            effect (log (Alerted "Error" (shown_message error)))))
      (log (SetLoading false)).

End Submit.

Arguments FormData : clear implicits.
Arguments fd_sku {Number} _.
Arguments fd_name {Number} _.
Arguments fd_price {Number} _.
Arguments fd_weight {Number} _.
Arguments fd_description {Number} _.
Arguments fd_eancode {Number} _.
Arguments fd_status {Number} _.
Arguments setEncode {Number} _ _.
Arguments handleSubmit {Number} _ _ _ _ _ _.

End AddProductScreen.

(** The requests of the edit screen's [handleSubmit]: the uploads of the
    new images, and the deletions of the media entries of the platform
    that are no longer among the existing images. *)
Definition upload_requests (token : Value) (sku : string)
    (images : list EditProductScreen.NewImage) : list Request :=
  map (fun image =>
         uploadProductImage_request token sku
           (EditProductScreen.ni_base64 image)
           (EditProductScreen.ni_position image) "image/jpeg")
      images.

Definition deletion_requests (token : Value) (sku : string)
    (remainingImageIds originalImageIds : list Z) : list Request :=
  map (media_request token sku)
    (List.filter
       (fun imageId => negb (existsb (Z.eqb imageId) remainingImageIds))
       originalImageIds).

(** The requests of the add screen's [handleSubmit]: the product, the
    main image if one was picked, the additional images. *)
Definition add_requests (token : Value) (sku : string)
    (productData : Payload) (mainImage : option string)
    (additionalImages : list string) : list Request :=
  (createProduct_request token productData
   :: (if Js.truthy_string mainImage
       then [uploadProductImage_request token sku (default "" mainImage) 0
               "image/jpeg"]
       else [])
   ++ imap (fun i image =>
              uploadProductImage_request token sku image (Z.of_nat i + 1)
                "image/jpeg")
        additionalImages)%list.

(** The request of a list operation. *)
Definition list_request (op : ListOperation) (token : Value)
    (page size : Z) : Request :=
  match op with
  | ListOrders => getOrders_request token page size
  | ListProducts f =>
      getProducts_request token
        {| currentPage := page; pageSize := size;
           sortOrders := [created_at_desc];
           filterGroups := expected_groups f |}
  | ListCustomers => getCustomers_request token page size
  | ListCategories => getCategories_request token page size
  end.

(** ** Sample worlds and platforms *)

(** The world of a fresh installation, before the provider mounts. *)
Definition initial (srv : list Request -> Request -> Outcome) : World :=
  {| storage := ∅; user := None; isAuthenticated := false; listeners := [];
     pending := []; server := srv; trace := [] |}.

(** The body of a list answer that reports [n] elements. *)
Definition listing (n : Z) : Value :=
  VObject {| obj_items := Some []; obj_children_data := None;
             obj_total_count := Some n; obj_message := None |}.

(** A platform that answers every request alike. *)
Definition platform_always (s : Z) (d : Value)
    : list Request -> Request -> Outcome :=
  fun _ _ => Responded {| status := s; data := d |}.

(** A platform that answers the requests to [url] with status [s] and
    accepts all others. *)
Definition platform_rejecting (url : string) (s : Z)
    : list Request -> Request -> Outcome :=
  fun _ q =>
    if String.eqb (req_url q) url
    then Responded {| status := s; data := VString "" |}
    else Responded {| status := 200; data := VString "" |}.

(** A world in which the provider is mounted and a user is logged in. *)
Definition logged_in (srv : list Request -> Request -> Outcome) : World :=
  {| storage := {[ "user" := "stored" ]};
     user := Some {| username := "admin"; token := VString "t0ken" |};
     isAuthenticated := true;
     listeners := [("logout", CallHandleLogout)];
     pending := []; server := srv; trace := [] |}.

Definition image5 : MediaEntry :=
  {| me_id := 5; me_media_type := "image"; me_label := "front";
     me_position := 0; me_disabled := false; me_file := "/a/5.jpg" |}.

Definition productA : Product :=
  {| p_id := 1; p_sku := "A"; p_name := "Apron";
     p_media_gallery_entries := Some [image5] |}.

Definition productB : Product :=
  {| p_id := 2; p_sku := "B"; p_name := "Boots";
     p_media_gallery_entries := None |}.

Definition leaf (i : Z) (name : string) : Category :=
  {| cat_id := i; cat_parent_id := 0; cat_name := name;
     cat_is_active := true; cat_position := 0; cat_level := 0;
     cat_product_count := 0; cat_children_data := Some [] |}.

Definition node (i : Z) (name : string) (children : list Category)
    : Category :=
  {| cat_id := i; cat_parent_id := 0; cat_name := name;
     cat_is_active := true; cat_position := 0; cat_level := 0;
     cat_product_count := 0; cat_children_data := Some children |}.

(** Garden > Tools > Spade, and a sibling tree. *)
Definition garden : Category :=
  node 1 "Garden" [node 2 "Tools" [leaf 3 "Spade"]].

Definition kitchen : Category := node 4 "Kitchen" [leaf 5 "Pans"].

(** A state of the edit screen: one image kept, one image added. *)
Definition edited : EditProductScreen.State Z :=
  {| EditProductScreen.saving := false;
     EditProductScreen.existingImages := [image5];
     EditProductScreen.newImages :=
       [ {| EditProductScreen.ni_uri := "file:///new.jpg";
            EditProductScreen.ni_base64 := "bmV3";
            EditProductScreen.ni_position := 1 |} ];
     EditProductScreen.formData :=
       {| EditProductScreen.fd_name := "Apron";
          EditProductScreen.fd_price := 12;
          EditProductScreen.fd_weight := 1;
          EditProductScreen.fd_status := Some Status1;
          EditProductScreen.fd_description := "" |} |}.

(** The form of the add screen, filled in. *)
Definition filled : AddProductScreen.FormData Z :=
  {| AddProductScreen.fd_sku := "A";
     AddProductScreen.fd_name := "Apron";
     AddProductScreen.fd_price := 12;
     AddProductScreen.fd_weight := 1;
     AddProductScreen.fd_description := "";
     AddProductScreen.fd_eancode := "5012345678900";
     AddProductScreen.fd_status := Some Status1 |}.

(** The media entries of a body: a string has none. *)
Definition no_media (d : Value) : option (list Z) := None.

(** A body with a message of the platform. *)
Definition complaint (msg : string) : Value :=
  VObject {| obj_items := None; obj_children_data := None;
             obj_total_count := None; obj_message := Some msg |}.

(** * Properties *)

(** ** The world under logging and events *)

Lemma sent_app (t1 t2 : list Effect) :
  sent (t1 ++ t2) = (sent t1 ++ sent t2)%list.
Proof. unfold sent. apply omap_app. Qed.

Lemma emitted_app (t1 t2 : list Effect) :
  emitted (t1 ++ t2) = (emitted t1 ++ emitted t2)%list.
Proof. unfold emitted. apply omap_app. Qed.

Lemma call_frame (c : Callback) (w : World) :
  server (call c w) = server w
  /\ trace (call c w) = trace w
  /\ listeners (call c w) = listeners w
  /\ pending (call c w) = (pending w ++ [ResumeHandleLogout])%list
  /\ storage (call c w) = delete "user" (storage w)
  /\ user (call c w) = user w
  /\ isAuthenticated (call c w) = isAuthenticated w.
Proof. destruct c. cbn. repeat split; reflexivity. Qed.

Lemma emit_fold_frame (eventName : string) (l : list (string * Callback))
    (w : World) :
  let step := fun (w : World) (l : string * Callback) =>
                if String.eqb (fst l) eventName then call (snd l) w else w in
  let n := length (List.filter (fun l => String.eqb (fst l) eventName) l) in
  let w' := fold_left step l w in
  server w' = server w
  /\ trace w' = trace w
  /\ listeners w' = listeners w
  /\ pending w' = (pending w ++ repeat ResumeHandleLogout n)%list
  /\ user w' = user w
  /\ isAuthenticated w' = isAuthenticated w
  /\ (forall k, k <> "user" -> storage w' !! k = storage w !! k)
  /\ (n <> 0%nat -> storage w' !! "user" = None)
  /\ (n = 0%nat -> storage w' = storage w).
Proof.
  cbn zeta. revert w.
  induction l as [|[name c] l IH]; intros w; cbn [fold_left List.filter fst snd].
  - cbn. rewrite app_nil_r. repeat split; try reflexivity. intros H; now elim H.
  - destruct (String.eqb name eventName) eqn:E.
    + destruct (IH (call c w)) as (Hs & Ht & Hl & Hp & Hu & Ha & Hk & Hn & Hz).
      destruct (call_frame c w) as (Cs & Ct & Cl & Cp & Cst & Cu & Ca).
      rewrite Hs, Ht, Hl, Hp, Hu, Ha, Cs, Ct, Cl, Cp, Cu, Ca.
      repeat split; try reflexivity.
      * cbn [length repeat]. rewrite <- app_assoc. reflexivity.
      * intros k Hk'. rewrite Hk by exact Hk'. rewrite Cst.
        apply lookup_delete_ne. congruence.
      * intros _.
        destruct (length (List.filter (fun l0 => String.eqb (fst l0) eventName) l))
          as [|m] eqn:El.
        -- rewrite Hz by reflexivity. rewrite Cst. apply lookup_delete_eq.
        -- apply Hn. discriminate.
      * cbn [length]. discriminate.
    + apply IH.
Qed.

Lemma emit_returns (eventName : string) (w : World) :
  fst (EventRegister.emit eventName w) = Return tt.
Proof. reflexivity. Qed.

Lemma emit_frame (eventName : string) (w : World) :
  let n := length (listening eventName w) in
  let w' := snd (EventRegister.emit eventName w) in
  server w' = server w
  /\ trace w' = (trace w ++ [Emitted eventName])%list
  /\ listeners w' = listeners w
  /\ pending w' = (pending w ++ repeat ResumeHandleLogout n)%list
  /\ user w' = user w
  /\ isAuthenticated w' = isAuthenticated w
  /\ (forall k, k <> "user" -> storage w' !! k = storage w !! k)
  /\ (n <> 0%nat -> storage w' !! "user" = None)
  /\ (n = 0%nat -> storage w' = storage w).
Proof.
  cbn zeta. unfold listening. rewrite length_map.
  unfold EventRegister.emit, effect. cbn [snd].
  apply (emit_fold_frame eventName (listeners w) (log (Emitted eventName) w)).
Qed.

(** ** [handleAuthError] and the [catch] blocks *)

Lemma handleAuthError_eq (error : JsError) (w : World) :
  handleAuthError error w = (Throw (thrown error), after_auth_error error w).
Proof.
  unfold handleAuthError, thrown, after_auth_error, is_401.
  destruct (response error) as [r|]; [|reflexivity].
  destruct (status r =? 401)%Z; reflexivity.
Qed.

Lemma on_error_eq {A} (failed other : string) (error : JsError) (w : World) :
  @on_error A failed other error w
  = (Throw (thrown error), after_auth_error error w).
Proof. unfold on_error, bind. rewrite handleAuthError_eq. reflexivity. Qed.

Lemma after_auth_error_frame (error : JsError) (w : World) :
  let w' := after_auth_error error w in
  server w' = server w
  /\ sent (trace w') = sent (trace w)
  /\ listeners w' = listeners w
  /\ user w' = user w
  /\ isAuthenticated w' = isAuthenticated w
  /\ (forall k, k <> "user" -> storage w' !! k = storage w !! k).
Proof.
  cbn zeta. unfold after_auth_error. destruct (is_401 error).
  - destruct (emit_frame "logout" w) as (Hs & Ht & Hl & _ & Hu & Ha & Hk & _).
    rewrite Hs, Ht, Hl, Hu, Ha, sent_app. cbn. rewrite app_nil_r.
    repeat split; try reflexivity. exact Hk.
  - repeat split; reflexivity.
Qed.

(** ** Requests through axios *)

Lemma sent_log_Sent (q : Request) (w : World) :
  sent (trace (log (Sent q) w)) = (sent (trace w) ++ [q])%list.
Proof. cbn. rewrite sent_app. reflexivity. Qed.

Lemma axios_accepted (q : Request) (w : World) (resp : Response) :
  server w (sent (trace w)) q = Responded resp ->
  is_2xx (status resp) = true ->
  axios q w = (Return resp, log (Sent q) w).
Proof.
  intros Hs H2. unfold axios, bind, send. rewrite Hs, H2. reflexivity.
Qed.

Lemma axios_rejected (q : Request) (w : World) :
  accepted (server w (sent (trace w)) q) = false ->
  axios q w = (Throw (rejection (server w (sent (trace w)) q)), log (Sent q) w).
Proof.
  intros Ha. unfold axios, bind, send.
  destruct (server w (sent (trace w)) q) as [resp|msg|msg]; cbn in *.
  - rewrite Ha. reflexivity.
  - reflexivity.
  - reflexivity.
Qed.

Lemma accepted_inv (o : Outcome) :
  accepted o = true ->
  exists resp, o = Responded resp /\ is_2xx (status resp) = true.
Proof. destruct o as [resp| |]; cbn; intros H; try discriminate. eauto. Qed.

Lemma guarded_accepted {A} (q : Request) (f : Response -> A)
    (failed other : string) (w : World) (resp : Response) :
  server w (sent (trace w)) q = Responded resp ->
  is_2xx (status resp) = true ->
  guarded q f failed other w = (Return (f resp), log (Sent q) w).
Proof.
  intros Hs H2. unfold guarded, try_catch, bind.
  rewrite (axios_accepted q w resp Hs H2). reflexivity.
Qed.

Lemma guarded_rejected {A} (q : Request) (f : Response -> A)
    (failed other : string) (w : World) :
  accepted (server w (sent (trace w)) q) = false ->
  guarded q f failed other w
  = (Throw (thrown (rejection (server w (sent (trace w)) q))),
     after_auth_error (rejection (server w (sent (trace w)) q))
       (log (Sent q) w)).
Proof.
  intros Ha. unfold guarded, try_catch, bind.
  rewrite (axios_rejected q w Ha). apply on_error_eq.
Qed.

Lemma guarded_inv {A} (q : Request) (f : Response -> A)
    (failed other : string) (w w' : World) (r : A) :
  guarded q f failed other w = (Return r, w') ->
  exists resp,
    server w (sent (trace w)) q = Responded resp
    /\ is_2xx (status resp) = true
    /\ r = f resp
    /\ w' = log (Sent q) w.
Proof.
  intros H.
  destruct (accepted (server w (sent (trace w)) q)) eqn:Ha.
  - destruct (accepted_inv _ Ha) as (resp & Hs & H2).
    rewrite (guarded_accepted q f failed other w resp Hs H2) in H.
    inversion H; subst. eauto.
  - rewrite (guarded_rejected q f failed other w Ha) in H. discriminate.
Qed.

(** The criteria of [getProducts] are computed without touching the
    world. *)
Lemma push_group_some (g : FilterGroup) (sc : SearchCriteria)
    (gs : list FilterGroup) (w : World) :
  filterGroups sc = Some gs ->
  push_group g sc w = (Return (set_filterGroups (Some (gs ++ [g])%list) sc), w).
Proof. intros H. unfold push_group. rewrite H. reflexivity. Qed.

Lemma push_filter_some (index : nat) (f : Filter) (sc : SearchCriteria)
    (gs : list FilterGroup) (g : FilterGroup) (w : World) :
  filterGroups sc = Some gs ->
  gs !! index = Some g ->
  push_filter index f sc w
  = (Return (set_filterGroups
               (Some (<[index := {| filters := (filters g ++ [f])%list |}]> gs))
               sc), w).
Proof. intros H1 H2. unfold push_filter. rewrite H1, H2. reflexivity. Qed.

Lemma getProducts_searchCriteria_pure (page size : Z)
    (f : option ProductFilters) :
  exists sc, forall w, getProducts_searchCriteria page size f w = (Return sc, w).
Proof.
  unfold getProducts_searchCriteria.
  destruct f as [[st se]|]; [|eexists; reflexivity].
  cbn [pf_status pf_search].
  destruct (Js.truthy_string se); [|eexists; reflexivity].
  destruct st; eexists; intros w; reflexivity.
Qed.

(** ** Paging *)

Lemma at_scale_eq (a b p : Z) :
  0 <= p ->
  (if (0 <=? - p)%Z then (a, b * 2 ^ (- p)) else (a * 2 ^ (- - p), b))
  = (a * 2 ^ p, b).
Proof.
  intros Hp. destruct (Z.leb_spec 0 (- p)) as [H|H].
  - assert (p = 0) as -> by lia. cbn. f_equal; lia.
  - rewrite Z.opp_involutive. reflexivity.
Qed.

(** The rounded quotient [m * 2^(-p)] of [a / b] lies in the same unit
    interval as the exact quotient when [a < 2^53]. *)
Lemma rounded_same_ceiling (a b p q r m k : Z) :
  0 < a < 2 ^ 53 -> 0 < b -> 0 <= p ->
  a * 2 ^ p = b * q + r -> 0 <= r < b ->
  2 ^ 52 <= q ->
  m = (if (2 * r <? b)%Z then q
       else if (b <? 2 * r)%Z then q + 1
       else if Z.even q then q else q + 1) ->
  (k - 1) * b < a <= k * b ->
  (k - 1) * 2 ^ p < m <= k * 2 ^ p.
Proof.
  intros Ha Hb Hp Hdiv Hr Hq Hm Hk.
  assert (HP : 1 <= 2 ^ p) by (pose proof (Z.pow_pos_nonneg 2 p); lia).
  set (P := 2 ^ p) in *.
  assert (H52 : 2 ^ 53 = 2 * 2 ^ 52) by reflexivity.
  assert (HbP : b < 2 * P).
  { assert (2 ^ 52 * b <= a * P) by nia.
    assert (a * P < 2 ^ 53 * P) by nia.
    nia. }
  assert (Hqle : q <= k * P) by nia.
  assert (Hqge : (k - 1) * P <= q) by nia.
  split.
  - destruct (Z.eq_dec q ((k - 1) * P)) as [Heq|Hne].
    + assert (P <= r) by nia.
      destruct (Z.ltb_spec (2 * r) b); [lia|].
      destruct (Z.ltb_spec b (2 * r)); [lia|lia].
    + assert (q <= m).
      { subst m. destruct (2 * r <? b)%Z; [lia|].
        destruct (b <? 2 * r)%Z; [lia|]. destruct (Z.even q); lia. }
      lia.
  - destruct (Z.eq_dec q (k * P)) as [Heq|Hne].
    + assert (r = 0) by nia.
      subst m. destruct (Z.ltb_spec (2 * r) b); lia.
    + assert (m <= q + 1).
      { subst m. destruct (2 * r <? b)%Z; [lia|].
        destruct (b <? 2 * r)%Z; [lia|]. destruct (Z.even q); lia. }
      lia.
Qed.

(** For safe integers the quotient is rounded at a scale [2^(-p)] with
    [0 <= p], and its integer part there has 53 bits. *)
Lemma binary64_div_scale (a b : Z) :
  0 < a < 2 ^ 53 -> 0 < b < 2 ^ 53 ->
  exists p q r,
    0 <= p
    /\ a * 2 ^ p = b * q + r /\ 0 <= r < b /\ 2 ^ 52 <= q
    /\ Js.binary64_div a b
       = (if (2 * r <? b)%Z then q
          else if (b <? 2 * r)%Z then q + 1
          else if Z.even q then q else q + 1, - p).
Proof.
  intros Ha Hb.
  pose proof (Z.log2_spec a ltac:(lia)) as Hla.
  pose proof (Z.log2_spec b ltac:(lia)) as Hlb.
  pose proof (Z.log2_nonneg a) as Hla0.
  pose proof (Z.log2_nonneg b) as Hlb0.
  assert (Hla53 : Z.log2 a < 53) by (apply Z.log2_lt_pow2; lia).
  assert (Hlb53 : Z.log2 b < 53) by (apply Z.log2_lt_pow2; lia).
  set (la := Z.log2 a) in *. set (lb := Z.log2 b) in *.
  set (p0 := lb + 52 - la).
  assert (Hp0 : 0 <= p0) by (unfold p0; lia).
  (* a * 2^p0 lies above 2^51 * b *)
  assert (Hlow : 2 ^ 51 * b < a * 2 ^ p0).
  { assert (2 ^ la * 2 ^ p0 = 2 ^ 51 * 2 ^ (lb + 1)).
    { rewrite <- !Z.pow_add_r by lia. f_equal. unfold p0. lia. }
    assert (0 < 2 ^ p0) by (apply Z.pow_pos_nonneg; lia).
    nia. }
  unfold Js.binary64_div. cbv zeta. fold la lb.
  replace (la - lb - 52) with (- p0) by (unfold p0; lia).
  rewrite (at_scale_eq a b p0 Hp0). cbn [fst snd].
  destruct (Z.leb_spec (2 ^ 52) (a * 2 ^ p0 / b)) as [Hq|Hq].
  - rewrite Z.max_l by (unfold p0; lia).
    rewrite (at_scale_eq a b p0 Hp0).
    exists p0, (a * 2 ^ p0 / b), ((a * 2 ^ p0) mod b).
    split; [exact Hp0|]. split; [apply Z.div_mod; lia|].
    split; [apply Z.mod_pos_bound; lia|]. split; [exact Hq|reflexivity].
  - replace (- p0 - 1) with (- (p0 + 1)) by lia.
    rewrite Z.max_l by (unfold p0; lia).
    rewrite (at_scale_eq a b (p0 + 1)) by lia.
    exists (p0 + 1), (a * 2 ^ (p0 + 1) / b), ((a * 2 ^ (p0 + 1)) mod b).
    split; [lia|]. split; [apply Z.div_mod; lia|].
    split; [apply Z.mod_pos_bound; lia|]. split; [|reflexivity].
    apply Z.div_le_lower_bound; [lia|].
    rewrite Z.pow_add_r by lia. change (2 ^ 1) with 2.
    change (2 ^ 52) with (2 * 2 ^ 51). nia.
Qed.

(** [Math.ceil (a / b)] is the exact ceiling for safe integers. *)
Lemma ceil_div_safe (a b : Z) :
  0 <= a < 2 ^ 53 -> 0 < b < 2 ^ 53 ->
  Js.ceil_div (Some a) b = Js.Int (- ((- a) / b)).
Proof.
  intros Ha Hb. unfold Js.ceil_div.
  destruct (Z.eqb_spec b 0) as [?|_]; [lia|].
  destruct (Z.eqb_spec a 0) as [->|Ha0]; [reflexivity|].
  rewrite (Z.abs_eq a), (Z.abs_eq b) by lia.
  destruct (binary64_div_scale a b ltac:(lia) Hb)
    as (p & q & r & Hp & Hdiv & Hr & Hq & ->).
  rewrite !Z.sgn_pos by lia. cbn [Z.eqb Pos.eqb].
  set (m := if (2 * r <? b)%Z then q
            else if (b <? 2 * r)%Z then q + 1
            else if Z.even q then q else q + 1).
  set (k := - ((- a) / b)).
  assert (Hk : (k - 1) * b < a <= k * b).
  { unfold k.
    pose proof (Z.div_mod (- a) b ltac:(lia)).
    pose proof (Z.mod_pos_bound (- a) b ltac:(lia)). nia. }
  pose proof (rounded_same_ceiling a b p q r m k ltac:(lia) ltac:(lia) Hp
                Hdiv Hr Hq eq_refl Hk) as Hm.
  assert (HP : 0 < 2 ^ p) by (apply Z.pow_pos_nonneg; lia).
  assert (Hup : (if (0 <=? - p)%Z then m * 2 ^ (- p)
                 else - ((- m) / 2 ^ (- - p))) = k).
  { destruct (Z.leb_spec 0 (- p)).
    - assert (p = 0) as -> by lia. cbn in *. lia.
    - rewrite Z.opp_involutive.
      pose proof (Z.div_mod (- m) (2 ^ p) ltac:(lia)).
      pose proof (Z.mod_pos_bound (- m) (2 ^ p) ltac:(lia)). nia. }
  rewrite Hup.
  assert (Hk53 : k < 2 ^ 53) by nia.
  assert (H1024 : 2 ^ 53 < 2 ^ 1024) by (apply Z.pow_lt_mono_r; lia).
  destruct (Z.leb_spec (2 ^ 1024) k); [lia|reflexivity].
Qed.

Lemma ceil_div_is_ceiling (totalCount size : Z) :
  0 <= totalCount < 2 ^ 53 ->
  1 <= size < 2 ^ 53 ->
  exists n, Js.ceil_div (Some totalCount) size = Js.Int n
            /\ is_ceiling totalCount size n.
Proof.
  intros Hc Hs. rewrite ceil_div_safe by lia.
  exists (- (- totalCount / size)). split; [reflexivity|].
  unfold is_ceiling.
  pose proof (Z.div_mod (- totalCount) size ltac:(lia)) as Hd.
  pose proof (Z.mod_pos_bound (- totalCount) size ltac:(lia)) as Hm.
  nia.
Qed.

Lemma is_ceiling_positive (totalCount size n : Z) :
  0 <= totalCount -> 1 <= size -> is_ceiling totalCount size n ->
  0 <= n /\ (1 <= n <-> 1 <= totalCount).
Proof. unfold is_ceiling. intros H0 H1 [Hl Hu]. nia. Qed.

Lemma answered_log (q : Request) (w : World) (resp resp' : Response) :
  server w (sent (trace w)) q = Responded resp ->
  answered w (log (Sent q) w) resp' ->
  resp' = resp.
Proof.
  intros Hs (q' & Hq & Hs'). rewrite sent_log_Sent in Hq.
  apply app_inv_head in Hq. injection Hq as <-. congruence.
Qed.

Lemma getOrders_inv (token : Value) (page size : Z) (w w' : World)
    (r : Paged Payload) :
  api.getOrders token page size w = (Return r, w') ->
  exists q resp,
    server w (sent (trace w)) q = Responded resp
    /\ is_2xx (status resp) = true
    /\ w' = log (Sent q) w
    /\ items r = data_items (data resp)
    /\ total_count r = data_total_count (data resp)
    /\ current_page r = page
    /\ total_pages r = Js.ceil_div (data_total_count (data resp)) size.
Proof.
  intros H. apply guarded_inv in H. destruct H as (resp & Hs & H2 & -> & ->).
  eexists _, resp. repeat split; eauto.
Qed.

Lemma getCustomers_inv (token : Value) (page size : Z) (w w' : World)
    (r : Paged Payload) :
  api.getCustomers token page size w = (Return r, w') ->
  exists q resp,
    server w (sent (trace w)) q = Responded resp
    /\ is_2xx (status resp) = true
    /\ w' = log (Sent q) w
    /\ items r = data_items (data resp)
    /\ total_count r = data_total_count (data resp)
    /\ current_page r = page
    /\ total_pages r = Js.ceil_div (data_total_count (data resp)) size.
Proof.
  intros H. apply guarded_inv in H. destruct H as (resp & Hs & H2 & -> & ->).
  eexists _, resp. repeat split; eauto.
Qed.

Lemma getProducts_guarded (token : Value) (page size : Z)
    (f : option ProductFilters) :
  exists sc,
    (forall w, getProducts_searchCriteria page size f w = (Return sc, w))
    /\ forall w,
      api.getProducts token page size f w
      = guarded
          {| req_method := GET;
             req_url := BASE_URL ++ "/rest/V1/products";
             req_headers := [bearer token];
             req_params := Some sc;
             req_body := None |}
          (fun resp =>
             {| items := data_items (data resp);
                total_count := data_total_count (data resp);
                current_page := page;
                total_pages :=
                  Js.ceil_div (data_total_count (data resp)) size |})
          "Failed to fetch products"
          "An error occurred while fetching products." w.
Proof.
  destruct (getProducts_searchCriteria_pure page size f) as (sc & Hsc).
  exists sc. split; [exact Hsc|]. intros w.
  unfold api.getProducts, guarded, try_catch, bind. rewrite Hsc. reflexivity.
Qed.

Lemma getProducts_inv (token : Value) (page size : Z)
    (f : option ProductFilters) (w w' : World) (r : Paged Payload) :
  api.getProducts token page size f w = (Return r, w') ->
  exists q resp,
    server w (sent (trace w)) q = Responded resp
    /\ is_2xx (status resp) = true
    /\ w' = log (Sent q) w
    /\ items r = data_items (data resp)
    /\ total_count r = data_total_count (data resp)
    /\ current_page r = page
    /\ total_pages r = Js.ceil_div (data_total_count (data resp)) size.
Proof.
  intros H. destruct (getProducts_guarded token page size f) as (sc & _ & Hg).
  rewrite Hg in H.
  apply guarded_inv in H. destruct H as (resp & Hs & H2 & -> & ->).
  eexists _, resp. repeat split; eauto.
Qed.

Lemma getCategories_inv (token : Value) (page size : Z) (w w' : World)
    (r : Paged Category) :
  api.getCategories token page size w = (Return r, w') ->
  exists q resp,
    server w (sent (trace w)) q = Responded resp
    /\ is_2xx (status resp) = true
    /\ w' = log (Sent q) w
    /\ items r = data_children_data (data resp)
    /\ total_count r = Some (Js.or_zero (data_total_count (data resp)))
    /\ current_page r = page
    /\ total_pages r
       = Js.ceil_div (Some (Js.or_zero (data_total_count (data resp)))) size.
Proof.
  intros H. apply guarded_inv in H. destruct H as (resp & Hs & H2 & -> & ->).
  eexists _, resp. repeat split; eauto.
Qed.

Lemma list_total_pages_inv (op : ListOperation) (token : Value)
    (page size : Z) (w w' : World) (tp : Js.number) :
  list_total_pages op token page size w = (Return tp, w') ->
  exists q resp,
    server w (sent (trace w)) q = Responded resp
    /\ is_2xx (status resp) = true
    /\ w' = log (Sent q) w
    /\ (tp = Js.ceil_div (data_total_count (data resp)) size
        \/ op = ListCategories
           /\ tp = Js.ceil_div
                     (Some (Js.or_zero (data_total_count (data resp)))) size).
Proof.
  destruct op; unfold list_total_pages, bind; intros H.
  - destruct (api.getOrders token page size w) as [[r|e] w1] eqn:E;
      [|discriminate].
    inversion H; subst.
    apply getOrders_inv in E.
    destruct E as (q & resp & Hs & H2 & -> & _ & _ & _ & Hp).
    exists q, resp. repeat split; auto.
  - destruct (api.getProducts token page size filters0 w) as [[r|e] w1] eqn:E;
      [|discriminate].
    inversion H; subst.
    apply getProducts_inv in E.
    destruct E as (q & resp & Hs & H2 & -> & _ & _ & _ & Hp).
    exists q, resp. repeat split; auto.
  - destruct (api.getCustomers token page size w) as [[r|e] w1] eqn:E;
      [|discriminate].
    inversion H; subst.
    apply getCustomers_inv in E.
    destruct E as (q & resp & Hs & H2 & -> & _ & _ & _ & Hp).
    exists q, resp. repeat split; auto.
  - destruct (api.getCategories token page size w) as [[r|e] w1] eqn:E;
      [|discriminate].
    inversion H; subst.
    apply getCategories_inv in E.
    destruct E as (q & resp & Hs & H2 & -> & _ & _ & _ & Hp).
    exists q, resp. repeat split; auto.
Qed.

(** C1, as the code has it.  For each of the four list operations, when the
    platform reports [totalCount >= 0] and the requested [pageSize] is at
    least 1, both safe integers (below [2^53]), the returned [total_pages]
    is the ceiling of [totalCount / pageSize]; it is at least 1 exactly
    when [totalCount] is at least 1, and it is 0 when [totalCount] is 0.
    Beyond the safe integers the quotient is rounded before [Math.ceil]
    sees it, and the result can be one less than the ceiling (see
    [list_total_pages_beyond_safe_integers]). *)
Theorem list_total_pages_ceiling (op : ListOperation) (token : Value)
    (page size totalCount : Z) (w w' : World) (tp : Js.number)
    (resp : Response) :
  0 <= totalCount < 2 ^ 53 ->
  1 <= size < 2 ^ 53 ->
  list_total_pages op token page size w = (Return tp, w') ->
  answered w w' resp ->
  data_total_count (data resp) = Some totalCount ->
  exists n,
    tp = Js.Int n
    /\ is_ceiling totalCount size n
    /\ (1 <= n <-> 1 <= totalCount)
    /\ (totalCount = 0 -> n = 0).
Proof.
  intros H0 H1 Hrun Hans Hcount.
  apply list_total_pages_inv in Hrun.
  destruct Hrun as (q & resp0 & Hs & _ & -> & Htp).
  assert (resp = resp0) as -> by (eapply answered_log; eauto).
  rewrite Hcount in Htp. cbn [Js.or_zero] in Htp.
  assert (tp = Js.ceil_div (Some totalCount) size) as ->
    by (destruct Htp as [?|[_ ?]]; assumption).
  destruct (ceil_div_is_ceiling totalCount size H0 H1) as (n & Hn & Hc).
  exists n. split; [exact Hn|]. split; [exact Hc|].
  destruct (is_ceiling_positive totalCount size n ltac:(lia) ltac:(lia) Hc)
    as [Hp Hiff].
  split; [exact Hiff|]. intros ->. lia.
Qed.

Lemma list_total_pages_ceiling_witness :
  exists n,
    Js.Int 3 = Js.Int n
    /\ is_ceiling 45 20 n
    /\ (1 <= n <-> 1 <= 45)
    /\ (45 = 0 -> n = 0).
Proof.
  apply (list_total_pages_ceiling ListOrders (VString "t") 1 20 45
           (initial (platform_always 200 (listing 45)))
           (log (Sent {| req_method := GET;
                         req_url := BASE_URL ++ "/rest/V1/orders";
                         req_headers := [bearer (VString "t")];
                         req_params :=
                           Some {| currentPage := 1; pageSize := 20;
                                   sortOrders := [created_at_desc];
                                   filterGroups := None |};
                         req_body := None |})
              (initial (platform_always 200 (listing 45))))
           (Js.Int 3) {| status := 200; data := listing 45 |}).
  - split; [lia|reflexivity].
  - split; [lia|reflexivity].
  - reflexivity.
  - eexists. split; reflexivity.
  - reflexivity.
Defined.

(** The bound of C1 is needed: the platform reports 13510798882111492
    elements, a binary64 value, and the page size is 3; the exact
    ceiling is 4503599627370498, and [getOrders] returns one page
    less. *)
Lemma list_total_pages_beyond_safe_integers :
  fst (list_total_pages ListOrders (VString "t") 1 3
         (initial (platform_always 200 (listing 13510798882111492))))
  = Return (Js.Int 4503599627370497)
  /\ is_ceiling 13510798882111492 3 4503599627370498.
Proof. split; [reflexivity|unfold is_ceiling; lia]. Qed.

(** C1 as stated fails: a list operation whose platform reports zero
    elements returns zero pages, not one. *)
Lemma list_total_pages_at_least_one_fails :
  ~ (forall (op : ListOperation) (token : Value) (page size totalCount : Z)
            (w w' : World) (tp : Js.number) (resp : Response),
        0 <= totalCount ->
        1 <= size ->
        list_total_pages op token page size w = (Return tp, w') ->
        answered w w' resp ->
        data_total_count (data resp) = Some totalCount ->
        exists n, tp = Js.Int n /\ is_ceiling totalCount size n /\ 1 <= n).
Proof.
  intros H.
  destruct (H ListOrders (VString "t") 1 20 0
              (initial (platform_always 200 (listing 0)))
              (snd (list_total_pages ListOrders (VString "t") 1 20
                      (initial (platform_always 200 (listing 0)))))
              (Js.Int 0) {| status := 200; data := listing 0 |})
    as (n & Hn & _ & Hge).
  - lia.
  - lia.
  - reflexivity.
  - eexists. split; reflexivity.
  - reflexivity.
  - injection Hn as <-. lia.
Qed.

(** C10.  A [getCategories] call that the platform accepts returns, and its
    items are the [children_data] of the answer, whatever its [items]
    field holds; when the answer carries no [total_count], the call returns
    [total_count] 0 and [total_pages] 0. *)
Theorem getCategories_children_data (token : Value) (page size : Z)
    (w : World) (resp : Response) :
  1 <= size ->
  server w (sent (trace w)) (getCategories_request token page size)
    = Responded resp ->
  is_2xx (status resp) = true ->
  exists r,
    api.getCategories token page size w
      = (Return r, log (Sent (getCategories_request token page size)) w)
    /\ items r = data_children_data (data resp)
    /\ (data_total_count (data resp) = None ->
        total_count r = Some 0 /\ total_pages r = Js.Int 0).
Proof.
  intros Hsize Hs H2.
  eexists. split.
  - apply (guarded_accepted (getCategories_request token page size)).
    + exact Hs.
    + exact H2.
  - cbn [items total_count total_pages]. split; [reflexivity|].
    intros ->. cbn [Js.or_zero]. split; [reflexivity|].
    unfold Js.ceil_div. destruct (Z.eqb_spec size 0) as [->|_]; [lia|].
    reflexivity.
Qed.

Lemma getCategories_children_data_witness :
  exists r,
    api.getCategories (VString "t") 1 20
      (initial (platform_always 200
                  (VObject {| obj_items := Some ["ignored"];
                              obj_children_data := Some [garden; kitchen];
                              obj_total_count := None;
                              obj_message := None |})))
      = (Return r,
         log (Sent (getCategories_request (VString "t") 1 20))
           (initial (platform_always 200
                       (VObject {| obj_items := Some ["ignored"];
                                   obj_children_data := Some [garden; kitchen];
                                   obj_total_count := None;
                                   obj_message := None |}))))
    /\ items r = Some [garden; kitchen]
    /\ (@None Z = None -> total_count r = Some 0 /\ total_pages r = Js.Int 0).
Proof.
  apply (getCategories_children_data (VString "t") 1 20
           (initial (platform_always 200
                       (VObject {| obj_items := Some ["ignored"];
                                   obj_children_data := Some [garden; kitchen];
                                   obj_total_count := None;
                                   obj_message := None |})))
           {| status := 200;
              data := VObject {| obj_items := Some ["ignored"];
                                 obj_children_data := Some [garden; kitchen];
                                 obj_total_count := None;
                                 obj_message := None |} |}).
  - lia.
  - reflexivity.
  - reflexivity.
Defined.

(** ** The criteria of [getProducts] *)

Lemma truthy_string_nonempty (s : string) :
  s <> "" -> Js.truthy_string (Some s) = true.
Proof.
  intros H. cbn. destruct (String.eqb_spec s ""); [contradiction|reflexivity].
Qed.

Lemma guarded_sent {A} (q : Request) (f : Response -> A)
    (failed other : string) (w : World) :
  sent (trace (snd (guarded q f failed other w)))
  = (sent (trace w) ++ [q])%list
  /\ server (snd (guarded q f failed other w)) = server w.
Proof.
  destruct (accepted (server w (sent (trace w)) q)) eqn:Ha.
  - destruct (accepted_inv _ Ha) as (resp & Hs & H2).
    rewrite (guarded_accepted q f failed other w resp Hs H2). cbn [snd].
    split; [apply sent_log_Sent|reflexivity].
  - rewrite (guarded_rejected q f failed other w Ha). cbn [snd].
    destruct (after_auth_error_frame
                (rejection (server w (sent (trace w)) q)) (log (Sent q) w))
      as (Hsv & Hst & _).
    rewrite Hsv, Hst. split; [apply sent_log_Sent|reflexivity].
Qed.

(** C5.  When [getProducts] is given both a status and a non-empty search
    string, the criteria it compiles and sends hold exactly two filter
    groups: first a group with the single [eq] predicate on [status], then
    a group with one [like] predicate on each of [name], [sku],
    [description] and [eancode], each value being the search string between
    two [%]. *)
Theorem getProducts_status_and_search (token : Value) (page size : Z)
    (st : ProductStatus) (search : string) (w : World) :
  search <> "" ->
  let given := Some {| pf_status := Some st; pf_search := Some search |} in
  let wildcard := FString ("%" ++ search ++ "%") in
  exists sc q,
    getProducts_searchCriteria page size given w = (Return sc, w)
    /\ filterGroups sc
       = Some
           [ {| filters :=
                  [ {| field := "status"; value := FNumber (status_number st);
                       conditionType := "eq" |} ] |};
             {| filters :=
                  [ {| field := "name"; value := wildcard;
                       conditionType := "like" |};
                    {| field := "sku"; value := wildcard;
                       conditionType := "like" |};
                    {| field := "description"; value := wildcard;
                       conditionType := "like" |};
                    {| field := "eancode"; value := wildcard;
                       conditionType := "like" |} ] |} ]
    /\ sent (trace (snd (api.getProducts token page size given w)))
       = (sent (trace w) ++ [q])%list
    /\ req_params q = Some sc.
Proof.
  intros Hne given wildcard.
  destruct (getProducts_guarded token page size given) as (sc & Hsc & Hg).
  eexists sc, _. split; [apply Hsc|]. split.
  - specialize (Hsc w). unfold getProducts_searchCriteria, given in Hsc.
    cbn [pf_status pf_search] in Hsc.
    rewrite (truthy_string_nonempty search Hne) in Hsc.
    cbn in Hsc. injection Hsc as <-. reflexivity.
  - rewrite Hg. split; [apply guarded_sent|reflexivity].
Qed.

Lemma getProducts_status_and_search_witness :
  exists sc q,
    getProducts_searchCriteria 1 20
      (Some {| pf_status := Some Status2; pf_search := Some "spade" |})
      (initial (platform_always 200 (listing 1)))
      = (Return sc, initial (platform_always 200 (listing 1)))
    /\ filterGroups sc
       = Some
           [ {| filters :=
                  [ {| field := "status"; value := FNumber 2;
                       conditionType := "eq" |} ] |};
             {| filters :=
                  [ {| field := "name"; value := FString "%spade%";
                       conditionType := "like" |};
                    {| field := "sku"; value := FString "%spade%";
                       conditionType := "like" |};
                    {| field := "description"; value := FString "%spade%";
                       conditionType := "like" |};
                    {| field := "eancode"; value := FString "%spade%";
                       conditionType := "like" |} ] |} ]
    /\ sent (trace (snd (api.getProducts (VString "t") 1 20
                           (Some {| pf_status := Some Status2;
                                    pf_search := Some "spade" |})
                           (initial (platform_always 200 (listing 1))))))
       = (sent (trace (initial (platform_always 200 (listing 1)))) ++ [q])%list
    /\ req_params q = Some sc.
Proof.
  apply (getProducts_status_and_search (VString "t") 1 20 Status2 "spade"
           (initial (platform_always 200 (listing 1)))).
  discriminate.
Defined.

(** ** Expired sessions *)

Lemma emit_logout_expired (w w0 : World) (q : Request) :
  server w0 = server w ->
  listeners w0 = listeners w ->
  user w0 = user w ->
  isAuthenticated w0 = isAuthenticated w ->
  pending w0 = pending w ->
  storage w0 = storage w ->
  sent (trace w0) = (sent (trace w) ++ [q])%list ->
  emitted (trace w0) = emitted (trace w) ->
  expired_from w (snd (EventRegister.emit "logout" w0)) q.
Proof.
  intros Hs Hl Hu Ha Hp Hst Hsent Hem.
  destruct (emit_frame "logout" w0)
    as (Es & Et & El & Ep & Eu & Ea & Ek & _).
  unfold expired_from.
  rewrite Es, Et, El, Ep, Eu, Ea, sent_app, emitted_app.
  unfold listening. rewrite Hs, Hl, Hu, Ha, Hp, Hsent, Hem.
  cbn. rewrite app_nil_r.
  repeat split; try reflexivity.
  intros k Hk. rewrite Ek by exact Hk. now rewrite Hst.
Qed.

Lemma rejection_401 (d : Value) :
  is_401 (rejection (Responded {| status := 401; data := d |})) = true.
Proof. reflexivity. Qed.

Lemma guarded_401 {A} (q : Request) (f : Response -> A)
    (failed other : string) (w : World) :
  answers_401 w ->
  exists w',
    guarded q f failed other w = (Throw session_expired, w')
    /\ expired_from w w' q.
Proof.
  intros H401. destruct (H401 q) as (d & Hq).
  rewrite guarded_rejected by (rewrite Hq; reflexivity).
  rewrite Hq. unfold thrown, after_auth_error. rewrite rejection_401.
  eexists. split; [reflexivity|].
  apply emit_logout_expired; try reflexivity.
  - apply sent_log_Sent.
  - cbn. rewrite emitted_app. cbn. now rewrite app_nil_r.
Qed.

Lemma void_throw {A} (m : M A) (w w' : World) (e : JsError) :
  m w = (Throw e, w') -> void m w = (Throw e, w').
Proof. intros H. unfold void, bind. rewrite H. reflexivity. Qed.

Lemma updateProduct_401 (token : Value) (sku : string) (d : Payload)
    (w : World) :
  answers_401 w ->
  exists q w',
    api.updateProduct token sku d w = (Throw session_expired, w')
    /\ expired_from w w' q.
Proof.
  intros H401.
  set (q := {| req_method := PUT;
               req_url := BASE_URL ++ "/rest/V1/products/" ++ sku;
               req_headers := [bearer token; content_json];
               req_params := None;
               req_body := Some (BodyProduct d) |}).
  destruct (H401 q) as (body & Hq).
  assert (Hq' : server (log ConsoleLogged w)
                  (sent (trace (log ConsoleLogged w))) q
                = Responded {| status := 401; data := body |}).
  { cbn. rewrite sent_app. cbn. rewrite app_nil_r. exact Hq. }
  exists q. unfold api.updateProduct, try_catch, bind, effect.
  fold q. rewrite axios_rejected by (rewrite Hq'; reflexivity).
  rewrite Hq'. rewrite on_error_eq.
  unfold thrown, after_auth_error. rewrite rejection_401.
  eexists. split; [reflexivity|].
  apply emit_logout_expired; try reflexivity.
  - cbn. rewrite !sent_app. cbn. now rewrite !app_nil_r.
  - cbn. rewrite !emitted_app. cbn. now rewrite !app_nil_r.
Qed.

Lemma void_guarded_401 {A} (q : Request) (f : Response -> A)
    (failed other : string) (w : World) :
  answers_401 w ->
  exists q' w',
    void (guarded q f failed other) w = (Throw session_expired, w')
    /\ expired_from w w' q'.
Proof.
  intros H401.
  destruct (guarded_401 q f failed other w H401) as (w' & Hg & He).
  exists q, w'. split; [apply void_throw; exact Hg|exact He].
Qed.

(** Every gateway operation whose [catch] block calls [handleAuthError]
    answers a 401 by emitting [logout] and throwing the session-expired
    error. *)
Lemma handled_operation_401 (stringify : User -> string)
    (parse : string -> option User) (op : Operation) (w : World) :
  calls_handleAuthError op = true ->
  answers_401 w ->
  exists q w',
    perform stringify parse op w = (Throw session_expired, w')
    /\ expired_from w w' q.
Proof.
  intros Hop H401.
  destruct op; try discriminate Hop; cbn [perform].
  all: try (apply void_guarded_401; exact H401).
  - match goal with
    | |- context [api.getProducts ?t ?p ?s ?f] =>
        destruct (getProducts_guarded t p s f) as (sc & _ & Hg)
    end.
    pose proof (Hg w) as Hgw.
    match type of Hgw with
    | _ = guarded ?q ?f ?a ?b w =>
        destruct (guarded_401 q f a b w H401) as (w' & Hw & He)
    end.
    eexists _, w'. split; [|exact He].
    apply void_throw. rewrite Hgw. exact Hw.
  - match goal with
    | |- context [api.deleteProduct ?t ?s] =>
        destruct (guarded_401 (product_request t s) (fun _ => tt)
                    "Failed to delete product"
                    "An error occurred while deleting the product." w H401)
          as (w' & Hw & He)
    end.
    eexists _, w'. split; [exact Hw|exact He].
  - match goal with
    | |- context [api.deleteProductImage ?t ?s ?i] =>
        destruct (guarded_401 (media_request t s i) (fun _ => tt)
                    "Failed to delete product image"
                    "An error occurred while deleting the product image."
                    w H401)
          as (w' & Hw & He)
    end.
    eexists _, w'. split; [exact Hw|exact He].
  - match goal with
    | |- context [api.updateProduct ?t ?s ?d] =>
        destruct (updateProduct_401 t s d w H401) as (q & w' & Hw & He)
    end.
    exists q, w'. split; [apply void_throw; exact Hw|exact He].
Qed.

(** [getStats] passes on the session-expired error of its first call. *)
Lemma getStats_401 (token : Value) (w : World) :
  answers_401 w ->
  exists q w',
    api.getStats token w = (Throw session_expired, w')
    /\ expired_from w w' q.
Proof.
  intros H401.
  destruct (guarded_401
              {| req_method := GET;
                 req_url := BASE_URL ++ "/rest/V1/orders";
                 req_headers := [bearer token];
                 req_params :=
                   Some {| currentPage := 1; pageSize := 1;
                           sortOrders := [created_at_desc];
                           filterGroups := None |};
                 req_body := None |}
              (fun resp =>
                 {| items := data_items (data resp);
                    total_count := data_total_count (data resp);
                    current_page := 1;
                    total_pages :=
                      Js.ceil_div (data_total_count (data resp)) 1 |})
              "Failed to fetch orders"
              "An error occurred while fetching orders." w H401)
    as (w' & Hrun & Hexp).
  eexists _, w'. split; [|exact Hexp].
  unfold api.getStats, try_catch. unfold bind at 1.
  change (api.getOrders token 1 1 w) with
    (guarded
       {| req_method := GET;
          req_url := BASE_URL ++ "/rest/V1/orders";
          req_headers := [bearer token];
          req_params :=
            Some {| currentPage := 1; pageSize := 1;
                    sortOrders := [created_at_desc];
                    filterGroups := None |};
          req_body := None |}
       (fun resp =>
          {| items := data_items (data resp);
             total_count := data_total_count (data resp);
             current_page := 1;
             total_pages :=
               Js.ceil_div (data_total_count (data resp)) 1 |})
       "Failed to fetch orders"
       "An error occurred while fetching orders." w).
  rewrite Hrun. reflexivity.
Qed.

(** C2 fails on [deleteCategory].  When the platform answers its request
    with status 401, [deleteCategory] emits nothing and throws the error
    [Failed to delete category], which is not the session-expired error;
    every other gateway operation emits [logout] and throws the
    session-expired error ([handled_operation_401]). *)
Theorem deleteCategory_401_unhandled (id : Z) (w : World) (d : Value) :
  server w (sent (trace w))
    (deleteCategory_request id (storage w !! "token"))
    = Responded {| status := 401; data := d |} ->
  exists w',
    api.deleteCategory id w = (Throw (Error "Failed to delete category"), w')
    /\ emitted (trace w') = emitted (trace w)
    /\ pending w' = pending w
    /\ Error "Failed to delete category" <> session_expired.
Proof.
  intros Hs. eexists. split.
  - unfold deleteCategory_request in Hs.
    unfold api.deleteCategory, AsyncStorage.getItem, fetch, send.
    unfold bind. cbn beta iota. rewrite Hs. reflexivity.
  - cbn. rewrite emitted_app. cbn. rewrite app_nil_r.
    repeat split. discriminate.
Qed.

Lemma deleteCategory_401_unhandled_witness :
  exists w',
    api.deleteCategory 7 (logged_in (platform_always 401 (VString "")))
      = (Throw (Error "Failed to delete category"), w')
    /\ emitted (trace w') = []
    /\ pending w' = []
    /\ Error "Failed to delete category" <> session_expired.
Proof.
  apply (deleteCategory_401_unhandled 7
           (logged_in (platform_always 401 (VString ""))) (VString "")).
  reflexivity.
Defined.

(** ** Repeated expiry *)

Lemma expired_from_answers (srv_w : World) (w' : World) (q : Request) :
  always_401 (server srv_w) ->
  expired_from srv_w w' q ->
  always_401 (server w').
Proof. intros H (Hs & _). now rewrite Hs. Qed.

Lemma always_401_answers (w : World) : always_401 (server w) -> answers_401 w.
Proof. intros H q. apply H. Qed.

Lemma perform_all_cons (stringify : User -> string)
    (parse : string -> option User) (op : Operation) (ops : list Operation)
    (w : World) :
  perform_all stringify parse (op :: ops) w
  = perform_all stringify parse ops (snd (perform stringify parse op w)).
Proof. reflexivity. Qed.

Lemma perform_all_401 (stringify : User -> string)
    (parse : string -> option User) (ops : list Operation) (w : World) :
  Forall (fun op => calls_handleAuthError op = true) ops ->
  always_401 (server w) ->
  emitted (trace (perform_all stringify parse ops w))
    = (emitted (trace w) ++ repeat "logout" (length ops))%list
  /\ pending (perform_all stringify parse ops w)
     = (pending w
          ++ repeat ResumeHandleLogout
               (length ops * length (listening "logout" w)))%list.
Proof.
  intros Hops. revert w.
  induction Hops as [|op ops Hop _ IH]; intros w H401.
  - cbn. rewrite !app_nil_r. split; reflexivity.
  - rewrite !perform_all_cons.
    destruct (handled_operation_401 stringify parse op w Hop
                (always_401_answers w H401)) as (q & w1 & Hrun & Hexp).
    rewrite Hrun. cbn [snd].
    pose proof (expired_from_answers w w1 q H401 Hexp) as H401'.
    destruct (IH w1 H401') as [IHe IHp].
    destruct Hexp as (_ & Hl & _ & _ & _ & Hem & Hp & _).
    assert (Hlis : listening "logout" w1 = listening "logout" w)
      by (unfold listening; now rewrite Hl).
    rewrite IHe, IHp, Hem, Hp, Hlis.
    rewrite <- !app_assoc. cbn [length Nat.mul repeat app].
    rewrite repeat_app. split; reflexivity.
Qed.

Lemma receive_all_cons (error : JsError) (errors : list JsError)
    (w : World) :
  receive_all (error :: errors) w
  = receive_all errors (snd (handleAuthError error w)).
Proof. reflexivity. Qed.

Lemma receive_all_401 (errors : list JsError) (w : World) :
  Forall (fun error => is_401 error = true) errors ->
  emitted (trace (receive_all errors w))
    = (emitted (trace w) ++ repeat "logout" (length errors))%list
  /\ pending (receive_all errors w)
     = (pending w
          ++ repeat ResumeHandleLogout
               (length errors * length (listening "logout" w)))%list.
Proof.
  intros Herrors. revert w.
  induction Herrors as [|error errors H401 _ IH]; intros w.
  - cbn. rewrite !app_nil_r. split; reflexivity.
  - rewrite !receive_all_cons, handleAuthError_eq. cbn [snd].
    unfold after_auth_error. rewrite H401.
    destruct (emit_frame "logout" w) as (_ & Ht & Hl & Hp & _).
    destruct (IH (snd (EventRegister.emit "logout" w))) as [IHe IHp].
    assert (Hlis : listening "logout" (snd (EventRegister.emit "logout" w))
                   = listening "logout" w)
      by (unfold listening; now rewrite Hl).
    rewrite IHe, IHp, Ht, Hp, Hlis, emitted_app.
    rewrite <- !app_assoc. cbn [length Nat.mul repeat app emitted omap].
    rewrite repeat_app. split; reflexivity.
Qed.

(** C6, as the code has it.  Every call that receives a 401 emits its own
    [logout] event and starts [handleLogout] once for each listener.  This
    holds for [n] operations run in turn, and for the rejections of [n]
    calls in flight that arrive before any logout handler is resumed: [n]
    events are emitted and, with one listener, [n] logout handlers are
    left pending, none of them merged. *)
Theorem every_401_emits_logout (stringify : User -> string)
    (parse : string -> option User) (ops : list Operation)
    (errors : list JsError) (w : World) :
  Forall (fun op => calls_handleAuthError op = true) ops ->
  always_401 (server w) ->
  Forall (fun error => is_401 error = true) errors ->
  let w' := perform_all stringify parse ops w in
  let w'' := receive_all errors w in
  emitted (trace w')
    = (emitted (trace w) ++ repeat "logout" (length ops))%list
  /\ pending w'
     = (pending w
          ++ repeat ResumeHandleLogout
               (length ops * length (listening "logout" w)))%list
  /\ emitted (trace w'')
     = (emitted (trace w) ++ repeat "logout" (length errors))%list
  /\ pending w''
     = (pending w
          ++ repeat ResumeHandleLogout
               (length errors * length (listening "logout" w)))%list.
Proof.
  intros Hops H401 Herrors. cbn zeta.
  destruct (perform_all_401 stringify parse ops w Hops H401) as [He Hp].
  destruct (receive_all_401 errors w Herrors) as [He' Hp'].
  repeat split; assumption.
Qed.

Lemma every_401_emits_logout_witness :
  let ops := [OpGetOrders (VString "t0ken") 1 20;
              OpGetCustomers (VString "t0ken") 1 20] in
  let rejected :=
    rejection (Responded {| status := 401; data := VString "" |}) in
  let w := logged_in (platform_always 401 (VString "")) in
  let w' := perform_all sample_stringify sample_parse ops w in
  let w'' := receive_all [rejected; rejected] w in
  emitted (trace w') = ["logout"; "logout"]
  /\ pending w' = [ResumeHandleLogout; ResumeHandleLogout]
  /\ emitted (trace w'') = ["logout"; "logout"]
  /\ pending w'' = [ResumeHandleLogout; ResumeHandleLogout].
Proof.
  apply (every_401_emits_logout sample_stringify sample_parse
           [OpGetOrders (VString "t0ken") 1 20;
            OpGetCustomers (VString "t0ken") 1 20]
           [rejection (Responded {| status := 401; data := VString "" |});
            rejection (Responded {| status := 401; data := VString "" |})]
           (logged_in (platform_always 401 (VString "")))).
  - repeat constructor.
  - intros history q. eexists. reflexivity.
  - repeat constructor.
Defined.

Example two_401_two_teardowns :
  trace (settle (receive_all
                   [rejection (Responded {| status := 401; data := VString "" |});
                    rejection (Responded {| status := 401; data := VString "" |})]
                   (logged_in (platform_always 401 (VString "")))))
  = [Emitted "logout"; Emitted "logout"; Replaced "/"; Replaced "/"].
Proof. reflexivity. Qed.

(** C6 as stated fails: the rejections of two calls in flight, each with
    status 401 and both arriving before any logout handler is resumed,
    emit two [logout] events, not one. *)
Lemma two_401_one_broadcast_fails :
  ~ (forall (error1 error2 : JsError) (w : World),
        is_401 error1 = true ->
        is_401 error2 = true ->
        emitted (trace (receive_all [error1; error2] w))
        = (emitted (trace w) ++ ["logout"])%list).
Proof.
  intros H.
  specialize (H (rejection (Responded {| status := 401; data := VString "" |}))
                (rejection (Responded {| status := 401; data := VString "" |}))
                (logged_in (platform_always 401 (VString "")))
                eq_refl eq_refl).
  vm_compute in H. discriminate H.
Qed.

(** ** Logging out twice *)

Lemma handleLogout_eq (w : World) :
  handleLogout w
  = (Return tt,
     log (Replaced "/")
       (set_isAuthenticated false
          (set_user None (set_storage (delete "user") w)))).
Proof. reflexivity. Qed.

(** C8, as the code has it.  Both of two [handleLogout] calls in a row
    return without an error, and the second leaves the state of the first:
    no record under [user], no user in memory, not authenticated.  The
    second call is not without effect: it navigates to [/] once more. *)
Theorem handleLogout_twice (w : World) :
  let w1 := snd (handleLogout w) in
  let w2 := snd (handleLogout w1) in
  fst (handleLogout w) = Return tt
  /\ fst (handleLogout w1) = Return tt
  /\ storage w1 !! "user" = None
  /\ user w1 = None
  /\ isAuthenticated w1 = false
  /\ storage w2 = storage w1
  /\ user w2 = user w1
  /\ isAuthenticated w2 = isAuthenticated w1
  /\ listeners w2 = listeners w1
  /\ pending w2 = pending w1
  /\ trace w2 = (trace w1 ++ [Replaced "/"])%list.
Proof.
  cbn zeta. rewrite !handleLogout_eq. cbn [fst snd].
  repeat split.
  - cbn. apply lookup_delete_eq.
  - cbn. apply delete_delete_eq.
Qed.

(** C8 as stated fails: the second of two [handleLogout] calls has an
    effect of its own, a second navigation. *)
Lemma second_logout_no_effect_fails :
  ~ (forall w : World,
        trace (snd (handleLogout (snd (handleLogout w))))
        = trace (snd (handleLogout w))).
Proof.
  intros H.
  specialize (H (logged_in (platform_always 200 (VString "")))).
  vm_compute in H. discriminate H.
Qed.

(** ** What the operations do to the storage *)

Lemma keeps_ret {A} (a : A) : keeps_storage (ret a).
Proof. intros w k _. reflexivity. Qed.

Lemma keeps_throw {A} (e : JsError) : keeps_storage (@throw A e).
Proof. intros w k _. reflexivity. Qed.

Lemma keeps_effect (f : World -> World) :
  keeps_storage_fun f -> keeps_storage (effect f).
Proof. intros H w k Hk. cbn. apply H, Hk. Qed.

Lemma keeps_bind {A B} (m : M A) (f : A -> M B) :
  keeps_storage m -> (forall a, keeps_storage (f a)) ->
  keeps_storage (bind m f).
Proof.
  intros Hm Hf w k Hk. unfold bind.
  specialize (Hm w k Hk). destruct (m w) as [[a|e] w1]; cbn [snd] in *.
  - rewrite (Hf a w1 k Hk). exact Hm.
  - exact Hm.
Qed.

Lemma keeps_try_catch {A} (m : M A) (h : JsError -> M A) :
  keeps_storage m -> (forall e, keeps_storage (h e)) ->
  keeps_storage (try_catch m h).
Proof.
  intros Hm Hh w k Hk. unfold try_catch.
  specialize (Hm w k Hk). destruct (m w) as [[a|e] w1]; cbn [snd] in *.
  - exact Hm.
  - rewrite (Hh e w1 k Hk). exact Hm.
Qed.

Lemma keeps_try_finally {A} (m : M A) (f : World -> World) :
  keeps_storage m -> keeps_storage_fun f -> keeps_storage (try_finally m f).
Proof.
  intros Hm Hf w k Hk. unfold try_finally.
  specialize (Hm w k Hk). destruct (m w) as [r w1]; cbn [snd] in *.
  rewrite (Hf w1 k Hk). exact Hm.
Qed.

Lemma keeps_for_of {A} (l : list A) (f : A -> M unit) :
  (forall a, keeps_storage (f a)) -> keeps_storage (for_of l f).
Proof.
  intros Hf. induction l as [|a l IH]; cbn [for_of].
  - apply keeps_ret.
  - apply keeps_bind; [apply Hf|intros _; exact IH].
Qed.

Lemma keeps_log (e : Effect) : keeps_storage_fun (log e).
Proof. intros w k _. reflexivity. Qed.

Lemma keeps_set_user (u : option User) : keeps_storage_fun (set_user u).
Proof. intros w k _. reflexivity. Qed.

Lemma keeps_set_isAuthenticated (b : bool) :
  keeps_storage_fun (set_isAuthenticated b).
Proof. intros w k _. reflexivity. Qed.

Lemma keeps_set_listeners (f : World -> list (string * Callback)) :
  keeps_storage_fun (fun w => set_listeners (f w) w).
Proof. intros w k _. reflexivity. Qed.

Lemma keeps_getItem (key : string) : keeps_storage (AsyncStorage.getItem key).
Proof. intros w k _. reflexivity. Qed.

Lemma keeps_setItem_user (val : string) :
  keeps_storage (AsyncStorage.setItem "user" val).
Proof.
  intros w k Hk. cbn. apply lookup_insert_ne. congruence.
Qed.

Lemma keeps_removeItem_user : keeps_storage (AsyncStorage.removeItem "user").
Proof.
  intros w k Hk. cbn. apply lookup_delete_ne. congruence.
Qed.

Lemma keeps_emit (eventName : string) :
  keeps_storage (EventRegister.emit eventName).
Proof.
  intros w k Hk.
  destruct (emit_frame eventName w) as (_ & _ & _ & _ & _ & _ & H & _).
  apply H, Hk.
Qed.

Lemma keeps_send (q : Request) : keeps_storage (send q).
Proof. intros w k _. reflexivity. Qed.

Lemma keeps_pure {A} (m : M A) :
  (exists a, forall w, m w = (Return a, w)) -> keeps_storage m.
Proof. intros (a & H) w k _. rewrite H. reflexivity. Qed.

(** Splits a goal about a composed computation into goals about its
    parts. *)
Ltac keeps :=
  repeat match goal with
    | |- keeps_storage (ret _) => apply keeps_ret
    | |- keeps_storage (throw _) => apply keeps_throw
    | |- keeps_storage (bind _ _) => apply keeps_bind; [|intros ?]
    | |- keeps_storage (try_catch _ _) => apply keeps_try_catch; [|intros ?]
    | |- keeps_storage (try_finally _ _) => apply keeps_try_finally
    | |- keeps_storage (for_of _ _) => apply keeps_for_of; intros ?
    | |- keeps_storage (effect _) => apply keeps_effect
    | |- keeps_storage (AsyncStorage.getItem _) => apply keeps_getItem
    | |- keeps_storage (AsyncStorage.setItem "user" _) =>
        apply keeps_setItem_user
    | |- keeps_storage (AsyncStorage.removeItem "user") =>
        apply keeps_removeItem_user
    | |- keeps_storage (EventRegister.emit _) => apply keeps_emit
    | |- keeps_storage (send _) => apply keeps_send
    | |- keeps_storage_fun (log _) => apply keeps_log
    | |- keeps_storage_fun (set_user _) => apply keeps_set_user
    | |- keeps_storage_fun (set_isAuthenticated _) =>
        apply keeps_set_isAuthenticated
    | |- keeps_storage (match ?x with _ => _ end) => destruct x
    end.

Lemma keeps_axios (q : Request) : keeps_storage (axios q).
Proof. unfold axios. keeps. Qed.

Lemma keeps_fetch (q : Request) : keeps_storage (fetch q).
Proof. unfold fetch. keeps. Qed.

Lemma keeps_handleAuthError (e : JsError) : keeps_storage (handleAuthError e).
Proof. unfold handleAuthError. keeps. Qed.

Lemma keeps_on_error {A} (failed other : string) (e : JsError) :
  keeps_storage (@on_error A failed other e).
Proof.
  unfold on_error, classify.
  apply keeps_bind; [apply keeps_handleAuthError|intros _]. keeps.
Qed.

Lemma keeps_guarded {A} (q : Request) (f : Response -> A)
    (failed other : string) :
  keeps_storage (guarded q f failed other).
Proof.
  unfold guarded. apply keeps_try_catch.
  - apply keeps_bind; [apply keeps_axios|intros ?; apply keeps_ret].
  - intros e. apply keeps_on_error.
Qed.

Lemma keeps_void {A} (m : M A) : keeps_storage m -> keeps_storage (void m).
Proof. intros H. unfold void. apply keeps_bind; [exact H|intros ?; keeps]. Qed.

Lemma keeps_getProducts (token : Value) (page size : Z)
    (f : option ProductFilters) :
  keeps_storage (api.getProducts token page size f).
Proof.
  unfold api.getProducts. apply keeps_try_catch.
  - apply keeps_bind.
    + apply keeps_pure. apply getProducts_searchCriteria_pure.
    + intros sc. apply keeps_bind; [apply keeps_axios|intros ?; apply keeps_ret].
  - intros e. apply keeps_on_error.
Qed.

Lemma keeps_resume (t : Task) : keeps_storage_fun (resume t).
Proof.
  destruct t. unfold resume, handleLogout_after_await, router.replace.
  intros w k Hk. revert w k Hk.
  change (keeps_storage
            (try_catch
               (effect (set_user None) ;;
                effect (set_isAuthenticated false) ;;
                effect (log (Replaced "/")))
               (fun _ => effect (log ConsoleLogged)))).
  keeps.
Qed.

Lemma keeps_settle : keeps_storage_fun settle.
Proof.
  intros w k Hk. unfold settle.
  change (storage w !! k) with (storage (set_pending [] w) !! k).
  generalize (set_pending [] w) as w0.
  induction (pending w) as [|t l IH]; intros w0; cbn [fold_left].
  - reflexivity.
  - rewrite IH. apply keeps_resume, Hk.
Qed.

(** The same, with the gateway's own building blocks. *)
Ltac keeps_api :=
  repeat first
    [ progress keeps
    | match goal with
      | |- keeps_storage (axios _) => apply keeps_axios
      | |- keeps_storage (fetch _) => apply keeps_fetch
      | |- keeps_storage (on_error _ _ _) => apply keeps_on_error
      | |- keeps_storage (handleAuthError _) => apply keeps_handleAuthError
      | |- keeps_storage (void _) => apply keeps_void
      | |- keeps_storage (api.getProducts _ _ _ _) => apply keeps_getProducts
      | |- keeps_storage_fun settle => apply keeps_settle
      | |- keeps_storage_fun _ => intros ? ? ?; reflexivity
      end ].

Lemma keeps_deleteSelected_item (u : option User) (products : list Product)
    (sku : string) :
  keeps_storage (deleteSelected_item u products sku).
Proof.
  unfold deleteSelected_item, api.deleteProductImage, api.deleteProduct.
  keeps_api.
Qed.

Lemma keeps_handleDeleteSelected (u : option User) (products : list Product)
    (selectedProducts : list string) (pressed : Button) :
  keeps_storage (handleDeleteSelected u products selectedProducts pressed).
Proof.
  unfold handleDeleteSelected, handleDeleteSelected_onPress.
  keeps_api. apply keeps_deleteSelected_item.
Qed.

(** No operation changes what the storage holds under a key other than
    [user]. *)
Lemma keeps_perform (stringify : User -> string)
    (parse : string -> option User) (op : Operation) :
  keeps_storage (perform stringify parse op).
Proof.
  destruct op; cbn [perform];
    unfold api.login, api.getOrders, api.getOrderDetails,
      api.getProductDetails, api.getCustomers, api.getCustomerDetails,
      api.getCategories, api.getCategoryDetails, api.getStats,
      api.createProduct, api.uploadProductImage, api.deleteProduct,
      api.deleteProductImage, api.updateProduct, api.deleteCategory,
      AuthProvider_mount, checkAuthState, handleLogin, handleLogout,
      handleLogout_until_await, handleLogout_after_await, router.replace,
      EventRegister.addEventListener, api.login;
    unfold api.getOrders, api.getCustomers, api.login;
    try (keeps_api; fail).
  intros w k Hk. apply keeps_handleDeleteSelected, Hk.
Qed.

Lemma keeps_perform_all (stringify : User -> string)
    (parse : string -> option User) (ops : list Operation) (w : World)
    (k : string) :
  k <> "user" ->
  storage (perform_all stringify parse ops w) !! k = storage w !! k.
Proof.
  intros Hk. revert w.
  induction ops as [|op ops IH]; intros w; [reflexivity|].
  rewrite perform_all_cons, IH. apply keeps_perform, Hk.
Qed.

(** ** The credential of [deleteCategory] *)

Lemma deleteCategory_sends (id : Z) (w : World) :
  trace (snd (api.deleteCategory id w))
  = (trace w ++ [Sent (deleteCategory_request id (storage w !! "token"))])%list.
Proof.
  unfold api.deleteCategory, AsyncStorage.getItem, fetch, send.
  unfold bind. cbn beta iota.
  fold (deleteCategory_request id (storage w !! "token")).
  destruct (server w (sent (trace w))
              (deleteCategory_request id (storage w !! "token")))
    as [resp|msg|msg]; unfold ret, throw; cbn beta iota.
  - destruct (negb (ok resp)); reflexivity.
  - reflexivity.
  - reflexivity.
Qed.

Lemma axios_world (q : Request) (w : World) :
  snd (axios q w) = log (Sent q) w.
Proof.
  destruct (accepted (server w (sent (trace w)) q)) eqn:Ha.
  - destruct (accepted_inv _ Ha) as (resp & Hs & H2).
    now rewrite (axios_accepted q w resp Hs H2).
  - now rewrite (axios_rejected q w Ha).
Qed.

Lemma login_returns (username password : string) (w w1 : World) (t : Value) :
  api.login username password w = (Return t, w1) ->
  storage w1 = storage w /\ user w1 = user w.
Proof.
  unfold api.login, try_catch, bind.
  match goal with
  | |- context [axios ?q w] =>
      pose proof (axios_world q w) as Hw;
      destruct (axios q w) as [[resp|e] w0]
  end; cbn [snd] in Hw; subst w0.
  - destruct (negb (truthy (data resp))); cbn.
    + intros H; discriminate H.
    + intros H; inversion H; subst. split; reflexivity.
  - destruct (response e) as [r|]; [|destruct (request e)]; cbn;
      intros H; discriminate H.
Qed.

(** A login that succeeds writes the session under the key [user] and
    nowhere else. *)
Lemma handleLogin_persists (stringify : User -> string)
    (username password : string) (w w' : World) :
  handleLogin stringify username password w = (Return tt, w') ->
  exists t,
    storage w'
      = <["user" := stringify {| username := username; token := t |}]>
          (storage w)
    /\ user w' = Some {| username := username; token := t |}
    /\ isAuthenticated w' = true.
Proof.
  unfold handleLogin, try_catch. unfold bind at 1.
  destruct (api.login username password w) as [[t|e] w1] eqn:E.
  - destruct (login_returns username password w w1 t E) as [Hst Hu].
    cbn. intros H. inversion H; subst. exists t. cbn. rewrite Hst.
    repeat split.
  - cbn. intros H; discriminate H.
Qed.

(** C9.  [deleteCategory] attaches the value that the storage holds under
    the key [token]: its one request carries the header
    [Authorization: Bearer] followed by that value, and by [null] when the
    storage holds nothing there.  No operation changes what is under
    [token], and a login that succeeds persists the session under the key
    [user] only: after any operations, logins among them, the header is
    what it would have been before them, so it never carries the token
    obtained at login, and it is [Bearer null] on a device whose storage
    had no [token]. *)
Theorem deleteCategory_bearer_from_storage (stringify : User -> string)
    (parse : string -> option User) (ops : list Operation) (w : World)
    (id : Z) :
  let w1 := perform_all stringify parse ops w in
  let credential :=
    match storage w !! "token" with
    | Some value => value
    | None => "null"
    end in
  trace (snd (api.deleteCategory id w1))
    = (trace w1
         ++ [Sent {| req_method := DELETE;
                     req_url :=
                       ("https://www.wholesale-supplier.uk/categories/"
                          ++ pretty id)%string;
                     req_headers :=
                       [("Authorization",
                         ("Bearer " ++ credential)%string);
                        ("Content-Type", "application/json")];
                     req_params := None;
                     req_body := None |}])%list
  /\ storage w1 !! "token" = storage w !! "token"
  /\ (forall username password w0 w0',
         handleLogin stringify username password w0 = (Return tt, w0') ->
         storage w0' !! "token" = storage w0 !! "token"
         /\ exists t,
              storage w0' !! "user"
                = Some (stringify {| username := username; token := t |})
              /\ user w0' = Some {| username := username; token := t |}).
Proof.
  cbn zeta.
  assert (Hkeep : storage (perform_all stringify parse ops w) !! "token"
                  = storage w !! "token")
    by (apply keeps_perform_all; discriminate).
  split; [|split; [exact Hkeep|]].
  - rewrite deleteCategory_sends, Hkeep.
    destruct (storage w !! "token") as [value|]; reflexivity.
  - intros username password w0 w0' Hlogin.
    destruct (handleLogin_persists stringify username password w0 w0' Hlogin)
      as (t & Hst & Hu & _).
    split.
    + rewrite Hst. apply lookup_insert_ne. discriminate.
    + exists t. split; [|exact Hu]. rewrite Hst. apply lookup_insert_eq.
Qed.

(** After a login on a fresh installation the header is [Bearer null],
    not the token of the login; on a device that holds [abc] under
    [token] it is [Bearer abc]. *)
Lemma deleteCategory_bearer_from_storage_witness :
  let fresh := initial (platform_always 200 (VString "t0ken")) in
  let ops := [OpMount; OpHandleLogin "admin" "secret"] in
  let w1 := perform_all sample_stringify sample_parse ops fresh in
  let w2 :=
    {| storage := {[ "token" := "abc" ]}; user := None;
       isAuthenticated := false; listeners := []; pending := [];
       server := platform_always 200 (VString ""); trace := [] |} in
  user w1 = Some {| username := "admin"; token := VString "t0ken" |}
  /\ trace (snd (api.deleteCategory 7 w1))
     = (trace w1
          ++ [Sent {| req_method := DELETE;
                      req_url :=
                        "https://www.wholesale-supplier.uk/categories/7";
                      req_headers :=
                        [("Authorization", "Bearer null");
                         ("Content-Type", "application/json")];
                      req_params := None;
                      req_body := None |}])%list
  /\ trace (snd (api.deleteCategory 7 w2))
     = [Sent {| req_method := DELETE;
                req_url := "https://www.wholesale-supplier.uk/categories/7";
                req_headers :=
                  [("Authorization", "Bearer abc");
                   ("Content-Type", "application/json")];
                req_params := None;
                req_body := None |}].
Proof.
  cbn zeta. split; [reflexivity|]. split.
  - exact (proj1 (deleteCategory_bearer_from_storage sample_stringify
                    sample_parse
                    [OpMount; OpHandleLogin "admin" "secret"]
                    (initial (platform_always 200 (VString "t0ken"))) 7)).
  - exact (proj1 (deleteCategory_bearer_from_storage sample_stringify
                    sample_parse []
                    {| storage := {[ "token" := "abc" ]}; user := None;
                       isAuthenticated := false; listeners := [];
                       pending := [];
                       server := platform_always 200 (VString "");
                       trace := [] |} 7)).
Defined.

(** ** The category search *)

Lemma prefix_spec (t s : string) :
  String.prefix t s = true <-> exists after, s = t ++ after.
Proof.
  revert t. induction s as [|b s IH]; intros [|a t]; cbn.
  - split; [intros _; exists ""; reflexivity|reflexivity].
  - split; [discriminate|]. intros (after & H). discriminate H.
  - split; [intros _; exists (String b s); reflexivity|reflexivity].
  - destruct (ascii_dec a b) as [->|Hne].
    + rewrite IH. split; intros (after & H); exists after.
      * now rewrite H.
      * now injection H.
    + split; [discriminate|]. intros (after & H). injection H as H1 H2.
      congruence.
Qed.

Lemma includes_spec (s t : string) :
  Js.includes s t = true <-> substring_of t s.
Proof.
  unfold substring_of. induction s as [|c s IH]; cbn [Js.includes].
  - rewrite orb_false_r, prefix_spec. split.
    + intros (after & H). exists "", after. exact H.
    + intros (before & after & H). destruct before; [|discriminate H].
      exists after. exact H.
  - rewrite orb_true_iff, prefix_spec, IH. split.
    + intros [(after & H)|(before & after & H)].
      * exists "", after. exact H.
      * exists (String c before), after. cbn. now rewrite H.
    + intros (before & after & H). destruct before as [|b before].
      * left. exists after. exact H.
      * right. cbn in H. injection H as _ H. eauto.
Qed.

(** Induction on a category with the hypothesis for all its children. *)
Lemma Category_induction (P : Category -> Prop) :
  (forall i p n a pos lv pc, P (mkCategory i p n a pos lv pc None)) ->
  (forall i p n a pos lv pc children,
      Forall P children -> P (mkCategory i p n a pos lv pc (Some children))) ->
  forall c, P c.
Proof.
  intros HNone HSome. fix IH 1. intros [i p n a pos lv pc [children|]].
  - apply HSome. revert children. fix IHl 1. intros [|x children].
    + constructor.
    + constructor; [apply IH|apply IHl].
  - apply HNone.
Qed.

Lemma descendant_of_inv (d c : Category) :
  descendant_of d c ->
  exists m, child_of m c /\ (d = m \/ descendant_of d m).
Proof. intros [d' c' H|d' m c' H1 H2]; eauto. Qed.

Lemma matchesSearch_spec (toLowerCase : string -> string)
    (searchLower : string) (c : Category) :
  matchesSearch toLowerCase searchLower c = true
  <-> (Js.includes (toLowerCase (cat_name c)) searchLower = true
       \/ exists d, descendant_of d c
                    /\ Js.includes (toLowerCase (cat_name d)) searchLower
                       = true).
Proof.
  induction c as [i p n a pos lv pc|i p n a pos lv pc children IH]
    using Category_induction; cbn [matchesSearch cat_name].
  - split; [intros H; left; exact H|].
    intros [H|(d & Hd & _)]; [exact H|].
    apply descendant_of_inv in Hd.
    destruct Hd as (m & (l & Hl & _) & _). discriminate Hl.
  - rewrite orb_true_iff, existsb_exists. split.
    + intros [H|(x & Hx & Hm)]; [left; exact H|right].
      rewrite List.Forall_forall in IH. apply (IH x Hx) in Hm.
      assert (Hchild : child_of x (mkCategory i p n a pos lv pc (Some children)))
        by (exists children; split; [reflexivity|exact Hx]).
      destruct Hm as [Hm|(d & Hd & Hm)].
      * exists x. split; [apply descendant_child; exact Hchild|exact Hm].
      * exists d. split; [|exact Hm].
        eapply descendant_step; [exact Hd|exact Hchild].
    + intros [H|(d & Hd & Hm)]; [left; exact H|right].
      apply descendant_of_inv in Hd.
      destruct Hd as (m & (l & Hl & Hin) & Hdm).
      cbn in Hl. injection Hl as <-.
      exists m. split; [exact Hin|].
      rewrite List.Forall_forall in IH. apply (IH m Hin).
      destruct Hdm as [->|Hdm]; [left; exact Hm|right; eauto].
Qed.

Lemma matchesSearch_name_contains (toLowerCase : string -> string)
    (searchQuery : string) (c : Category) :
  matchesSearch toLowerCase (toLowerCase searchQuery) c = true
  <-> (name_contains toLowerCase searchQuery c
       \/ exists d, descendant_of d c
                    /\ name_contains toLowerCase searchQuery d).
Proof.
  rewrite matchesSearch_spec. unfold name_contains.
  rewrite includes_spec. split.
  - intros [H|(d & Hd & H)]; [left; exact H|right].
    exists d. split; [exact Hd|]. apply includes_spec. exact H.
  - intros [H|(d & Hd & H)]; [left; exact H|right].
    exists d. split; [exact Hd|]. apply includes_spec. exact H.
Qed.


Example filteredCategories_spade :
  filteredCategories latin_toLowerCase [garden; kitchen] "SPADE" = [garden].
Proof. reflexivity. Qed.

Example filteredCategories_absent :
  filteredCategories latin_toLowerCase [garden; kitchen] "ladder" = [].
Proof. reflexivity. Qed.


(** ** The bulk delete *)

Lemma alerts_app (t1 t2 : list Effect) :
  alerts (t1 ++ t2) = (alerts t1 ++ alerts t2)%list.
Proof. unfold alerts. apply omap_app. Qed.

Lemma sent_log_other (e : Effect) (w : World) :
  (forall r, e <> Sent r) -> sent (trace (log e w)) = sent (trace w).
Proof.
  intros H. cbn [trace log]. rewrite sent_app.
  destruct e; cbn; rewrite ?app_nil_r; try reflexivity.
  exfalso. eapply H. reflexivity.
Qed.

Lemma alerts_log_Alerted (title msg : string) (w : World) :
  alerts (trace (log (Alerted title msg) w))
  = (alerts (trace w) ++ [(title, msg)])%list.
Proof. cbn [trace log]. rewrite alerts_app. reflexivity. Qed.

Lemma alerts_log_other (e : Effect) (w : World) :
  (forall title msg, e <> Alerted title msg) ->
  alerts (trace (log e w)) = alerts (trace w).
Proof.
  intros H. cbn [trace log]. rewrite alerts_app.
  destruct e; cbn; rewrite ?app_nil_r; try reflexivity.
  exfalso. eapply H. reflexivity.
Qed.

Lemma sent_map_Sent (qs : list Request) : sent (map Sent qs) = qs.
Proof. induction qs as [|q qs IH]; cbn; [reflexivity|]. now f_equal. Qed.

Lemma alerts_map_Sent (qs : list Request) : alerts (map Sent qs) = [].
Proof. induction qs as [|q qs IH]; cbn; [reflexivity|exact IH]. Qed.

Lemma logs_frame (es : list Effect) (w : World) :
  trace (logs es w) = (trace w ++ es)%list
  /\ server (logs es w) = server w.
Proof.
  revert w. induction es as [|e es IH]; intros w; cbn [logs fold_left].
  - rewrite app_nil_r. split; reflexivity.
  - destruct (IH (log e w)) as [Ht Hs]. unfold logs in Ht, Hs.
    rewrite Ht, Hs. cbn. rewrite <- app_assoc. split; reflexivity.
Qed.

Lemma after_auth_error_trace (error : JsError) (w : World) :
  trace (after_auth_error error w)
  = (trace w ++ if is_401 error then [Emitted "logout"] else [])%list.
Proof.
  unfold after_auth_error. destruct (is_401 error).
  - destruct (emit_frame "logout" w) as (_ & Ht & _). exact Ht.
  - now rewrite app_nil_r.
Qed.

Lemma alerts_after_auth_error (error : JsError) (w : World) :
  alerts (trace (after_auth_error error w)) = alerts (trace w).
Proof.
  rewrite after_auth_error_trace, alerts_app.
  destruct (is_401 error); cbn; now rewrite app_nil_r.
Qed.

Lemma guarded_messages {A} (q : Request) (f : Response -> A)
    (failed other failed' other' : string) (w : World) :
  guarded q f failed other w = guarded q f failed' other' w.
Proof.
  destruct (accepted (server w (sent (trace w)) q)) eqn:Ha.
  - destruct (accepted_inv _ Ha) as (resp & Hs & H2).
    now rewrite !(guarded_accepted q f _ _ w resp Hs H2).
  - now rewrite !(guarded_rejected q f _ _ w Ha).
Qed.

Lemma deleteProductImage_attempt (token : Value) (sku : string) (imageId : Z)
    (w : World) :
  api.deleteProductImage token sku imageId w
  = attempt (media_request token sku imageId) w.
Proof. apply (guarded_messages (media_request token sku imageId)). Qed.

Lemma deleteProduct_attempt (token : Value) (sku : string) (w : World) :
  api.deleteProduct token sku w = attempt (product_request token sku) w.
Proof. apply (guarded_messages (product_request token sku)). Qed.

Lemma attempt_accepted (q : Request) (w : World) :
  accepted (server w (sent (trace w)) q) = true ->
  attempt q w = (Return tt, log (Sent q) w).
Proof.
  intros Ha. destruct (accepted_inv _ Ha) as (resp & Hs & H2).
  apply (guarded_accepted q (fun _ => tt) _ _ w resp Hs H2).
Qed.

Lemma attempt_rejected (q : Request) (w : World) :
  accepted (server w (sent (trace w)) q) = false ->
  attempt q w
  = (Throw (thrown (rejection (server w (sent (trace w)) q))),
     after_auth_error (rejection (server w (sent (trace w)) q))
       (log (Sent q) w)).
Proof. apply guarded_rejected. Qed.

Lemma for_of_ext {A} (l : list A) (f g : A -> M unit) :
  (forall a w, f a w = g a w) -> forall w, for_of l f w = for_of l g w.
Proof.
  intros Hfg. induction l as [|a l IH]; intros w; cbn [for_of];
    [reflexivity|].
  unfold bind. rewrite Hfg. destruct (g a w) as [[[]|e] w1];
    [apply IH|reflexivity].
Qed.

Lemma for_of_app {A} (l1 l2 : list A) (f : A -> M unit) (w : World) :
  for_of (l1 ++ l2) f w = (for_of l1 f ;; for_of l2 f) w.
Proof.
  revert w. induction l1 as [|a l1 IH]; intros w; cbn [for_of app].
  - reflexivity.
  - unfold bind. destruct (f a w) as [[[]|e] w1]; [|reflexivity].
    rewrite IH. reflexivity.
Qed.

Lemma for_of_map {A B} (h : A -> B) (l : list A) (f : B -> M unit)
    (w : World) :
  for_of (map h l) f w = for_of l (fun a => f (h a)) w.
Proof.
  revert w. induction l as [|a l IH]; intros w; cbn [for_of map];
    [reflexivity|].
  unfold bind. destruct (f (h a) w) as [[[]|e] w1]; [apply IH|reflexivity].
Qed.

(** An item of the bulk delete is the sequence of its steps. *)
Lemma deleteSelected_item_steps (u : option User) (products : list Product)
    (sku : string) (w : World) :
  deleteSelected_item u products sku w
  = for_of (steps (token_or_empty u) products sku) attempt w.
Proof.
  unfold deleteSelected_item, steps, sub_steps, media_of.
  rewrite for_of_app. unfold bind at 1 2.
  destruct (List.find (fun p => String.eqb (p_sku p) sku) products
              ≫= p_media_gallery_entries) as [entries|];
    cbn [from_option id].
  - rewrite for_of_map.
    rewrite (for_of_ext entries _
               (fun a => attempt
                           (media_request (token_or_empty u) sku (me_id a))))
      by (intros a w0; apply deleteProductImage_attempt).
    destruct (for_of entries _ w) as [[[]|e] w1]; [|reflexivity].
    rewrite deleteProduct_attempt. cbn [for_of]. unfold bind.
    destruct (attempt _ w1) as [[[]|e] w2]; reflexivity.
  - cbn [map for_of ret]. rewrite deleteProduct_attempt. cbn [for_of].
    unfold bind. destruct (attempt _ w) as [[[]|e] w2]; reflexivity.
Qed.

(** The loop of the bulk delete is the sequence of the steps of its
    items. *)
Lemma deleteSelected_plan (u : option User) (products : list Product)
    (selectedProducts : list string) (w : World) :
  for_of selectedProducts (deleteSelected_item u products) w
  = for_of (plan (token_or_empty u) products selectedProducts) attempt w.
Proof.
  revert w. induction selectedProducts as [|sku l IH]; intros w;
    [reflexivity|].
  unfold plan. cbn [map concat for_of]. fold (plan (token_or_empty u) products l).
  rewrite for_of_app. unfold bind.
  rewrite deleteSelected_item_steps.
  destruct (for_of (steps _ products sku) attempt w) as [[[]|e] w1];
    [apply IH|reflexivity].
Qed.

Lemma attempts_accepted (qs : list Request) (w : World) :
  all_accepted (server w) (sent (trace w)) qs = true ->
  for_of qs attempt w = (Return tt, logs (map Sent qs) w).
Proof.
  revert w. induction qs as [|q qs IH]; intros w; cbn [all_accepted];
    [reflexivity|].
  rewrite andb_true_iff. intros [Hq Hqs].
  cbn [for_of]. unfold bind. rewrite (attempt_accepted q w Hq).
  apply IH. rewrite sent_log_Sent. exact Hqs.
Qed.

(** The steps run in order and stop at the first one that the platform
    does not accept. *)
Lemma attempts_rejected (before : list Request) (q : Request)
    (after : list Request) (w : World) :
  all_accepted (server w) (sent (trace w)) before = true ->
  accepted (server w (sent (trace w) ++ before) q) = false ->
  let error := rejection (server w (sent (trace w) ++ before) q) in
  for_of (before ++ q :: after) attempt w
  = (Throw (thrown error),
     after_auth_error error (log (Sent q) (logs (map Sent before) w))).
Proof.
  revert w. induction before as [|p before IH]; intros w;
    cbn [all_accepted app].
  - intros _. rewrite app_nil_r. intros Hq. cbn zeta.
    cbn [for_of]. unfold bind. rewrite (attempt_rejected q w Hq). reflexivity.
  - rewrite andb_true_iff. intros [Hp Hbefore] Hq. cbn zeta.
    cbn [for_of]. unfold bind. rewrite (attempt_accepted p w Hp).
    assert (Hhist : (sent (trace w) ++ p :: before
                     = sent (trace (log (Sent p) w)) ++ before)%list)
      by (rewrite sent_log_Sent, <- app_assoc; reflexivity).
    rewrite Hhist in *.
    apply (IH (log (Sent p) w)).
    + rewrite sent_log_Sent. exact Hbefore.
    + exact Hq.
Qed.

Lemma onPress_failure (u : option User) (products : list Product)
    (selectedProducts : list string) (w w1 : World) (e : JsError) :
  for_of selectedProducts (deleteSelected_item u products)
    (log (SetLoading true) w) = (Throw e, w1) ->
  handleDeleteSelected_onPress u products selectedProducts w
  = (Return tt,
     log (SetLoading false) (log (Alerted "Error" (message e)) w1)).
Proof.
  intros H. unfold handleDeleteSelected_onPress, try_finally, try_catch.
  unfold bind at 1. cbn [effect]. unfold bind at 1. rewrite H. reflexivity.
Qed.

Lemma onPress_success (u : option User) (products : list Product)
    (selectedProducts : list string) (w w1 : World) :
  for_of selectedProducts (deleteSelected_item u products)
    (log (SetLoading true) w) = (Return tt, w1) ->
  handleDeleteSelected_onPress u products selectedProducts w
  = (Return tt,
     logs [SetSelectedProducts []; SetIsSelectionMode false;
           StartedFetchProducts;
           Alerted "Success" "Products deleted successfully";
           SetLoading false] w1).
Proof.
  intros H. unfold handleDeleteSelected_onPress, try_finally, try_catch.
  unfold bind at 1. cbn [effect]. unfold bind at 1. rewrite H. reflexivity.
Qed.

Lemma plan_split (token : Value) (products : list Product)
    (before : list string) (sku : string) (after : list string) :
  plan token products (before ++ sku :: after)
  = (plan token products before ++ steps token products sku
       ++ plan token products after)%list.
Proof. unfold plan. rewrite map_app, concat_app. reflexivity. Qed.

(** When every step is accepted, the bulk delete runs the whole plan and
    reports success. *)
Lemma bulk_delete_all_accepted (u : option User) (products : list Product)
    (selectedProducts : list string) (w : World) :
  let todo := plan (token_or_empty u) products selectedProducts in
  all_accepted (server w) (sent (trace w)) todo = true ->
  let w' := snd (handleDeleteSelected_onPress u products selectedProducts w) in
  sent (trace w') = (sent (trace w) ++ todo)%list
  /\ alerts (trace w')
     = (alerts (trace w)
          ++ [("Success", "Products deleted successfully")])%list.
Proof.
  cbn zeta. intros Hall.
  rewrite (onPress_success u products selectedProducts w
             (logs (map Sent (plan (token_or_empty u) products selectedProducts))
                (log (SetLoading true) w))).
  - cbn [snd].
    destruct (logs_frame
                [SetSelectedProducts []; SetIsSelectionMode false;
                 StartedFetchProducts;
                 Alerted "Success" "Products deleted successfully";
                 SetLoading false]
                (logs (map Sent (plan (token_or_empty u) products
                                   selectedProducts))
                   (log (SetLoading true) w))) as [Ht _].
    rewrite Ht.
    destruct (logs_frame
                (map Sent (plan (token_or_empty u) products selectedProducts))
                (log (SetLoading true) w)) as [Ht' _].
    rewrite Ht'. cbn [trace log].
    rewrite !sent_app, !alerts_app, sent_map_Sent, alerts_map_Sent.
    cbn. rewrite !app_nil_r. split; reflexivity.
  - rewrite deleteSelected_plan. apply attempts_accepted.
    cbn. rewrite sent_app. cbn. rewrite app_nil_r. exact Hall.
Qed.

(** C3, as the code has it.  The bulk delete runs the steps of the selected
    items in order inside one [try] block.  When the step [q] of an item is
    the first that the platform does not accept, the requests sent are the
    steps before [q] and [q] itself: no later step of that item and no
    step of a later item is attempted, and the handler shows the error of
    [q] in an alert instead of the success alert. *)
Theorem bulk_delete_stops_at_first_failure (u : option User)
    (products : list Product) (before : list string) (sku : string)
    (after : list string) (j : nat) (q : Request) (w : World) :
  let token := token_or_empty u in
  let done :=
    (plan token products before ++ take j (steps token products sku))%list in
  steps token products sku !! j = Some q ->
  all_accepted (server w) (sent (trace w)) done = true ->
  accepted (server w (sent (trace w) ++ done) q) = false ->
  let error := rejection (server w (sent (trace w) ++ done) q) in
  let run :=
    handleDeleteSelected_onPress u products (before ++ sku :: after) w in
  fst run = Return tt
  /\ sent (trace (snd run)) = (sent (trace w) ++ done ++ [q])%list
  /\ alerts (trace (snd run))
     = (alerts (trace w) ++ [("Error", message (thrown error))])%list.
Proof.
  cbn zeta. intros Hq Hdone Hrej.
  set (token := token_or_empty u) in *.
  set (done := (plan token products before
                  ++ take j (steps token products sku))%list) in *.
  set (error := rejection (server w (sent (trace w) ++ done) q)).
  set (w0 := log (SetLoading true) w).
  assert (Hw0 : sent (trace w0) = sent (trace w))
    by (cbn; rewrite sent_app; cbn; now rewrite app_nil_r).
  assert (Hplan : plan token products (before ++ sku :: after)
                  = (done ++ q :: drop (S j) (steps token products sku)
                       ++ plan token products after)%list).
  { rewrite plan_split. unfold done. rewrite <- app_assoc. f_equal.
    rewrite <- (take_drop_middle _ _ _ Hq) at 1.
    rewrite <- app_assoc. reflexivity. }
  assert (Hrun : for_of (before ++ sku :: after)
                   (deleteSelected_item u products) w0
                 = (Throw (thrown error),
                    after_auth_error error
                      (log (Sent q) (logs (map Sent done) w0)))).
  { rewrite deleteSelected_plan. fold token. rewrite Hplan.
    pose proof (attempts_rejected done q
                  (drop (S j) (steps token products sku)
                     ++ plan token products after)%list w0) as Hstop.
    cbn zeta in Hstop. change (server w0) with (server w) in Hstop.
    rewrite Hw0 in Hstop. exact (Hstop Hdone Hrej). }
  rewrite (onPress_failure u products _ w _ _ Hrun). cbn [fst snd].
  split; [reflexivity|].
  destruct (after_auth_error_frame error
              (log (Sent q) (logs (map Sent done) w0)))
    as (_ & Hsent & _).
  destruct (logs_frame (map Sent done) w0) as [Ht _].
  rewrite !sent_log_other by discriminate.
  rewrite alerts_log_other by discriminate.
  rewrite alerts_log_Alerted, Hsent, alerts_after_auth_error, sent_log_Sent.
  rewrite alerts_log_other by discriminate.
  rewrite Ht, sent_app, alerts_app, sent_map_Sent, alerts_map_Sent, Hw0.
  unfold w0. rewrite alerts_log_other by discriminate.
  rewrite app_nil_r, <- app_assoc. split; reflexivity.
Qed.

Lemma bulk_delete_stops_at_first_failure_witness :
  let u := user (logged_in (platform_always 200 (VString ""))) in
  let token := token_or_empty u in
  let w := logged_in (platform_rejecting
                        (req_url (product_request token "A")) 500) in
  let run := handleDeleteSelected_onPress u [productA; productB] ["A"; "B"] w in
  fst run = Return tt
  /\ sent (trace (snd run))
     = [media_request token "A" 5; product_request token "A"]
  /\ alerts (trace (snd run))
     = [("Error", "Request failed with status code 500")].
Proof.
  apply (bulk_delete_stops_at_first_failure
           (user (logged_in (platform_always 200 (VString ""))))
           [productA; productB] [] "A" ["B"] 1
           (product_request (VString "t0ken") "A")
           (logged_in (platform_rejecting
                         (req_url (product_request (VString "t0ken") "A"))
                         500))).
  - reflexivity.
  - vm_compute. reflexivity.
  - vm_compute. reflexivity.
Defined.

(** C3 as stated fails: when the product-delete step of one selected item
    is rejected, a later item is not attempted. *)
Lemma bulk_delete_isolation_fails :
  ~ (forall (u : option User) (products : list Product)
            (selectedProducts : list string) (w : World) (k sku : string),
        In k selectedProducts ->
        In sku selectedProducts ->
        sku <> k ->
        (forall history,
            accepted (server w history
                        (product_request (token_or_empty u) k)) = false) ->
        In (product_request (token_or_empty u) sku)
           (sent (trace (snd (handleDeleteSelected_onPress u products
                                selectedProducts w))))).
Proof.
  intros H.
  specialize (H (Some {| username := "admin"; token := VString "t0ken" |})
                [productA; productB] ["A"; "B"]
                (logged_in (platform_rejecting
                              (req_url (product_request (VString "t0ken") "A"))
                              500))
                "A" "B").
  assert (Hin : In (product_request (VString "t0ken") "B")
                  [media_request (VString "t0ken") "A" 5;
                   product_request (VString "t0ken") "A"]).
  { apply H.
    - left; reflexivity.
    - right; left; reflexivity.
    - discriminate.
    - intros history. reflexivity. }
  destruct Hin as [Hin|[Hin|[]]]; apply (f_equal req_url) in Hin;
    vm_compute in Hin; discriminate Hin.
Qed.

Lemma append_inv_head (s a b : string) : s ++ a = s ++ b -> a = b.
Proof.
  induction s as [|c s IH]; cbn; intros H; [exact H|].
  injection H as H. apply IH, H.
Qed.

Lemma append_self_empty (s r : string) : s = s ++ r -> r = "".
Proof.
  induction s as [|c s IH]; cbn; intros H; [now symmetry|].
  injection H as H. apply IH, H.
Qed.

(** The request that deletes a product is none of the requests that
    delete its media. *)
Lemma product_request_not_media (token : Value) (sku : string) (imageId : Z) :
  product_request token sku <> media_request token sku imageId.
Proof.
  intros H. apply (f_equal req_url) in H.
  cbn [req_url product_request media_request] in H.
  apply append_inv_head, append_inv_head, append_self_empty in H.
  discriminate H.
Qed.

Lemma lookup_map {A B} (f : A -> B) (l : list A) (j : nat) (a : A) :
  l !! j = Some a -> map f l !! j = Some (f a).
Proof.
  revert j. induction l as [|x l IH]; intros [|j]; cbn;
    try discriminate.
  - now intros [= ->].
  - apply IH.
Qed.

Lemma In_take {A} (l : list A) (n : nat) (x : A) : In x (take n l) -> In x l.
Proof.
  intros H. rewrite <- (take_drop n l). apply in_or_app. left. exact H.
Qed.

(** C4, as the code has it.  Inside one item, when the media-delete step
    of [image] is the first that the platform does not accept, the item
    throws: the requests it sent are the media-delete steps up to that of
    [image], so no later media-delete step and not the product-delete
    step of that item is attempted. *)
Theorem media_failure_aborts_item (u : option User)
    (products : list Product) (sku : string) (j : nat) (image : MediaEntry)
    (w : World) :
  let token := token_or_empty u in
  let q := media_request token sku (me_id image) in
  let done := take j (sub_steps token products sku) in
  media_of products sku !! j = Some image ->
  all_accepted (server w) (sent (trace w)) done = true ->
  accepted (server w (sent (trace w) ++ done) q) = false ->
  exists e w',
    deleteSelected_item u products sku w = (Throw e, w')
    /\ sent (trace w')
       = (sent (trace w) ++ take (S j) (sub_steps token products sku))%list
    /\ ~ In (product_request token sku)
            (take (S j) (sub_steps token products sku)).
Proof.
  cbn zeta. intros Himage Hdone Hrej.
  set (token := token_or_empty u) in *.
  set (q := media_request token sku (me_id image)) in *.
  assert (Hq : sub_steps token products sku !! j = Some q).
  { unfold sub_steps.
    apply (lookup_map (fun i => media_request token sku (me_id i))).
    exact Himage. }
  assert (Hsteps : steps token products sku
                   = (take j (sub_steps token products sku)
                        ++ q :: drop (S j) (sub_steps token products sku)
                        ++ [product_request token sku])%list).
  { unfold steps. rewrite <- (take_drop_middle _ _ _ Hq) at 1.
    rewrite <- app_assoc. reflexivity. }
  eexists _, _. split; [|split].
  - rewrite deleteSelected_item_steps. fold token. rewrite Hsteps.
    apply (attempts_rejected _ q _ w Hdone Hrej).
  - destruct (after_auth_error_frame
                (rejection
                   (server w
                      (sent (trace w) ++ take j (sub_steps token products sku))
                      q))
                (log (Sent q)
                   (logs (map Sent (take j (sub_steps token products sku))) w)))
      as (_ & Hsent & _).
    rewrite Hsent, sent_log_Sent.
    destruct (logs_frame (map Sent (take j (sub_steps token products sku))) w)
      as [Ht _].
    rewrite Ht, sent_app, sent_map_Sent, <- app_assoc.
    rewrite (take_S_r _ _ _ Hq). reflexivity.
  - intros Hin. apply In_take in Hin. unfold sub_steps in Hin.
    apply in_map_iff in Hin. destruct Hin as (i & Hi & _).
    symmetry in Hi. exact (product_request_not_media token sku (me_id i) Hi).
Qed.

Lemma media_failure_aborts_item_witness :
  let u := Some {| username := "admin"; token := VString "t0ken" |} in
  let w := logged_in (platform_rejecting
                        (req_url (media_request (VString "t0ken") "A" 5))
                        500) in
  exists e w',
    deleteSelected_item u [productA; productB] "A" w = (Throw e, w')
    /\ sent (trace w') = [media_request (VString "t0ken") "A" 5]
    /\ ~ In (product_request (VString "t0ken") "A")
            [media_request (VString "t0ken") "A" 5].
Proof.
  apply (media_failure_aborts_item
           (Some {| username := "admin"; token := VString "t0ken" |})
           [productA; productB] "A" 0 image5
           (logged_in (platform_rejecting
                         (req_url (media_request (VString "t0ken") "A" 5))
                         500))).
  - reflexivity.
  - reflexivity.
  - vm_compute. reflexivity.
Defined.

(** C4 as stated fails: when a media-delete step of an item is rejected,
    the product-delete step of that item is not attempted. *)
Lemma media_failure_then_primary_fails :
  ~ (forall (u : option User) (products : list Product)
            (selectedProducts : list string) (w : World) (sku : string)
            (image : MediaEntry),
        In sku selectedProducts ->
        In image (media_of products sku) ->
        (forall history,
            accepted (server w history
                        (media_request (token_or_empty u) sku (me_id image)))
            = false) ->
        In (product_request (token_or_empty u) sku)
           (sent (trace (snd (handleDeleteSelected_onPress u products
                                selectedProducts w))))).
Proof.
  intros H.
  specialize (H (Some {| username := "admin"; token := VString "t0ken" |})
                [productA; productB] ["A"; "B"]
                (logged_in (platform_rejecting
                              (req_url (media_request (VString "t0ken") "A" 5))
                              500))
                "A" image5).
  assert (Hin : In (product_request (VString "t0ken") "A")
                  [media_request (VString "t0ken") "A" 5]).
  { apply H.
    - left; reflexivity.
    - left; reflexivity.
    - intros history. reflexivity. }
  destruct Hin as [Hin|[]].
  exact (product_request_not_media (VString "t0ken") "A" 5 (eq_sym Hin)).
Qed.

(** * Further properties of the gateway *)

(** ** Rejections other than 401 *)

Lemma guarded_other {A} (q : Request) (f : Response -> A)
    (failed other : string) (w : World) (o : Outcome) :
  server w (sent (trace w)) q = o ->
  accepted o = false ->
  is_401 (rejection o) = false ->
  guarded q f failed other w = (Throw (rejection o), log (Sent q) w).
Proof.
  intros Ho Ha H401.
  rewrite guarded_rejected by (rewrite Ho; exact Ha).
  rewrite Ho. unfold thrown, after_auth_error. rewrite H401. reflexivity.
Qed.

Lemma updateProduct_other (token : Value) (sku : string) (d : Payload)
    (w : World) (o : Outcome) :
  answers_with w o ->
  accepted o = false ->
  is_401 (rejection o) = false ->
  exists w',
    api.updateProduct token sku d w = (Throw (rejection o), w')
    /\ storage w' = storage w /\ user w' = user w
    /\ isAuthenticated w' = isAuthenticated w /\ pending w' = pending w
    /\ emitted (trace w') = emitted (trace w)
    /\ exists q, sent (trace w') = (sent (trace w) ++ [q])%list.
Proof.
  intros Ho Ha H401.
  set (q := {| req_method := PUT;
               req_url := BASE_URL ++ "/rest/V1/products/" ++ sku;
               req_headers := [bearer token; content_json];
               req_params := None;
               req_body := Some (BodyProduct d) |}).
  assert (Hq : server (log ConsoleLogged w)
                 (sent (trace (log ConsoleLogged w))) q = o).
  { cbn. rewrite sent_app. cbn. rewrite app_nil_r. apply Ho. }
  unfold api.updateProduct, try_catch, bind, effect. fold q.
  rewrite axios_rejected by (rewrite Hq; exact Ha).
  rewrite Hq, on_error_eq. unfold thrown, after_auth_error. rewrite H401.
  eexists. split; [reflexivity|]. cbn.
  rewrite !sent_app, !emitted_app. cbn. rewrite !app_nil_r.
  repeat split. exists q. reflexivity.
Qed.

Lemma guarded_other_frame {A} (q : Request) (f : Response -> A)
    (failed other : string) (w : World) (o : Outcome) :
  answers_with w o ->
  accepted o = false ->
  is_401 (rejection o) = false ->
  exists w',
    guarded q f failed other w = (Throw (rejection o), w')
    /\ storage w' = storage w /\ user w' = user w
    /\ isAuthenticated w' = isAuthenticated w /\ pending w' = pending w
    /\ emitted (trace w') = emitted (trace w)
    /\ exists q, sent (trace w') = (sent (trace w) ++ [q])%list.
Proof.
  intros Ho Ha H401. eexists. split.
  - apply (guarded_other q f failed other w o (Ho q) Ha H401).
  - cbn. rewrite sent_app, emitted_app. cbn. rewrite app_nil_r.
    repeat split. exists q. reflexivity.
Qed.

Lemma void_guarded_other {A} (q : Request) (f : Response -> A)
    (failed other : string) (w : World) (o : Outcome) :
  answers_with w o ->
  accepted o = false ->
  is_401 (rejection o) = false ->
  exists w',
    void (guarded q f failed other) w = (Throw (rejection o), w')
    /\ storage w' = storage w /\ user w' = user w
    /\ isAuthenticated w' = isAuthenticated w /\ pending w' = pending w
    /\ emitted (trace w') = emitted (trace w)
    /\ exists q, sent (trace w') = (sent (trace w) ++ [q])%list.
Proof.
  intros Ho Ha H401.
  destruct (guarded_other_frame q f failed other w o Ho Ha H401)
    as (w' & Hrun & Hrest).
  exists w'. split; [apply void_throw; exact Hrun|exact Hrest].
Qed.

(** X1.  When the platform rejects the request of a gateway operation
    with anything but a 401, the operation throws the error of axios as it
    is: no [logout] is emitted, the session is untouched, and the messages
    that the [catch] block would build after [handleAuthError] are never
    thrown. *)
Theorem handled_operation_rejected (stringify : User -> string)
    (parse : string -> option User) (op : Operation) (w : World)
    (o : Outcome) :
  calls_handleAuthError op = true ->
  answers_with w o ->
  accepted o = false ->
  is_401 (rejection o) = false ->
  exists w',
    perform stringify parse op w = (Throw (rejection o), w')
    /\ storage w' = storage w /\ user w' = user w
    /\ isAuthenticated w' = isAuthenticated w /\ pending w' = pending w
    /\ emitted (trace w') = emitted (trace w)
    /\ exists q, sent (trace w') = (sent (trace w) ++ [q])%list.
Proof.
  intros Hop Ho Ha H401.
  destruct op; try discriminate Hop; cbn [perform].
  all: try (apply void_guarded_other; assumption).
  - match goal with
    | |- context [api.getProducts ?t ?p ?s ?f] =>
        destruct (getProducts_guarded t p s f) as (sc & _ & Hg)
    end.
    pose proof (Hg w) as Hgw.
    match type of Hgw with
    | _ = guarded ?q ?f ?a ?b w =>
        destruct (guarded_other_frame q f a b w o Ho Ha H401)
          as (w' & Hrun & Hrest)
    end.
    exists w'. split; [|exact Hrest].
    apply void_throw. rewrite Hgw. exact Hrun.
  - match goal with
    | |- context [api.deleteProduct ?t ?s] =>
        apply (guarded_other_frame (product_request t s) (fun _ => tt))
    end; assumption.
  - match goal with
    | |- context [api.deleteProductImage ?t ?s ?i] =>
        apply (guarded_other_frame (media_request t s i) (fun _ => tt))
    end; assumption.
  - match goal with
    | |- context [api.updateProduct ?t ?s ?d] =>
        destruct (updateProduct_other t s d w o Ho Ha H401)
          as (w' & Hrun & Hrest)
    end.
    exists w'. split; [apply void_throw; exact Hrun|exact Hrest].
Qed.

Lemma handled_operation_rejected_witness :
  exists w',
    perform sample_stringify sample_parse
      (OpGetOrderDetails (VString "t0ken") "17")
      (logged_in (platform_always 500
                    (VObject {| obj_items := None; obj_children_data := None;
                                obj_total_count := None;
                                obj_message := Some "Internal error" |})))
    = (Throw {| message := "Request failed with status code 500";
                response :=
                  Some {| status := 500;
                          data :=
                            VObject {| obj_items := None;
                                       obj_children_data := None;
                                       obj_total_count := None;
                                       obj_message := Some "Internal error" |} |};
                request := true |}, w')
    /\ storage w' = {[ "user" := "stored" ]}
    /\ user w' = Some {| username := "admin"; token := VString "t0ken" |}
    /\ isAuthenticated w' = true /\ pending w' = []
    /\ emitted (trace w') = []
    /\ exists q, sent (trace w') = [q].
Proof.
  apply (handled_operation_rejected sample_stringify sample_parse
           (OpGetOrderDetails (VString "t0ken") "17")
           (logged_in (platform_always 500
                         (VObject {| obj_items := None;
                                     obj_children_data := None;
                                     obj_total_count := None;
                                     obj_message := Some "Internal error" |})))
           (Responded
              {| status := 500;
                 data := VObject {| obj_items := None;
                                    obj_children_data := None;
                                    obj_total_count := None;
                                    obj_message := Some "Internal error" |} |})).
  - reflexivity.
  - intros q. reflexivity.
  - reflexivity.
  - reflexivity.
Defined.

(** ** [login] *)

Lemma login_unfold (username password : string) (w : World) :
  api.login username password w
  = match axios (login_request username password) w with
    | (Return resp, w') =>
        if truthy (data resp) then (Return (data resp), w')
        else (Throw (Error "An error occurred while trying to log in."), w')
    | (Throw e, w') =>
        match response e with
        | Some r =>
            (Throw (Error (Js.or_string (data_message (data r))
                             "Invalid credentials")), w')
        | None =>
            if request e then (Throw (Error no_response_message), w')
            else (Throw (Error "An error occurred while trying to log in."),
                  w')
        end
    end.
Proof.
  unfold api.login, try_catch, bind. fold (login_request username password).
  destruct (axios (login_request username password) w) as [[resp|e] w'].
  - destruct (truthy (data resp)); reflexivity.
  - destruct (response e); [reflexivity|]. destruct (request e); reflexivity.
Qed.

Lemma login_result_shape_holds (username password : string) (w : World) :
  exists r,
    api.login username password w
      = (r, log (Sent (login_request username password)) w)
    /\ match r with
       | Return t =>
           truthy t = true
           /\ exists resp,
                server w (sent (trace w)) (login_request username password)
                  = Responded resp
                /\ is_2xx (status resp) = true /\ t = data resp
       | Throw e => response e = None /\ request e = false
       end.
Proof.
  rewrite login_unfold.
  destruct (accepted (server w (sent (trace w))
                        (login_request username password))) eqn:Ha.
  - destruct (accepted_inv _ Ha) as (resp & Hs & H2).
    rewrite (axios_accepted _ w resp Hs H2).
    destruct (truthy (data resp)) eqn:Ht; eexists; (split; [reflexivity|]).
    + split; [exact Ht|]. exists resp. auto.
    + split; reflexivity.
  - rewrite (axios_rejected _ w Ha).
    destruct (server w (sent (trace w)) (login_request username password))
      as [resp|msg|msg]; cbn; eexists; (split; [reflexivity|]);
      split; reflexivity.
Qed.

(** X2.  [login] sends one request and does nothing else to the world: it
    emits no event and leaves the session alone, whatever the platform
    answers.  What it returns is the body of a 2xx answer and is never
    empty; what it throws is a plain error that carries neither the
    answer nor the request. *)
Theorem login_result_shape (username password : string) (w : World) :
  exists r,
    api.login username password w
      = (r, log (Sent (login_request username password)) w)
    /\ match r with
       | Return t =>
           truthy t = true
           /\ exists resp,
                server w (sent (trace w)) (login_request username password)
                  = Responded resp
                /\ is_2xx (status resp) = true /\ t = data resp
       | Throw e => response e = None /\ request e = false
       end.
Proof. exact (login_result_shape_holds username password w). Qed.

(** X3.  When the platform accepts a login and its answer has an empty
    body, [login] throws [An error occurred while trying to log in.]: the
    error [No token received from server] that it throws first is caught
    by its own [catch] block and replaced. *)
Theorem login_empty_token (username password : string) (w : World)
    (resp : Response) :
  server w (sent (trace w)) (login_request username password)
    = Responded resp ->
  is_2xx (status resp) = true ->
  truthy (data resp) = false ->
  api.login username password w
  = (Throw (Error "An error occurred while trying to log in."),
     log (Sent (login_request username password)) w).
Proof.
  intros Hs H2 Ht. rewrite login_unfold, (axios_accepted _ w resp Hs H2), Ht.
  reflexivity.
Qed.

Lemma login_empty_token_witness :
  api.login "admin" "secret" (initial (platform_always 200 (VString "")))
  = (Throw (Error "An error occurred while trying to log in."),
     log (Sent (login_request "admin" "secret"))
       (initial (platform_always 200 (VString "")))).
Proof.
  apply (login_empty_token "admin" "secret"
           (initial (platform_always 200 (VString "")))
           {| status := 200; data := VString "" |}); reflexivity.
Defined.

(** X4.  When the platform rejects a login, with a 401 or any other
    status, [login] throws an error whose message is the [message] of the
    answer's body, or [Invalid credentials] when the body has none; no
    [logout] is emitted. *)
Theorem login_rejected (username password : string) (w : World)
    (resp : Response) :
  server w (sent (trace w)) (login_request username password)
    = Responded resp ->
  is_2xx (status resp) = false ->
  exists w',
    api.login username password w
      = (Throw (Error (Js.or_string (data_message (data resp))
                         "Invalid credentials")), w')
    /\ emitted (trace w') = emitted (trace w)
    /\ pending w' = pending w.
Proof.
  intros Hs H2. rewrite login_unfold.
  rewrite axios_rejected by (rewrite Hs; exact H2). rewrite Hs.
  cbn [rejection response].
  eexists. split; [reflexivity|]. cbn [trace log pending].
  rewrite emitted_app. cbn. rewrite app_nil_r. split; reflexivity.
Qed.

Lemma login_rejected_witness :
  exists w',
    api.login "admin" "wrong"
      (logged_in (platform_always 401
                    (VObject {| obj_items := None; obj_children_data := None;
                                obj_total_count := None;
                                obj_message := Some "Account is locked" |})))
      = (Throw (Error "Account is locked"), w')
    /\ emitted (trace w') = []
    /\ pending w' = [].
Proof.
  apply (login_rejected "admin" "wrong"
           (logged_in (platform_always 401
                         (VObject {| obj_items := None;
                                     obj_children_data := None;
                                     obj_total_count := None;
                                     obj_message := Some "Account is locked" |})))
           {| status := 401;
              data := VObject {| obj_items := None; obj_children_data := None;
                                 obj_total_count := None;
                                 obj_message := Some "Account is locked" |} |});
    reflexivity.
Defined.

(** ** [getStats] *)

Lemma getOrders_eq (token : Value) (page size : Z) :
  api.getOrders token page size
  = guarded (getOrders_request token page size) (paged page size)
      "Failed to fetch orders" "An error occurred while fetching orders.".
Proof. reflexivity. Qed.

Lemma getCustomers_eq (token : Value) (page size : Z) :
  api.getCustomers token page size
  = guarded (getCustomers_request token page size) (paged page size)
      "Failed to fetch customers"
      "An error occurred while fetching customers.".
Proof. reflexivity. Qed.

Lemma getProducts_plain_eq (token : Value) (page size : Z) (w : World) :
  api.getProducts token page size None w
  = guarded (getProducts_request token (plain_criteria page size))
      (paged page size)
      "Failed to fetch products" "An error occurred while fetching products."
      w.
Proof. reflexivity. Qed.

Lemma getStats_unfold (token : Value) (w : World) :
  api.getStats token w
  = match
      (orders <- api.getOrders token 1 1 ;;
       customers <- api.getCustomers token 1 1 ;;
       products <- api.getProducts token 1 1 None ;;
       ret {| total_orders := total_count orders;
              total_customers := total_count customers;
              total_products := total_count products |}) w
    with
    | (Return stats, w') => (Return stats, w')
    | (Throw e, w') =>
        if String.eqb (message e) "Failed to fetch" then
          (Throw (Error "No response from server. Please check your connection."),
           w')
        else (Throw e, w')
    end.
Proof.
  unfold api.getStats, try_catch.
  match goal with |- context [match ?m w with _ => _ end] =>
    destruct (m w) as [[stats|e] w'] end.
  - reflexivity.
  - destruct (String.eqb (message e) "Failed to fetch"); reflexivity.
Qed.

Lemma getStats_counts_holds (token : Value) (w : World) (r1 r2 r3 : Response) :
  let h := sent (trace w) in
  let q1 := getOrders_request token 1 1 in
  let q2 := getCustomers_request token 1 1 in
  let q3 := getProducts_request token (plain_criteria 1 1) in
  server w h q1 = Responded r1 -> is_2xx (status r1) = true ->
  server w (h ++ [q1]) q2 = Responded r2 -> is_2xx (status r2) = true ->
  server w (h ++ [q1; q2]) q3 = Responded r3 -> is_2xx (status r3) = true ->
  exists w',
    api.getStats token w
      = (Return {| total_orders := data_total_count (data r1);
                   total_customers := data_total_count (data r2);
                   total_products := data_total_count (data r3) |}, w')
    /\ trace w' = (trace w ++ [Sent q1; Sent q2; Sent q3])%list.
Proof.
  cbn zeta. intros H1 A1 H2 A2 H3 A3.
  rewrite getStats_unfold. unfold bind.
  rewrite getOrders_eq, (guarded_accepted _ _ _ _ w r1 H1 A1).
  rewrite getCustomers_eq.
  rewrite (guarded_accepted _ _ _ _ (log (Sent _) w) r2)
    by (try rewrite sent_log_Sent; assumption).
  rewrite getProducts_plain_eq.
  rewrite (guarded_accepted _ _ _ _ (log (Sent _) (log (Sent _) w)) r3).
  - eexists. split; [reflexivity|]. cbn. rewrite <- !app_assoc. reflexivity.
  - rewrite !sent_log_Sent, <- app_assoc. exact H3.
  - exact A3.
Qed.

(** X5.  When the platform accepts the three requests of [getStats], the
    call has asked, in this order, for one order, one customer and one
    product (page 1, page size 1), and returns the three [total_count]s
    of the answers. *)
Theorem getStats_counts (token : Value) (w : World) (r1 r2 r3 : Response) :
  let h := sent (trace w) in
  let q1 := getOrders_request token 1 1 in
  let q2 := getCustomers_request token 1 1 in
  let q3 := getProducts_request token (plain_criteria 1 1) in
  server w h q1 = Responded r1 -> is_2xx (status r1) = true ->
  server w (h ++ [q1]) q2 = Responded r2 -> is_2xx (status r2) = true ->
  server w (h ++ [q1; q2]) q3 = Responded r3 -> is_2xx (status r3) = true ->
  exists w',
    api.getStats token w
      = (Return {| total_orders := data_total_count (data r1);
                   total_customers := data_total_count (data r2);
                   total_products := data_total_count (data r3) |}, w')
    /\ trace w' = (trace w ++ [Sent q1; Sent q2; Sent q3])%list.
Proof. exact (getStats_counts_holds token w r1 r2 r3). Qed.

Lemma getStats_counts_witness :
  exists w',
    api.getStats (VString "t0ken")
      (logged_in (platform_always 200 (listing 12)))
      = (Return {| total_orders := Some 12; total_customers := Some 12;
                   total_products := Some 12 |}, w')
    /\ trace w'
       = [Sent (getOrders_request (VString "t0ken") 1 1);
          Sent (getCustomers_request (VString "t0ken") 1 1);
          Sent (getProducts_request (VString "t0ken") (plain_criteria 1 1))].
Proof.
  apply (getStats_counts (VString "t0ken")
           (logged_in (platform_always 200 (listing 12)))
           {| status := 200; data := listing 12 |}
           {| status := 200; data := listing 12 |}
           {| status := 200; data := listing 12 |}); reflexivity.
Defined.

Lemma getStats_stops_holds (token : Value) (w : World) (j : nat) (q : Request) :
  getStats_requests token !! j = Some q ->
  all_accepted (server w) (sent (trace w))
    (take j (getStats_requests token)) = true ->
  accepted (server w (sent (trace w) ++ take j (getStats_requests token)) q)
    = false ->
  exists e w',
    api.getStats token w = (Throw e, w')
    /\ sent (trace w')
       = (sent (trace w) ++ take (S j) (getStats_requests token))%list.
Proof.
  intros Hq Hdone Hrej. rewrite getStats_unfold. unfold bind.
  assert (Hend : forall (e : JsError) (w' : World) (qs : list Request),
             sent (trace w') = (sent (trace w) ++ qs)%list ->
             exists e' w'',
               (if String.eqb (message e) "Failed to fetch"
                then (Throw (Error
                        "No response from server. Please check your connection."),
                      w')
                else (@Throw DashboardStats e, w')) = (Throw e', w'')
               /\ sent (trace w'') = (sent (trace w) ++ qs)%list).
  { intros e w' qs H.
    destruct (String.eqb (message e) "Failed to fetch"); eauto. }
  destruct j as [|[|[|j]]]; cbn in Hq; try discriminate Hq;
    injection Hq as <-; cbn [take getStats_requests all_accepted] in *.
  - rewrite app_nil_r in Hrej.
    rewrite getOrders_eq, (guarded_rejected _ _ _ _ w Hrej).
    apply Hend.
    destruct (after_auth_error_frame
                (rejection (server w (sent (trace w))
                              (getOrders_request token 1 1)))
                (log (Sent (getOrders_request token 1 1)) w))
      as (_ & Hs & _).
    rewrite Hs. apply sent_log_Sent.
  - rewrite andb_true_r in Hdone.
    destruct (accepted_inv _ Hdone) as (r1 & H1 & A1).
    rewrite getOrders_eq, (guarded_accepted _ _ _ _ w r1 H1 A1).
    rewrite getCustomers_eq.
    assert (Hrej' : accepted
                      (server (log (Sent (getOrders_request token 1 1)) w)
                         (sent (trace (log (Sent (getOrders_request token 1 1))
                                         w)))
                         (getCustomers_request token 1 1)) = false)
      by (rewrite sent_log_Sent; exact Hrej).
    rewrite (guarded_rejected _ _ _ _ _ Hrej').
    apply Hend.
    match goal with |- context [after_auth_error ?e ?w0] =>
      destruct (after_auth_error_frame e w0) as (_ & Hs & _) end.
    rewrite Hs, !sent_log_Sent, <- app_assoc. reflexivity.
  - rewrite andb_true_r, andb_true_iff in Hdone. destruct Hdone as [D1 D2].
    destruct (accepted_inv _ D1) as (r1 & H1 & A1).
    destruct (accepted_inv _ D2) as (r2 & H2 & A2).
    rewrite getOrders_eq, (guarded_accepted _ _ _ _ w r1 H1 A1).
    rewrite getCustomers_eq.
    rewrite (guarded_accepted _ _ _ _ (log (Sent _) w) r2)
      by (try rewrite sent_log_Sent; assumption).
    rewrite getProducts_plain_eq.
    assert (Hrej' : accepted
                      (server (log (Sent (getCustomers_request token 1 1))
                                 (log (Sent (getOrders_request token 1 1)) w))
                         (sent (trace
                                  (log (Sent (getCustomers_request token 1 1))
                                     (log (Sent (getOrders_request token 1 1))
                                        w))))
                         (getProducts_request token (plain_criteria 1 1)))
                    = false)
      by (rewrite !sent_log_Sent, <- app_assoc; exact Hrej).
    rewrite (guarded_rejected _ _ _ _ _ Hrej').
    apply Hend.
    match goal with |- context [after_auth_error ?e ?w0] =>
      destruct (after_auth_error_frame e w0) as (_ & Hs & _) end.
    rewrite Hs, !sent_log_Sent, <- !app_assoc. reflexivity.
Qed.

(** X6.  [getStats] stops at the first of its three requests that the
    platform does not accept: the later ones are not sent, and the call
    throws. *)
Theorem getStats_stops (token : Value) (w : World) (j : nat) (q : Request) :
  getStats_requests token !! j = Some q ->
  all_accepted (server w) (sent (trace w))
    (take j (getStats_requests token)) = true ->
  accepted (server w (sent (trace w) ++ take j (getStats_requests token)) q)
    = false ->
  exists e w',
    api.getStats token w = (Throw e, w')
    /\ sent (trace w')
       = (sent (trace w) ++ take (S j) (getStats_requests token))%list.
Proof. exact (getStats_stops_holds token w j q). Qed.

Lemma getStats_stops_witness :
  exists e w',
    api.getStats (VString "t0ken")
      (logged_in (platform_rejecting
                    (req_url (getCustomers_request (VString "t0ken") 1 1))
                    503))
      = (Throw e, w')
    /\ sent (trace w')
       = [getOrders_request (VString "t0ken") 1 1;
          getCustomers_request (VString "t0ken") 1 1].
Proof.
  apply (getStats_stops (VString "t0ken")
           (logged_in (platform_rejecting
                         (req_url (getCustomers_request (VString "t0ken") 1 1))
                         503))
           1 (getCustomers_request (VString "t0ken") 1 1)).
  - reflexivity.
  - vm_compute. reflexivity.
  - vm_compute. reflexivity.
Defined.

(** ** Answers without a count, and the other paging fields *)

Lemma getProducts_searchCriteria_cases_holds (page size : Z)
    (f : option ProductFilters) (w : World) :
  getProducts_searchCriteria page size f w
  = (Return {| currentPage := page; pageSize := size;
               sortOrders := [created_at_desc];
               filterGroups := expected_groups f |}, w).
Proof.
  unfold getProducts_searchCriteria, expected_groups.
  destruct f as [[st se]|]; [|reflexivity].
  cbn [pf_status pf_search].
  destruct se as [[|c s]|]; destruct st; reflexivity.
Qed.

Lemma bind_return {A B} (m : M A) (k : A -> M B) (w w' : World) (a : A) :
  m w = (Return a, w') -> bind m k w = k a w'.
Proof. intros H. unfold bind. rewrite H. reflexivity. Qed.

Lemma bind_throw {A B} (m : M A) (k : A -> M B) (w w' : World)
    (e : JsError) :
  m w = (Throw e, w') -> bind m k w = (Throw e, w').
Proof. intros H. unfold bind. rewrite H. reflexivity. Qed.

(** X7.  When the platform accepts the request of [getOrders],
    [getProducts] or [getCustomers] and its answer carries no
    [total_count], the call returns, having sent that one request, and
    its [total_pages] is [NaN], where [getCategories] returns 0. *)
Theorem list_total_pages_without_count (op : ListOperation) (token : Value)
    (page size : Z) (w : World) (resp : Response) :
  op <> ListCategories ->
  server w (sent (trace w)) (list_request op token page size)
    = Responded resp ->
  is_2xx (status resp) = true ->
  data_total_count (data resp) = None ->
  list_total_pages op token page size w
  = (Return Js.NaN, log (Sent (list_request op token page size)) w).
Proof.
  intros Hop Hs H2 Hnone.
  destruct op as [|f| |]; [| | |contradiction];
    unfold list_total_pages; cbn [list_request] in *.
  - rewrite (bind_return _ _ w
               (log (Sent (getOrders_request token page size)) w)
               (paged page size resp)).
    + unfold ret, paged. cbn [total_pages]. rewrite Hnone. reflexivity.
    + rewrite getOrders_eq. apply guarded_accepted; assumption.
  - rewrite (bind_return _ _ w
               (log (Sent (getProducts_request token
                             {| currentPage := page; pageSize := size;
                                sortOrders := [created_at_desc];
                                filterGroups := expected_groups f |})) w)
               (paged page size resp)).
    + unfold ret, paged. cbn [total_pages]. rewrite Hnone. reflexivity.
    + destruct (getProducts_guarded token page size f) as (sc & Hsc & Hg).
      rewrite Hg. specialize (Hsc w).
      rewrite getProducts_searchCriteria_cases_holds in Hsc.
      injection Hsc as <-.
      apply (guarded_accepted
               (getProducts_request token
                  {| currentPage := page; pageSize := size;
                     sortOrders := [created_at_desc];
                     filterGroups := expected_groups f |}));
        assumption.
  - rewrite (bind_return _ _ w
               (log (Sent (getCustomers_request token page size)) w)
               (paged page size resp)).
    + unfold ret, paged. cbn [total_pages]. rewrite Hnone. reflexivity.
    + rewrite getCustomers_eq. apply guarded_accepted; assumption.
Qed.

Lemma list_total_pages_without_count_witness :
  list_total_pages ListCustomers (VString "t") 2 20
    (initial (platform_always 200 (VString "[]")))
  = (Return Js.NaN,
     log (Sent (getCustomers_request (VString "t") 2 20))
       (initial (platform_always 200 (VString "[]")))).
Proof.
  apply (list_total_pages_without_count ListCustomers (VString "t") 2 20
           (initial (platform_always 200 (VString "[]")))
           {| status := 200; data := VString "[]" |}).
  - discriminate.
  - reflexivity.
  - reflexivity.
  - reflexivity.
Defined.

(** ** The criteria of [getProducts], in every case *)


Lemma getProducts_sends_criteria_holds (token : Value) (page size : Z)
    (f : option ProductFilters) (w : World) :
  sent (trace (snd (api.getProducts token page size f w)))
  = (sent (trace w)
       ++ [getProducts_request token
             {| currentPage := page; pageSize := size;
                sortOrders := [created_at_desc];
                filterGroups := expected_groups f |}])%list.
Proof.
  destruct (getProducts_guarded token page size f) as (sc & Hsc & Hg).
  rewrite Hg.
  specialize (Hsc w). rewrite getProducts_searchCriteria_cases_holds in Hsc.
  injection Hsc as <-.
  apply guarded_sent.
Qed.

(** X9.  The request that [getProducts] sends carries these criteria,
    whatever the platform answers. *)
Theorem getProducts_sends_criteria (token : Value) (page size : Z)
    (f : option ProductFilters) (w : World) :
  sent (trace (snd (api.getProducts token page size f w)))
  = (sent (trace w)
       ++ [getProducts_request token
             {| currentPage := page; pageSize := size;
                sortOrders := [created_at_desc];
                filterGroups := expected_groups f |}])%list.
Proof. exact (getProducts_sends_criteria_holds token page size f w). Qed.

(** ** The credential of the other operations *)

Lemma void_snd {A} (m : M A) (w : World) : snd (void m w) = snd (m w).
Proof. unfold void, bind. destruct (m w) as [[a|e] w']; reflexivity. Qed.

Lemma updateProduct_sent (token : Value) (sku : string) (d : Payload)
    (w : World) :
  sent (trace (snd (api.updateProduct token sku d w)))
  = (sent (trace w) ++ [updateProduct_request token sku d])%list.
Proof.
  unfold api.updateProduct, try_catch, bind, effect.
  fold (updateProduct_request token sku d).
  pose proof (axios_world (updateProduct_request token sku d)
                (log ConsoleLogged w)) as Hw.
  destruct (axios (updateProduct_request token sku d) (log ConsoleLogged w))
    as [[resp|e] w1]; cbn [snd] in Hw; subst w1; unfold ret; cbn [snd].
  - rewrite sent_log_Sent, sent_log_other by discriminate. reflexivity.
  - rewrite on_error_eq. cbn [snd].
    match goal with |- context [after_auth_error ?e ?w0] =>
      destruct (after_auth_error_frame e w0) as (_ & Hs & _) end.
    rewrite Hs, sent_log_other by discriminate.
    rewrite sent_log_Sent, sent_log_other by discriminate. reflexivity.
Qed.

Lemma getStats_sent (token : Value) (w : World) :
  exists n,
    sent (trace (snd (api.getStats token w)))
    = (sent (trace w) ++ take (S n) (getStats_requests token))%list.
Proof.
  destruct (accepted (server w (sent (trace w)) (getOrders_request token 1 1)))
    eqn:A1.
  2:{ destruct (getStats_stops_holds token w 0 _ eq_refl eq_refl)
        as (e & w' & Hrun & Hs).
      - rewrite app_nil_r. exact A1.
      - exists 0%nat. rewrite Hrun. exact Hs. }
  destruct (accepted (server w (sent (trace w) ++ [getOrders_request token 1 1])
                        (getCustomers_request token 1 1))) eqn:A2.
  2:{ destruct (getStats_stops_holds token w 1 _ eq_refl) as (e & w' & Hrun & Hs).
      - cbn. rewrite A1. reflexivity.
      - exact A2.
      - exists 1%nat. rewrite Hrun. exact Hs. }
  destruct (accepted
              (server w (sent (trace w) ++ [getOrders_request token 1 1;
                                           getCustomers_request token 1 1])
                 (getProducts_request token (plain_criteria 1 1)))) eqn:A3.
  2:{ destruct (getStats_stops_holds token w 2 _ eq_refl) as (e & w' & Hrun & Hs).
      - cbn. rewrite A1. cbn. rewrite A2. reflexivity.
      - exact A3.
      - exists 2%nat. rewrite Hrun. exact Hs. }
  destruct (accepted_inv _ A1) as (r1 & H1 & B1).
  destruct (accepted_inv _ A2) as (r2 & H2 & B2).
  destruct (accepted_inv _ A3) as (r3 & H3 & B3).
  destruct (getStats_counts_holds token w r1 r2 r3 H1 B1 H2 B2 H3 B3)
    as (w' & Hrun & Ht).
  exists 2%nat. rewrite Hrun. cbn [snd]. rewrite Ht, sent_app. reflexivity.
Qed.

(** X10.  Every request that a gateway operation with a token sends
    carries the header [Authorization: Bearer] followed by that token, and
    the operation sends at least one request, whatever the platform
    answers. *)
Theorem operation_attaches_token (stringify : User -> string)
    (parse : string -> option User) (op : Operation) (t : Value)
    (w : World) :
  token_of op = Some t ->
  exists qs,
    sent (trace (snd (perform stringify parse op w)))
      = (sent (trace w) ++ qs)%list
    /\ qs <> []
    /\ Forall (fun q => In ("Authorization", "Bearer " ++ template t)
                          (req_headers q)) qs.
Proof.
  intros Hop.
  destruct op; try discriminate Hop; injection Hop as ->; cbn [perform].
  all: try (eexists [_]; split;
            [rewrite void_snd; apply guarded_sent
            |split; [discriminate|repeat constructor]]; fail).
  - match goal with
    | |- context [api.getProducts ?t ?p ?s ?f] =>
        exists [getProducts_request t
                  {| currentPage := p; pageSize := s;
                     sortOrders := [created_at_desc];
                     filterGroups := expected_groups f |}]
    end.
    split; [rewrite void_snd; apply getProducts_sends_criteria_holds|].
    split; [discriminate|repeat constructor].
  - destruct (getStats_sent t w) as (n & Hs).
    exists (take (S n) (getStats_requests t)).
    split; [rewrite void_snd; exact Hs|]. split; [discriminate|].
    apply List.Forall_forall. intros q Hq. apply In_take in Hq.
    destruct Hq as [<-|[<-|[<-|[]]]]; left; reflexivity.
  - eexists [_]. split; [apply (guarded_sent (product_request t _))|].
    split; [discriminate|repeat constructor].
  - eexists [_]. split; [apply (guarded_sent (media_request t _ _))|].
    split; [discriminate|repeat constructor].
  - eexists [_]. split; [rewrite void_snd; apply updateProduct_sent|].
    split; [discriminate|repeat constructor].
Qed.

Lemma operation_attaches_token_witness :
  exists qs,
    sent (trace (snd (perform sample_stringify sample_parse
                        (OpGetStats (VString "t0ken"))
                        (logged_in (platform_always 200 (listing 3))))))
      = qs
    /\ qs <> []
    /\ Forall (fun q => In ("Authorization", "Bearer t0ken") (req_headers q))
         qs.
Proof.
  apply (operation_attaches_token sample_stringify sample_parse
           (OpGetStats (VString "t0ken")) (VString "t0ken")
           (logged_in (platform_always 200 (listing 3)))).
  reflexivity.
Defined.

(** * Further properties of the session *)

(** X11.  A login that fails changes nothing of the session: the
    storage, the user in memory and the authenticated flag are what they
    were, no event is emitted, and the error that [handleLogin] throws is
    the plain error of [login]. *)
Theorem handleLogin_failure (stringify : User -> string)
    (username password : string) (w w' : World) (e : JsError) :
  handleLogin stringify username password w = (Throw e, w') ->
  storage w' = storage w
  /\ user w' = user w
  /\ isAuthenticated w' = isAuthenticated w
  /\ emitted (trace w') = emitted (trace w)
  /\ response e = None.
Proof.
  unfold handleLogin, try_catch. unfold bind at 1.
  destruct (login_result_shape_holds username password w) as (r & Hrun & Hshape).
  rewrite Hrun. destruct r as [t|e0].
  - cbn. intros H; discriminate H.
  - intros H. cbn [throw] in H. inversion H; subst.
    destruct Hshape as [Hr _].
    cbn [trace log storage user isAuthenticated].
    rewrite emitted_app. cbn [emitted omap]. rewrite app_nil_r.
    repeat split. exact Hr.
Qed.

Lemma handleLogin_failure_witness :
  let w := logged_in (platform_always 401 (VString "")) in
  let w' := log (Sent (login_request "admin" "wrong")) w in
  storage w' = storage w
  /\ user w' = user w
  /\ isAuthenticated w' = isAuthenticated w
  /\ emitted (trace w') = emitted (trace w)
  /\ response (Error "Invalid credentials") = None.
Proof.
  apply (handleLogin_failure sample_stringify "admin" "wrong"
           (logged_in (platform_always 401 (VString "")))
           (log (Sent (login_request "admin" "wrong"))
              (logged_in (platform_always 401 (VString ""))))
           (Error "Invalid credentials")).
  reflexivity.
Defined.

Lemma checkAuthState_eq (parse : string -> option User) (w : World) :
  checkAuthState parse w
  = (Return tt,
     match storage w !! "user" with
     | Some s =>
         if String.eqb s "" then w
         else match parse s with
              | Some u => set_isAuthenticated true (set_user (Some u) w)
              | None => w
              end
     | None => w
     end).
Proof.
  unfold checkAuthState, try_catch, bind, AsyncStorage.getItem.
  destruct (storage w !! "user") as [s|]; cbn; [|reflexivity].
  destruct (String.eqb s ""); cbn; [reflexivity|].
  destruct (parse s); reflexivity.
Qed.

(** X12.  [checkAuthState] never throws.  When the storage holds nothing
    under [user], or an empty string, or a string that [JSON.parse]
    rejects, it leaves the world as it is: no session is restored and
    nothing is reported. *)
Theorem checkAuthState_nothing_to_restore (parse : string -> option User)
    (w : World) :
  fst (checkAuthState parse w) = Return tt
  /\ (storage w !! "user" = None
      \/ storage w !! "user" = Some ""
      \/ (exists s, storage w !! "user" = Some s /\ parse s = None) ->
      snd (checkAuthState parse w) = w).
Proof.
  rewrite checkAuthState_eq. split; [reflexivity|]. cbn [snd].
  intros [H|[H|(s & H & Hp)]]; rewrite H; [reflexivity|reflexivity|].
  rewrite Hp. destruct (String.eqb s ""); reflexivity.
Qed.

(** X13.  What a successful login persists is what the next start
    restores: when [JSON.parse] reads back what [JSON.stringify] wrote for
    the user, and that is not the empty string, [checkAuthState] after a
    restart puts the same user in memory and sets the authenticated flag,
    without a request to the platform. *)
Theorem login_then_restore (stringify : User -> string)
    (parse : string -> option User) (username password : string)
    (w w' : World) :
  handleLogin stringify username password w = (Return tt, w') ->
  (forall u, user w' = Some u ->
             parse (stringify u) = Some u /\ stringify u <> "") ->
  let w'' := snd (checkAuthState parse (restart w')) in
  fst (checkAuthState parse (restart w')) = Return tt
  /\ user w'' = user w'
  /\ isAuthenticated w'' = true
  /\ trace w'' = [].
Proof.
  intros Hlogin Hcodec. cbn zeta.
  destruct (handleLogin_persists stringify username password w w' Hlogin)
    as (t & Hst & Hu & _).
  destruct (Hcodec _ Hu) as [Hparse Hne].
  rewrite checkAuthState_eq. cbn [fst snd restart storage].
  rewrite Hst, lookup_insert_eq.
  destruct (String.eqb_spec
              (stringify {| username := username; token := t |}) "")
    as [Heq|_]; [contradiction|].
  rewrite Hparse, Hu. repeat split.
Qed.

Lemma login_then_restore_witness :
  let w := initial (platform_always 200 (VString "t0ken")) in
  let w' := snd (handleLogin colon_stringify "admin" "secret" w) in
  let w'' := snd (checkAuthState colon_parse (restart w')) in
  fst (checkAuthState colon_parse (restart w')) = Return tt
  /\ user w'' = Some {| username := "admin"; token := VString "t0ken" |}
  /\ isAuthenticated w'' = true
  /\ trace w'' = [].
Proof.
  apply (login_then_restore colon_stringify colon_parse "admin" "secret"
           (initial (platform_always 200 (VString "t0ken")))
           (snd (handleLogin colon_stringify "admin" "secret"
                   (initial (platform_always 200 (VString "t0ken")))))).
  - reflexivity.
  - intros u Hu. injection Hu as <-. split; [reflexivity|discriminate].
Defined.

(** X14.  After [handleLogout], a restart restores no session, whatever
    was stored before: [checkAuthState] leaves the user empty and the
    application unauthenticated. *)
Theorem logout_then_restore (parse : string -> option User) (w : World) :
  let w' := snd (handleLogout w) in
  checkAuthState parse (restart w') = (Return tt, restart w')
  /\ user (restart w') = None
  /\ isAuthenticated (restart w') = false.
Proof.
  cbn zeta. rewrite handleLogout_eq, checkAuthState_eq. cbn [snd].
  cbn [restart storage log set_isAuthenticated set_user set_storage].
  rewrite lookup_delete_eq. repeat split.
Qed.

(** ** The session after a 401 *)

Lemma guarded_torn {A} (q : Request) (f : Response -> A)
    (failed other : string) (w : World) :
  answers_401 w ->
  exists w0,
    guarded q f failed other w
      = (Throw session_expired, snd (EventRegister.emit "logout" w0))
    /\ storage w0 = storage w
    /\ listeners w0 = listeners w
    /\ pending w0 = pending w.
Proof.
  intros H401. destruct (H401 q) as (d & Hq).
  rewrite guarded_rejected by (rewrite Hq; reflexivity).
  rewrite Hq. unfold thrown, after_auth_error. rewrite rejection_401.
  eexists. split; [reflexivity|]. repeat split.
Qed.

Lemma void_torn {A} (m : M A) (w : World) :
  (exists w0,
      m w = (Throw session_expired, snd (EventRegister.emit "logout" w0))
      /\ storage w0 = storage w
      /\ listeners w0 = listeners w
      /\ pending w0 = pending w) ->
  torn_from w (void m w).
Proof.
  intros (w0 & Hrun & Hrest). exists w0. split; [|exact Hrest].
  apply void_throw. exact Hrun.
Qed.

Lemma updateProduct_torn (token : Value) (sku : string) (d : Payload)
    (w : World) :
  answers_401 w ->
  exists w0,
    api.updateProduct token sku d w
      = (Throw session_expired, snd (EventRegister.emit "logout" w0))
    /\ storage w0 = storage w
    /\ listeners w0 = listeners w
    /\ pending w0 = pending w.
Proof.
  intros H401.
  destruct (H401 (updateProduct_request token sku d)) as (body & Hq).
  assert (Hq' : server (log ConsoleLogged w)
                  (sent (trace (log ConsoleLogged w)))
                  (updateProduct_request token sku d)
                = Responded {| status := 401; data := body |}).
  { cbn. rewrite sent_app. cbn. rewrite app_nil_r. exact Hq. }
  unfold api.updateProduct, try_catch, bind, effect.
  fold (updateProduct_request token sku d).
  rewrite axios_rejected by (rewrite Hq'; reflexivity).
  rewrite Hq', on_error_eq. unfold thrown, after_auth_error.
  rewrite rejection_401.
  eexists. split; [reflexivity|]. repeat split.
Qed.

Lemma handled_operation_torn (stringify : User -> string)
    (parse : string -> option User) (op : Operation) (w : World) :
  calls_handleAuthError op = true ->
  answers_401 w ->
  torn_from w (perform stringify parse op w).
Proof.
  intros Hop H401.
  destruct op; try discriminate Hop; cbn [perform].
  all: try (apply void_torn; apply guarded_torn; exact H401).
  - apply void_torn.
    match goal with
    | |- context [api.getProducts ?t ?p ?s ?f] =>
        destruct (getProducts_guarded t p s f) as (sc & _ & Hg)
    end.
    rewrite Hg. apply guarded_torn; exact H401.
  - match goal with
    | |- context [api.deleteProduct ?t ?s] =>
        apply (guarded_torn (product_request t s) (fun _ => tt))
    end; exact H401.
  - match goal with
    | |- context [api.deleteProductImage ?t ?s ?i] =>
        apply (guarded_torn (media_request t s i) (fun _ => tt))
    end; exact H401.
  - apply void_torn. apply updateProduct_torn; exact H401.
Qed.

Lemma resume_all_frame (l : list Task) (w : World) :
  let w' := fold_left (fun w t => resume t w) l w in
  storage w' = storage w
  /\ pending w' = pending w
  /\ listeners w' = listeners w
  /\ trace w' = (trace w ++ repeat (Replaced "/") (length l))%list
  /\ (l <> [] -> user w' = None /\ isAuthenticated w' = false).
Proof.
  cbn zeta. revert w.
  induction l as [|t l IH]; intros w; cbn [fold_left length repeat].
  - rewrite app_nil_r. split; [reflexivity|]. split; [reflexivity|].
    split; [reflexivity|]. split; [reflexivity|].
    intros Hne. now elim Hne.
  - destruct (IH (resume t w)) as (Hs & Hp & Hl & Ht & Hu).
    rewrite Hs, Hp, Hl, Ht. destruct t.
    split; [reflexivity|]. split; [reflexivity|]. split; [reflexivity|].
    split.
    + cbn. rewrite <- app_assoc. reflexivity.
    + intros _. destruct l as [|t' l]; [split; reflexivity|].
      apply Hu. discriminate.
Qed.

Lemma settle_frame (w : World) :
  storage (settle w) = storage w
  /\ pending (settle w) = []
  /\ listeners (settle w) = listeners w
  /\ trace (settle w)
     = (trace w ++ repeat (Replaced "/") (length (pending w)))%list
  /\ (pending w <> [] ->
      user (settle w) = None /\ isAuthenticated (settle w) = false).
Proof.
  unfold settle.
  destruct (resume_all_frame (pending w) (set_pending [] w))
    as (Hs & Hp & Hl & Ht & Hu).
  split; [exact Hs|]. split; [exact Hp|]. split; [exact Hl|].
  split; [exact Ht|exact Hu].
Qed.

(** X15.  When a gateway operation receives a 401 while the provider is
    listening, the session is cleared once the logout handler it started
    has run: no record under [user], no user in memory, not authenticated,
    a navigation to [/], and nothing left pending. *)
Theorem expiry_clears_session (stringify : User -> string)
    (parse : string -> option User) (op : Operation) (w : World) :
  calls_handleAuthError op = true ->
  answers_401 w ->
  listening "logout" w <> [] ->
  let w' := settle (snd (perform stringify parse op w)) in
  fst (perform stringify parse op w) = Throw session_expired
  /\ storage w' !! "user" = None
  /\ user w' = None
  /\ isAuthenticated w' = false
  /\ pending w' = []
  /\ In (Replaced "/") (trace w').
Proof.
  intros Hop H401 Hlis. cbn zeta.
  destruct (handled_operation_torn stringify parse op w Hop H401)
    as (w0 & Hrun & Hst & Hl & Hp).
  rewrite Hrun. cbn [fst snd]. split; [reflexivity|].
  destruct (emit_frame "logout" w0)
    as (_ & Et & El & Ep & _ & _ & _ & Euser & _).
  assert (Hn : length (listening "logout" w0) <> 0%nat).
  { unfold listening in *. rewrite Hl. destruct (map snd _); [contradiction|].
    discriminate. }
  destruct (settle_frame (snd (EventRegister.emit "logout" w0)))
    as (Ss & Sp & _ & St & Su).
  assert (Hpend : pending (snd (EventRegister.emit "logout" w0)) <> []).
  { rewrite Ep. destruct (length (listening "logout" w0)); [contradiction|].
    cbn. intros H. apply app_eq_nil in H. destruct H as [_ H]. discriminate H. }
  destruct (Su Hpend) as [Hu Ha].
  rewrite Ss, Sp, Hu, Ha, St. repeat split.
  - apply Euser. exact Hn.
  - apply in_or_app. right.
    destruct (pending (snd (EventRegister.emit "logout" w0)));
      [contradiction|]. left. reflexivity.
Qed.

Lemma expiry_clears_session_witness :
  let w := logged_in (platform_always 401 (VString "")) in
  let op := OpGetCustomerDetails (VString "t0ken") "8" in
  let w' := settle (snd (perform sample_stringify sample_parse op w)) in
  fst (perform sample_stringify sample_parse op w) = Throw session_expired
  /\ storage w' !! "user" = None
  /\ user w' = None
  /\ isAuthenticated w' = false
  /\ pending w' = []
  /\ In (Replaced "/") (trace w').
Proof.
  apply (expiry_clears_session sample_stringify sample_parse
           (OpGetCustomerDetails (VString "t0ken") "8")
           (logged_in (platform_always 401 (VString "")))).
  - reflexivity.
  - intros q. eexists. reflexivity.
  - discriminate.
Defined.

(** * Further properties of the screens *)

(** ** Paging *)

Lemma press_in_range (tp : Js.number) (page : Z) (p : Paging.Press) :
  1 <= page ->
  1 <= Paging.press tp page p
  /\ (forall n, tp = Js.Int n -> page <= Z.max 1 n ->
                Paging.press tp page p <= Z.max 1 n).
Proof.
  intros H1. destruct p; cbn [Paging.press].
  - unfold Paging.handleNextPage. split.
    + destruct (Paging.lt_number page tp); lia.
    + intros n ->. cbn. destruct (Z.ltb_spec page n); lia.
  - unfold Paging.handlePrevPage.
    destruct (Z.ltb_spec 1 page); repeat split; intros; lia.
Qed.

(** X16.  In every list screen the page number stays in range under the
    next and previous buttons: starting from a page that is at least 1, it
    stays at least 1; starting from a page that is at most the larger of
    1 and [totalPages], it never passes that; and when [totalPages] is
    [NaN] (an answer without a count) the next button does nothing: the
    page is what the presses of the previous button alone give. *)
Theorem page_stays_in_range (tp : Js.number) (ps : list Paging.Press)
    (page : Z) :
  1 <= page ->
  1 <= Paging.presses tp ps page
  /\ (forall n, tp = Js.Int n -> page <= Z.max 1 n ->
                Paging.presses tp ps page <= Z.max 1 n)
  /\ (tp = Js.NaN ->
      Paging.presses tp ps page
      = Paging.presses tp
          (List.filter (fun p => match p with
                                 | Paging.PressPrev => true
                                 | Paging.PressNext => false
                                 end) ps)
          page).
Proof.
  unfold Paging.presses. revert page.
  induction ps as [|p ps IH]; intros page H1; cbn [fold_left List.filter].
  - repeat split; intros; lia.
  - destruct (press_in_range tp page p H1) as (P1 & P2).
    destruct (IH _ P1) as (I1 & I2 & I3).
    split; [exact I1|]. split.
    + intros n Hn Hle. apply (I2 n Hn). apply (P2 n Hn Hle).
    + intros Hn. destruct p; cbn [fold_left].
      * destruct (IH page H1) as (_ & _ & J3). rewrite <- (J3 Hn).
        subst tp. reflexivity.
      * exact (I3 Hn).
Qed.

Lemma page_stays_in_range_witness :
  1 <= Paging.presses Js.NaN
         [Paging.PressNext; Paging.PressPrev; Paging.PressNext] 3
  /\ (forall n, Js.NaN = Js.Int n -> 3 <= Z.max 1 n ->
                Paging.presses Js.NaN
                  [Paging.PressNext; Paging.PressPrev; Paging.PressNext] 3
                <= Z.max 1 n)
  /\ (Js.NaN = Js.NaN ->
      Paging.presses Js.NaN
        [Paging.PressNext; Paging.PressPrev; Paging.PressNext] 3
      = Paging.presses Js.NaN [Paging.PressPrev] 3).
Proof.
  apply (page_stays_in_range Js.NaN
           [Paging.PressNext; Paging.PressPrev; Paging.PressNext] 3).
  lia.
Defined.

Example presses_stop_at_last_page :
  Paging.presses (Js.Int 3)
    [Paging.PressNext; Paging.PressNext; Paging.PressNext;
     Paging.PressNext; Paging.PressPrev] 1 = 2
  /\ Paging.presses Js.NaN
       [Paging.PressNext; Paging.PressPrev; Paging.PressNext] 3 = 2.
Proof. split; reflexivity. Qed.

(** ** Selecting products *)

Lemma has_In (sku : string) (l : list string) :
  ProductsScreen.has sku l = true <-> In sku l.
Proof.
  unfold ProductsScreen.has. rewrite existsb_exists. split.
  - intros (x & Hx & He). apply String.eqb_eq in He. now subst.
  - intros H. exists sku. split; [exact H|apply String.eqb_refl].
Qed.

Lemma has_not_In (sku : string) (l : list string) :
  ProductsScreen.has sku l = false <-> ~ In sku l.
Proof.
  rewrite <- has_In. destruct (ProductsScreen.has sku l); split;
    congruence.
Qed.

Lemma In_remove_string (x sku : string) (l : list string) :
  In x (List.filter (fun y => negb (String.eqb y sku)) l)
  <-> x <> sku /\ In x l.
Proof.
  rewrite filter_In, negb_true_iff, String.eqb_neq. tauto.
Qed.

(** X17.  Toggling a product flips whether it is selected and leaves the
    other products as they are; toggling it twice gives back the same
    set of selected products. *)
Theorem toggleProductSelection_membership (sku : string)
    (s : ProductsScreen.Selection) (x : string) :
  let once := ProductsScreen.toggleProductSelection sku s in
  let twice := ProductsScreen.toggleProductSelection sku once in
  (In sku (ProductsScreen.sel_selectedProducts once)
   <-> ~ In sku (ProductsScreen.sel_selectedProducts s))
  /\ (x <> sku ->
      (In x (ProductsScreen.sel_selectedProducts once)
       <-> In x (ProductsScreen.sel_selectedProducts s)))
  /\ (In x (ProductsScreen.sel_selectedProducts twice)
      <-> In x (ProductsScreen.sel_selectedProducts s)).
Proof.
  cbn zeta.
  assert (Hmem : forall s0 y,
             In y (ProductsScreen.sel_selectedProducts
                     (ProductsScreen.toggleProductSelection sku s0))
             <-> (y = sku
                  /\ ~ In sku (ProductsScreen.sel_selectedProducts s0))
                 \/ (y <> sku
                     /\ In y (ProductsScreen.sel_selectedProducts s0))).
  { intros s0 y. unfold ProductsScreen.toggleProductSelection.
    cbn [ProductsScreen.sel_selectedProducts].
    destruct (ProductsScreen.has sku (ProductsScreen.sel_selectedProducts s0))
      eqn:Hh.
    - apply has_In in Hh. rewrite In_remove_string. tauto.
    - apply has_not_In in Hh. rewrite in_app_iff. cbn.
      destruct (String.eqb_spec y sku) as [->|Hne]; [tauto|].
      split; [intros [H|[H|[]]]|intros [[H _]|[_ H]]]; try tauto.
      congruence. }
  split; [|split].
  - rewrite Hmem. tauto.
  - intros Hne. rewrite Hmem. tauto.
  - rewrite Hmem, !Hmem.
    destruct (String.eqb_spec x sku) as [->|Hne]; [|tauto].
    destruct (in_dec string_dec sku (ProductsScreen.sel_selectedProducts s));
      tauto.
Qed.

Lemma NoDup_snoc {A} (l : list A) (a : A) :
  List.NoDup l -> ~ In a l -> List.NoDup (l ++ [a]).
Proof.
  intros Hnd Hin.
  apply (NoDup_Add (Add_app a l [])).
  rewrite app_nil_r. split; assumption.
Qed.

Lemma toggle_well_formed (sku : string) (s : ProductsScreen.Selection) :
  List.NoDup (ProductsScreen.sel_selectedProducts s) ->
  List.NoDup (ProductsScreen.sel_selectedProducts
           (ProductsScreen.toggleProductSelection sku s))
  /\ (ProductsScreen.sel_isSelectionMode
        (ProductsScreen.toggleProductSelection sku s) = true ->
      ProductsScreen.sel_selectedProducts
        (ProductsScreen.toggleProductSelection sku s) <> []).
Proof.
  intros Hnd. unfold ProductsScreen.toggleProductSelection.
  cbn [ProductsScreen.sel_selectedProducts ProductsScreen.sel_isSelectionMode].
  split.
  - destruct (ProductsScreen.has sku (ProductsScreen.sel_selectedProducts s))
      eqn:Hh.
    + apply List.NoDup_filter. exact Hnd.
    + apply has_not_In in Hh. apply NoDup_snoc; assumption.
  - match goal with |- context [length ?l] => destruct l end;
      cbn; [discriminate|]. intros _. discriminate.
Qed.

(** X18.  Whatever products are pressed and long-pressed on a screen that
    has just been opened, the selection never holds a product twice, and
    the screen is in selection mode only while at least one product is
    selected. *)
Theorem selection_well_formed (ts : list ProductsScreen.Touch) :
  let s := ProductsScreen.touches ts ProductsScreen.opened in
  List.NoDup (ProductsScreen.sel_selectedProducts s)
  /\ (ProductsScreen.sel_isSelectionMode s = true ->
      ProductsScreen.sel_selectedProducts s <> []).
Proof.
  cbn zeta. unfold ProductsScreen.touches.
  assert (Hgen : forall s,
             List.NoDup (ProductsScreen.sel_selectedProducts s) ->
             (ProductsScreen.sel_isSelectionMode s = true ->
              ProductsScreen.sel_selectedProducts s <> []) ->
             List.NoDup (ProductsScreen.sel_selectedProducts
                      (fold_left ProductsScreen.touch ts s))
             /\ (ProductsScreen.sel_isSelectionMode
                   (fold_left ProductsScreen.touch ts s) = true ->
                 ProductsScreen.sel_selectedProducts
                   (fold_left ProductsScreen.touch ts s) <> [])).
  { induction ts as [|t ts IH]; intros s Hnd Hmode; cbn [fold_left];
      [split; assumption|].
    apply IH.
    - destruct t as [p|p]; cbn [ProductsScreen.touch].
      + unfold ProductsScreen.handleProductPress.
        destruct (ProductsScreen.sel_isSelectionMode s); cbn [fst];
          [apply toggle_well_formed; exact Hnd|exact Hnd].
      + unfold ProductsScreen.handleProductLongPress.
        destruct (ProductsScreen.sel_isSelectionMode s); cbn [negb];
          [apply toggle_well_formed; exact Hnd|].
        cbn. constructor; [intros []|constructor].
    - destruct t as [p|p]; cbn [ProductsScreen.touch].
      + unfold ProductsScreen.handleProductPress.
        destruct (ProductsScreen.sel_isSelectionMode s) eqn:Hm; cbn [fst];
          [apply toggle_well_formed; exact Hnd|].
        rewrite Hm. discriminate.
      + unfold ProductsScreen.handleProductLongPress.
        destruct (ProductsScreen.sel_isSelectionMode s); cbn [negb];
          [apply toggle_well_formed; exact Hnd|].
        cbn. discriminate. }
  apply Hgen; cbn; [constructor|discriminate].
Qed.

(** ** Expanding categories *)

(** X19.  Toggling a category flips whether it is expanded and leaves the
    other categories as they are; it never makes the list of expanded
    categories hold one twice; toggling twice gives back the same
    expanded categories. *)
Theorem toggleCategory_membership (categoryId : Z) (prev : list Z) (x : Z) :
  let once := CategoriesScreen.toggleCategory categoryId prev in
  let twice := CategoriesScreen.toggleCategory categoryId once in
  (In categoryId once <-> ~ In categoryId prev)
  /\ (x <> categoryId -> (In x once <-> In x prev))
  /\ (In x twice <-> In x prev)
  /\ (List.NoDup prev -> List.NoDup once).
Proof.
  cbn zeta.
  assert (Hex : forall l, existsb (Z.eqb categoryId) l = true
                          <-> In categoryId l).
  { intros l. rewrite existsb_exists. split.
    - intros (y & Hy & He). apply Z.eqb_eq in He. now subst.
    - intros H. exists categoryId. split; [exact H|apply Z.eqb_refl]. }
  assert (Hmem : forall l y,
             In y (CategoriesScreen.toggleCategory categoryId l)
             <-> (y = categoryId /\ ~ In categoryId l)
                 \/ (y <> categoryId /\ In y l)).
  { intros l y. unfold CategoriesScreen.toggleCategory.
    destruct (existsb (Z.eqb categoryId) l) eqn:He.
    - apply Hex in He. rewrite filter_In, negb_true_iff, Z.eqb_neq. tauto.
    - assert (Hn : ~ In categoryId l)
        by (rewrite <- Hex, He; discriminate).
      rewrite in_app_iff. cbn.
      destruct (Z.eq_dec y categoryId) as [->|Hne]; [tauto|].
      split; [intros [H|[H|[]]]|intros [[H _]|[_ H]]]; try tauto.
      congruence. }
  split; [|split; [|split]].
  - rewrite Hmem. tauto.
  - intros Hne. rewrite Hmem. tauto.
  - rewrite Hmem, !Hmem.
    destruct (Z.eq_dec x categoryId) as [->|Hne]; [|tauto].
    destruct (in_dec Z.eq_dec categoryId prev); tauto.
  - intros Hnd. unfold CategoriesScreen.toggleCategory.
    destruct (existsb (Z.eqb categoryId) prev) eqn:He.
    + apply List.NoDup_filter. exact Hnd.
    + apply NoDup_snoc; [exact Hnd|]. rewrite <- Hex, He. discriminate.
Qed.

(** ** Rendering categories *)

Lemma renderCategoryItem_within (expanded : list Z) (item : Category) :
  forall level lv c,
    In (lv, c) (CategoriesScreen.renderCategoryItem expanded level item) ->
    within c item.
Proof.
  induction item as [i p n a pos l pc|i p n a pos l pc children IH]
    using Category_induction; intros level lv c;
    cbn [CategoriesScreen.renderCategoryItem].
  - intros [H|[]]. injection H as _ <-. left. reflexivity.
  - intros [H|H]; [injection H as _ <-; left; reflexivity|].
    destruct (existsb (Z.eqb i) expanded && (0 <? length children)%nat);
      [|destruct H].
    apply in_flat_map in H. destruct H as (child & Hchild & Hin).
    rewrite List.Forall_forall in IH.
    assert (Hc : child_of child
                   (mkCategory i p n a pos l pc (Some children)))
      by (exists children; split; [reflexivity|exact Hchild]).
    right. destruct (IH child Hchild _ _ _ Hin) as [->|Hd].
    + apply descendant_child. exact Hc.
    + eapply descendant_step; [exact Hd|exact Hc].
Qed.

Lemma renderCategoryItem_collapsed (item : Category) (level : Z) :
  CategoriesScreen.renderCategoryItem [] level item = [(level, item)].
Proof. destruct item as [i p n a pos l pc [children|]]; reflexivity. Qed.

(** X20.  The list of categories draws nothing outside the trees that the
    search keeps: every card is a kept top-level category or one of its
    descendants.  The search does not expand anything: while no category
    is expanded, the cards are exactly the kept top-level categories, in
    their order, also when a category is kept only for a descendant that
    matches. *)
Theorem renderList_shows_kept_trees (toLowerCase : string -> string)
    (expanded : list Z) (categories : list Category) (searchQuery : string) :
  (forall lv c,
      In (lv, c)
         (CategoriesScreen.renderList toLowerCase expanded categories
            searchQuery) ->
      exists top,
        In top (filteredCategories toLowerCase categories searchQuery)
        /\ within c top)
  /\ CategoriesScreen.renderList toLowerCase [] categories searchQuery
     = map (fun c => (0, c))
         (filteredCategories toLowerCase categories searchQuery).
Proof.
  unfold CategoriesScreen.renderList. split.
  - intros lv c H. apply in_flat_map in H. destruct H as (top & Htop & Hin).
    exists top. split; [exact Htop|].
    eapply renderCategoryItem_within. exact Hin.
  - induction (filteredCategories toLowerCase categories searchQuery)
      as [|c l IH]; [reflexivity|].
    cbn [flat_map map]. rewrite IH, renderCategoryItem_collapsed. reflexivity.
Qed.

Example renderList_grandchild_match :
  map (fun card => cat_name (snd card))
    (CategoriesScreen.renderList latin_toLowerCase [] [garden; kitchen]
       "spade")
  = ["Garden"].
Proof. reflexivity. Qed.

Example renderList_expanded :
  map (fun card => (fst card, cat_name (snd card)))
    (CategoriesScreen.renderList latin_toLowerCase [1; 2] [garden; kitchen]
       "spade")
  = [(0, "Garden"); (1, "Tools"); (2, "Spade")].
Proof. reflexivity. Qed.

(** ** More on the category search *)

Lemma substring_of_trans (a b c : string) :
  substring_of a b -> substring_of b c -> substring_of a c.
Proof.
  intros (p1 & s1 & ->) (p2 & s2 & ->).
  exists (p2 ++ p1), (s1 ++ s2).
  assert (Hassoc : forall x y z : string, (x ++ y) ++ z = x ++ (y ++ z)).
  { intros x y z. induction x as [|ch x IHx]; [reflexivity|].
    change (String ch ((x ++ y) ++ z) = String ch (x ++ (y ++ z))).
    f_equal. exact IHx. }
  rewrite !Hassoc. reflexivity.
Qed.

(** X21.  A longer query narrows the search: when the query [q], in lower
    case, occurs in the query [q'], in lower case, every category that
    the search keeps for [q'] is kept for [q]. *)
Theorem filteredCategories_narrows (toLowerCase : string -> string)
    (categories : list Category) (q q' : string) (c : Category) :
  substring_of (toLowerCase q) (toLowerCase q') ->
  In c (filteredCategories toLowerCase categories q') ->
  In c (filteredCategories toLowerCase categories q).
Proof.
  intros Hsub. unfold filteredCategories.
  rewrite !filter_In, !matchesSearch_name_contains. unfold name_contains.
  intros [Hin [H|(d & Hd & H)]]; (split; [exact Hin|]).
  - left. eapply substring_of_trans; eassumption.
  - right. exists d. split; [exact Hd|].
    eapply substring_of_trans; eassumption.
Qed.

Lemma filteredCategories_narrows_witness :
  In garden (filteredCategories latin_toLowerCase [garden; kitchen] "pad").
Proof.
  apply (filteredCategories_narrows latin_toLowerCase [garden; kitchen]
           "pad" "SPADE" garden).
  - exists "s", "e". reflexivity.
  - left. reflexivity.
Defined.

(** X22.  An empty query keeps every category, in the order of the
    list, whenever [toLowerCase] maps the empty string to itself. *)
Theorem filteredCategories_empty_query (toLowerCase : string -> string)
    (categories : list Category) :
  toLowerCase "" = "" ->
  filteredCategories toLowerCase categories "" = categories.
Proof.
  intros Hempty. unfold filteredCategories. rewrite Hempty.
  induction categories as [|c l IH]; [reflexivity|].
  cbn [List.filter].
  assert (Hm : matchesSearch toLowerCase "" c = true).
  { apply matchesSearch_spec. left. apply includes_spec.
    exists "", (toLowerCase (cat_name c)). reflexivity. }
  rewrite Hm, IH. reflexivity.
Qed.

Lemma filteredCategories_empty_query_witness :
  filteredCategories latin_toLowerCase [garden; kitchen] ""
  = [garden; kitchen].
Proof.
  apply (filteredCategories_empty_query latin_toLowerCase [garden; kitchen]).
  reflexivity.
Defined.

(** ** The bulk delete when nothing fails *)

(** X23.  When the platform accepts every step, the bulk delete sends the
    steps of the selected products in order, each product's media
    deletions before the deletion of the product, then empties the
    selection, leaves the selection mode, starts a new fetch and shows the
    success alert.  With nothing selected it sends no request and still
    shows the success alert. *)
Theorem bulk_delete_completes (u : option User) (products : list Product)
    (selectedProducts : list string) (w : World) :
  let todo := plan (token_or_empty u) products selectedProducts in
  all_accepted (server w) (sent (trace w)) todo = true ->
  exists w',
    handleDeleteSelected_onPress u products selectedProducts w
      = (Return tt, w')
    /\ trace w'
       = (trace w ++ SetLoading true :: map Sent todo
            ++ [SetSelectedProducts []; SetIsSelectionMode false;
                StartedFetchProducts;
                Alerted "Success" "Products deleted successfully";
                SetLoading false])%list.
Proof.
  cbn zeta. intros Hall.
  eexists. split.
  - apply onPress_success. rewrite deleteSelected_plan.
    apply attempts_accepted.
    rewrite sent_log_other by discriminate. exact Hall.
  - destruct (logs_frame
                [SetSelectedProducts []; SetIsSelectionMode false;
                 StartedFetchProducts;
                 Alerted "Success" "Products deleted successfully";
                 SetLoading false]
                (logs (map Sent (plan (token_or_empty u) products
                                   selectedProducts))
                   (log (SetLoading true) w))) as [Ht _].
    rewrite Ht.
    destruct (logs_frame
                (map Sent (plan (token_or_empty u) products selectedProducts))
                (log (SetLoading true) w)) as [Ht' _].
    rewrite Ht'. cbn [trace log]. rewrite <- !app_assoc. reflexivity.
Qed.

Lemma bulk_delete_completes_witness :
  exists w',
    handleDeleteSelected_onPress
      (Some {| username := "admin"; token := VString "t0ken" |})
      [productA; productB] ["B"; "A"]
      (logged_in (platform_always 200 (VString "")))
      = (Return tt, w')
    /\ trace w'
       = [SetLoading true;
          Sent (product_request (VString "t0ken") "B");
          Sent (media_request (VString "t0ken") "A" 5);
          Sent (product_request (VString "t0ken") "A");
          SetSelectedProducts []; SetIsSelectionMode false;
          StartedFetchProducts;
          Alerted "Success" "Products deleted successfully";
          SetLoading false].
Proof.
  apply (bulk_delete_completes
           (Some {| username := "admin"; token := VString "t0ken" |})
           [productA; productB] ["B"; "A"]
           (logged_in (platform_always 200 (VString "")))).
  reflexivity.
Defined.

(** ** The images of the edit screen *)

Lemma map_filter_id (p : Z -> bool) (l : list MediaEntry) :
  map me_id (List.filter (fun img => p (me_id img)) l)
  = List.filter p (map me_id l).
Proof.
  induction l as [|x l IH]; cbn; [reflexivity|].
  destruct (p (me_id x)); cbn; now rewrite IH.
Qed.

Lemma map_imap_same {A B} (h : A -> B) (g : nat -> A -> A) (l : list A) :
  (forall i x, h (g i x) = h x) -> map h (imap g l) = map h l.
Proof.
  revert g. induction l as [|x l IH]; intros g Hg; cbn; [reflexivity|].
  rewrite Hg. f_equal. apply IH. intros i y. apply Hg.
Qed.

Lemma map_imap_index {A} (h : A -> Z) (g : nat -> A -> A) (k : nat)
    (base : Z) (l : list A) :
  (forall i x, h (g i x) = base + Z.of_nat (k + i)) ->
  map h (imap g l) = map (fun i => base + Z.of_nat i) (seq k (length l)).
Proof.
  revert g k. induction l as [|x l IH]; intros g k Hg; cbn; [reflexivity|].
  rewrite Hg, Nat.add_0_r. f_equal.
  apply (IH (g ∘ S) (S k)). intros i y. unfold compose. rewrite Hg.
  f_equal. lia.
Qed.

(** X24.  After [removeExistingImage] the existing images are those
    whose identifier is not the removed one, in their order; each keeps
    its identifier, media type, label, disabled flag and file, and their
    positions count up from 0 without a gap. *)
Theorem removeExistingImage_renumbers (imageId : Z)
    (existingImages : list MediaEntry) :
  let kept :=
    List.filter (fun img => negb (Z.eqb (me_id img) imageId))
      existingImages in
  let left := EditProductScreen.removeExistingImage imageId existingImages in
  map me_id left = map me_id kept
  /\ map me_media_type left = map me_media_type kept
  /\ map me_label left = map me_label kept
  /\ map me_disabled left = map me_disabled kept
  /\ map me_file left = map me_file kept
  /\ map me_position left = map Z.of_nat (seq 0 (length kept))
  /\ length left = length kept
  /\ ~ In imageId (map me_id left)
  /\ (forall id, id <> imageId ->
                 (In id (map me_id left) <-> In id (map me_id existingImages))).
Proof.
  cbn zeta. unfold EditProductScreen.removeExistingImage.
  assert (Hid : map me_id
                  (imap (fun index img =>
                           EditProductScreen.with_position (Z.of_nat index) img)
                     (List.filter (fun img => negb (Z.eqb (me_id img) imageId))
                        existingImages))
                = List.filter (fun id => negb (Z.eqb id imageId))
                    (map me_id existingImages)).
  { rewrite map_imap_same by reflexivity.
    apply (map_filter_id (fun id => negb (Z.eqb id imageId))). }
  split; [apply map_imap_same; reflexivity|].
  split; [apply map_imap_same; reflexivity|].
  split; [apply map_imap_same; reflexivity|].
  split; [apply map_imap_same; reflexivity|].
  split; [apply map_imap_same; reflexivity|].
  split; [|split; [apply length_imap|split]].
  - rewrite (map_imap_index me_position _ 0 0) by reflexivity.
    reflexivity.
  - rewrite Hid, filter_In, negb_true_iff, Z.eqb_neq. tauto.
  - intros id Hne. rewrite Hid, filter_In, negb_true_iff, Z.eqb_neq. tauto.
Qed.

Lemma filter_index_all {A} (keep : nat -> bool) (k : nat) (l : list A) :
  (forall i, (k <= i)%nat -> keep i = true) -> filter_index keep k l = l.
Proof.
  revert k. induction l as [|x l IH]; intros k Hk; cbn; [reflexivity|].
  rewrite Hk by lia. f_equal. apply IH. intros i Hi. apply Hk. lia.
Qed.

Lemma filter_index_delete {A} (index k : nat) (l : list A) :
  filter_index (fun i => negb (Nat.eqb i (k + index))) k l = delete index l.
Proof.
  revert index k. induction l as [|x l IH]; intros index k; cbn;
    [reflexivity|].
  destruct index as [|index].
  - rewrite Nat.add_0_r, Nat.eqb_refl. cbn.
    apply filter_index_all. intros i Hi.
    apply negb_true_iff, Nat.eqb_neq. lia.
  - assert (Hk : Nat.eqb k (k + S index) = false)
      by (apply Nat.eqb_neq; lia).
    rewrite Hk. cbn. f_equal.
    replace (k + S index)%nat with (S k + index)%nat by lia. apply IH.
Qed.

Lemma filter_index_delete_0 {A} (index : nat) (l : list A) :
  filter_index (fun i => negb (Nat.eqb i index)) 0 l = delete index l.
Proof. exact (filter_index_delete index 0 l). Qed.

Lemma length_delete_out {A} (index : nat) (l : list A) :
  (length l <= index)%nat -> length (delete index l) = length l.
Proof.
  revert index. induction l as [|x l IH]; intros [|index]; cbn;
    try reflexivity; try lia.
  intros H. f_equal. apply IH. lia.
Qed.

Lemma length_delete_in {A} (index : nat) (l : list A) :
  (index < length l)%nat -> S (length (delete index l)) = length l.
Proof.
  revert index. induction l as [|x l IH]; intros [|index]; cbn;
    try reflexivity; try lia.
  intros H. f_equal. apply IH. lia.
Qed.

Lemma map_delete {A B} (h : A -> B) (index : nat) (l : list A) :
  map h (delete index l) = delete index (map h l).
Proof.
  revert index. induction l as [|x l IH]; intros [|index]; cbn;
    try reflexivity.
  f_equal. apply IH.
Qed.

(** X25.  [removeNewImage] takes out the image at the given index, and
    nothing when no image has that index; the new images that stay keep
    their order and their content, and their positions count up from the
    number of existing images. *)
Theorem removeNewImage_renumbers (index : nat)
    (existingImages : list MediaEntry)
    (prevImages : list EditProductScreen.NewImage) :
  let left :=
    EditProductScreen.removeNewImage index existingImages prevImages in
  map EditProductScreen.ni_uri left
    = delete index (map EditProductScreen.ni_uri prevImages)
  /\ map EditProductScreen.ni_base64 left
     = delete index (map EditProductScreen.ni_base64 prevImages)
  /\ map EditProductScreen.ni_position left
     = map (fun i => Z.of_nat (length existingImages) + Z.of_nat i)
         (seq 0 (length left))
  /\ ((length prevImages <= index)%nat ->
      length left = length prevImages)
  /\ ((index < length prevImages)%nat ->
      S (length left) = length prevImages).
Proof.
  cbn zeta. unfold EditProductScreen.removeNewImage.
  rewrite (filter_index_delete_0 index prevImages).
  split; [|split; [|split; [|split]]].
  - rewrite map_imap_same by reflexivity. apply map_delete.
  - rewrite map_imap_same by reflexivity. apply map_delete.
  - rewrite length_imap.
    apply (map_imap_index EditProductScreen.ni_position _ 0). reflexivity.
  - intros Hle. rewrite length_imap. apply length_delete_out. exact Hle.
  - intros Hlt. rewrite length_imap. apply length_delete_in. exact Hlt.
Qed.

(** X26.  [pickImage] never throws and sends nothing.  When the
    permission is granted, the pick was not cancelled and has an asset,
    and fewer than [MAX_IMAGES] images are on the form, it appends the
    first picked asset, with the count of images so far as its position,
    and shows no alert.  In every other case it leaves the new images as
    they are.  So a form with at most [MAX_IMAGES] images never gets
    more. *)
Theorem pickImage_bounded (status : string) (picked : EditProductScreen.Picked)
    (existingImages : list MediaEntry)
    (newImages : list EditProductScreen.NewImage) (w : World) :
  let total :=
    Z.of_nat (length existingImages) + Z.of_nat (length newImages) in
  exists r w',
    EditProductScreen.pickImage status picked existingImages newImages w
      = (Return r, w')
    /\ sent (trace w') = sent (trace w)
    /\ (forall asset rest,
          status = "granted" ->
          picked = EditProductScreen.PickerResult false (asset :: rest) ->
          total < EditProductScreen.MAX_IMAGES ->
          r = (newImages
                 ++ [ {| EditProductScreen.ni_uri :=
                           EditProductScreen.asset_uri asset;
                         EditProductScreen.ni_base64 :=
                           Js.or_string
                             (EditProductScreen.asset_base64 asset) "";
                         EditProductScreen.ni_position := total |} ])%list
          /\ w' = w)
    /\ (status <> "granted"
        \/ EditProductScreen.MAX_IMAGES <= total
        \/ (forall asset rest,
               picked
               <> EditProductScreen.PickerResult false (asset :: rest)) ->
        r = newImages)
    /\ Z.of_nat (length existingImages) + Z.of_nat (length r)
       <= Z.max EditProductScreen.MAX_IMAGES total.
Proof.
  cbn zeta.
  unfold EditProductScreen.pickImage,
    EditProductScreen.requestMediaLibraryPermission, try_catch.
  destruct (String.eqb_spec status "granted") as [->|Hne]; cbn [negb].
  2:{ eexists _, _. split; [reflexivity|]. cbn.
      rewrite sent_app. cbn. rewrite app_nil_r.
      split; [reflexivity|]. split; [intros; contradiction|].
      split; [reflexivity|lia]. }
  destruct picked as [|canceled assets].
  { eexists _, _. split; [reflexivity|]. cbn.
    rewrite sent_app. cbn. rewrite app_nil_r.
    split; [reflexivity|]. split; [intros; discriminate|].
    split; [reflexivity|lia]. }
  destruct canceled.
  { eexists _, _. split; [reflexivity|]. cbn.
    split; [reflexivity|]. split; [intros; discriminate|].
    split; [reflexivity|lia]. }
  destruct assets as [|asset rest].
  { eexists _, _. split; [reflexivity|]. cbn.
    split; [reflexivity|]. split; [intros; discriminate|].
    split; [reflexivity|lia]. }
  unfold bind, ret. cbn beta iota.
  destruct (Z.leb_spec EditProductScreen.MAX_IMAGES
              (Z.of_nat (length existingImages)
               + Z.of_nat (length newImages))) as [Hfull|Hroom].
  - eexists _, _. split; [reflexivity|]. cbn [effect snd trace log].
    rewrite sent_app. cbn. rewrite app_nil_r.
    split; [reflexivity|]. split; [intros; lia|].
    split; [reflexivity|lia].
  - eexists _, _. split; [reflexivity|].
    split; [reflexivity|]. split; [|split].
    + intros asset0 rest0 _ Hpicked _. injection Hpicked as <- <-.
      split; reflexivity.
    + intros [Hs|[Hfull|Hnone]].
      * contradiction.
      * lia.
      * exfalso. exact (Hnone asset rest eq_refl).
    + rewrite length_app. cbn [length]. lia.
Qed.

Example pickImage_third :
  fst (EditProductScreen.pickImage "granted"
         (EditProductScreen.PickerResult false
            [ {| EditProductScreen.asset_uri := "file:///3.jpg";
                 EditProductScreen.asset_base64 := None |} ])
         [image5]
         [ {| EditProductScreen.ni_uri := "a"; EditProductScreen.ni_base64 := "";
              EditProductScreen.ni_position := 1 |} ]
         (initial (platform_always 200 (VString ""))))
  = Return
      [ {| EditProductScreen.ni_uri := "a"; EditProductScreen.ni_base64 := "";
           EditProductScreen.ni_position := 1 |};
        {| EditProductScreen.ni_uri := "file:///3.jpg";
           EditProductScreen.ni_base64 := "";
           EditProductScreen.ni_position := 2 |} ].
Proof. reflexivity. Qed.

Example pickImage_sixth :
  fst (EditProductScreen.pickImage "granted"
         (EditProductScreen.PickerResult false
            [ {| EditProductScreen.asset_uri := "file:///6.jpg";
                 EditProductScreen.asset_base64 := Some "AAAA" |} ])
         [image5; image5; image5]
         [ {| EditProductScreen.ni_uri := "a"; EditProductScreen.ni_base64 := "";
              EditProductScreen.ni_position := 3 |};
           {| EditProductScreen.ni_uri := "b"; EditProductScreen.ni_base64 := "";
              EditProductScreen.ni_position := 4 |} ]
         (initial (platform_always 200 (VString ""))))
  = Return
      [ {| EditProductScreen.ni_uri := "a"; EditProductScreen.ni_base64 := "";
           EditProductScreen.ni_position := 3 |};
        {| EditProductScreen.ni_uri := "b"; EditProductScreen.ni_base64 := "";
           EditProductScreen.ni_position := 4 |} ].
Proof. reflexivity. Qed.

(** ** Saving an edited product *)

Lemma uploadProductImage_eq (token : Value) (sku imageData : string)
    (position : Z) (type : string) :
  api.uploadProductImage token sku imageData position type
  = guarded (uploadProductImage_request token sku imageData position type)
      (fun resp => data resp)
      "Failed to upload image" "An error occurred while uploading the image.".
Proof. reflexivity. Qed.

Lemma getProductDetails_eq (token : Value) (sku : string) :
  api.getProductDetails token sku
  = guarded (getProductDetails_request token sku) (fun resp => data resp)
      "Failed to fetch product details"
      "An error occurred while fetching product details.".
Proof. reflexivity. Qed.

Lemma updateProduct_accepted (token : Value) (sku : string) (d : Payload)
    (w : World) (resp : Response) :
  server w (sent (trace w)) (updateProduct_request token sku d)
    = Responded resp ->
  is_2xx (status resp) = true ->
  api.updateProduct token sku d w
  = (Return (data resp),
     log (Sent (updateProduct_request token sku d)) (log ConsoleLogged w)).
Proof.
  intros Hs H2.
  unfold api.updateProduct, try_catch, bind, effect.
  fold (updateProduct_request token sku d).
  rewrite (axios_accepted _ (log ConsoleLogged w) resp).
  - reflexivity.
  - rewrite sent_log_other by discriminate. exact Hs.
  - exact H2.
Qed.

(** A turn of a loop that has its own [try] block returns whatever the
    platform answers; it has sent its request. *)
Lemma guarded_caught {A} (q : Request) (f : Response -> A)
    (failed other : string) (h : JsError -> World -> World) (w : World) :
  (forall e w0, sent (trace (h e w0)) = sent (trace w0)
                /\ server (h e w0) = server w0) ->
  exists w',
    try_catch (void (guarded q f failed other))
      (fun error => effect (h error)) w = (Return tt, w')
    /\ sent (trace w') = (sent (trace w) ++ [q])%list
    /\ server w' = server w.
Proof.
  intros Hh. unfold try_catch.
  destruct (guarded_sent q f failed other w) as [Hs Hv].
  rewrite <- void_snd in Hs, Hv.
  destruct (void (guarded q f failed other) w) as [[[]|e] w1];
    cbn [snd] in Hs, Hv.
  - eexists. split; [reflexivity|]. split; assumption.
  - eexists. split; [reflexivity|]. cbn [effect snd].
    destruct (Hh e w1) as [H1 H2]. rewrite H1, H2. split; assumption.
Qed.

Lemma upload_one_sent (token : Value) (sku : string)
    (image : EditProductScreen.NewImage) (w : World) :
  exists w',
    EditProductScreen.upload_one token sku image w = (Return tt, w')
    /\ sent (trace w')
       = (sent (trace w) ++ upload_requests token sku [image])%list
    /\ server w' = server w.
Proof.
  unfold EditProductScreen.upload_one. rewrite uploadProductImage_eq.
  destruct (guarded_caught
              (uploadProductImage_request token sku
                 (EditProductScreen.ni_base64 image)
                 (EditProductScreen.ni_position image) "image/jpeg")
              (fun resp => data resp)
              "Failed to upload image"
              "An error occurred while uploading the image."
              (fun error w0 =>
                 log (Alerted "Error"
                        ("Failed to upload image: " ++ message error))
                   (log ConsoleLogged w0)) w)
    as (w' & Hrun & Hs & Hv).
  { intros e w0. rewrite !sent_log_other by discriminate.
    split; reflexivity. }
  exists w'. split; [|split; assumption].
  rewrite <- Hrun. unfold try_catch.
  destruct (void _ w) as [[[]|e] w1]; reflexivity.
Qed.

Lemma uploads_sent (token : Value) (sku : string)
    (images : list EditProductScreen.NewImage) (w : World) :
  exists w',
    for_of images (EditProductScreen.upload_one token sku) w = (Return tt, w')
    /\ sent (trace w')
       = (sent (trace w) ++ upload_requests token sku images)%list
    /\ server w' = server w.
Proof.
  revert w. induction images as [|image images IH]; intros w.
  - exists w. cbn. rewrite app_nil_r. repeat split.
  - destruct (upload_one_sent token sku image w) as (w1 & Hrun & Hs & Hv).
    destruct (IH w1) as (w2 & Hrun2 & Hs2 & Hv2).
    exists w2. cbn [for_of]. rewrite (bind_return _ _ w w1 tt Hrun).
    split; [exact Hrun2|]. rewrite Hs2, Hs, Hv2, Hv, <- app_assoc.
    split; reflexivity.
Qed.

Lemma delete_one_sent (token : Value) (sku : string) (remaining : list Z)
    (imageId : Z) (w : World) :
  exists w',
    EditProductScreen.delete_one token sku remaining imageId w
      = (Return tt, w')
    /\ sent (trace w')
       = (sent (trace w)
            ++ deletion_requests token sku remaining [imageId])%list
    /\ server w' = server w.
Proof.
  unfold EditProductScreen.delete_one, deletion_requests.
  cbn [List.filter].
  destruct (negb (existsb (Z.eqb imageId) remaining)); cbn [map].
  2:{ exists w. rewrite app_nil_r. repeat split. }
  destruct (guarded_caught (media_request token sku imageId)
              (fun _ : Response => tt)
              "Failed to delete product image"
              "An error occurred while deleting the product image."
              (fun error w0 =>
                 log (Alerted "Error"
                        ("Failed to delete image: " ++ message error))
                   (log ConsoleLogged w0)) w)
    as (w' & Hrun & Hs & Hv).
  { intros e w0. rewrite !sent_log_other by discriminate.
    split; reflexivity. }
  exists w'. split; [|split; assumption].
  rewrite <- Hrun. unfold try_catch, void, bind.
  change (api.deleteProductImage token sku imageId) with
    (guarded (media_request token sku imageId) (fun _ : Response => tt)
       "Failed to delete product image"
       "An error occurred while deleting the product image.").
  destruct (guarded _ _ _ _ w) as [[[]|e] w1]; reflexivity.
Qed.

Lemma deletes_sent (token : Value) (sku : string) (remaining : list Z)
    (original : list Z) (w : World) :
  exists w',
    for_of original (EditProductScreen.delete_one token sku remaining) w
      = (Return tt, w')
    /\ sent (trace w')
       = (sent (trace w)
            ++ deletion_requests token sku remaining original)%list
    /\ server w' = server w.
Proof.
  revert w. induction original as [|imageId original IH]; intros w.
  - exists w. cbn. rewrite app_nil_r. repeat split.
  - destruct (delete_one_sent token sku remaining imageId w)
      as (w1 & Hrun & Hs & Hv).
    destruct (IH w1) as (w2 & Hrun2 & Hs2 & Hv2).
    exists w2. cbn [for_of]. rewrite (bind_return _ _ w w1 tt Hrun).
    split; [exact Hrun2|]. rewrite Hs2, Hs, Hv2, Hv, <- app_assoc.
    split; [|reflexivity]. f_equal.
    unfold deletion_requests. cbn [List.filter].
    destruct (negb (existsb (Z.eqb imageId) remaining)); reflexivity.
Qed.

Lemma updateProduct_rejected (token : Value) (sku : string) (d : Payload)
    (w : World) :
  let o := server w (sent (trace w)) (updateProduct_request token sku d) in
  accepted o = false ->
  api.updateProduct token sku d w
  = (Throw (thrown (rejection o)),
     after_auth_error (rejection o)
       (log ConsoleLogged
          (log (Sent (updateProduct_request token sku d))
             (log ConsoleLogged w)))).
Proof.
  cbn zeta. intros Ha.
  assert (Hq : server (log ConsoleLogged w)
                 (sent (trace (log ConsoleLogged w)))
                 (updateProduct_request token sku d)
               = server w (sent (trace w))
                   (updateProduct_request token sku d)).
  { rewrite sent_log_other by discriminate. reflexivity. }
  unfold api.updateProduct, try_catch, bind, effect.
  fold (updateProduct_request token sku d).
  rewrite axios_rejected by (rewrite Hq; exact Ha).
  rewrite Hq, on_error_eq. reflexivity.
Qed.

Section EditSubmit.

Variable Number : Type.
Variable toString : Number -> string.
Variable trim : string -> string.
Variable updateData : EditProductScreen.FormData Number -> Payload.
Variable media_gallery_ids : Value -> option (list Z).


Lemma submit_valid (u : option User) (sku : string)
    (s : EditProductScreen.State Number) :
  trim (EditProductScreen.fd_name (EditProductScreen.formData s)) <> "" ->
  trim (toString (EditProductScreen.fd_price
                      (EditProductScreen.formData s))) <> "" ->
  EditProductScreen.submit toString trim updateData media_gallery_ids u sku s
  = (void (api.updateProduct (token_or_empty u) sku
             (updateData (EditProductScreen.formData s))) ;;
     for_of (EditProductScreen.newImages s)
       (EditProductScreen.upload_one (token_or_empty u) sku) ;;
     details <- api.getProductDetails (token_or_empty u) sku ;;
     for_of (default [] (media_gallery_ids details))
       (EditProductScreen.delete_one (token_or_empty u) sku
          (map me_id (EditProductScreen.existingImages s))) ;;
     effect (log (Alerted "Success" "Product updated successfully"))).
Proof.
  intros Hn Hp. unfold EditProductScreen.submit.
  destruct (String.eqb_spec (trim (EditProductScreen.fd_name
            (EditProductScreen.formData s))) "");
    [contradiction|].
  destruct (String.eqb_spec (trim (toString (EditProductScreen.fd_price
                      (EditProductScreen.formData s)))) "");
    [contradiction|].
  reflexivity.
Qed.

(** The [try] block of [handleSubmit] on a valid form whose update the
    platform accepts. *)
Lemma submit_runs (u : option User) (sku : string)
    (s : EditProductScreen.State Number) (w : World) :
  let token := token_or_empty u in
  let update :=
    updateProduct_request token sku
        (updateData (EditProductScreen.formData s)) in
  let uploads := upload_requests token sku (EditProductScreen.newImages s) in
  let details := getProductDetails_request token sku in
  trim (EditProductScreen.fd_name (EditProductScreen.formData s)) <> "" ->
  trim (toString (EditProductScreen.fd_price
                      (EditProductScreen.formData s))) <> "" ->
  accepted (server w (sent (trace w)) update) = true ->
  exists r w1 tail,
    EditProductScreen.submit toString trim updateData
        media_gallery_ids u sku s w = (r, w1)
    /\ sent (trace w1)
       = (sent (trace w) ++ update :: uploads ++ details :: tail)%list
    /\ forall answer,
         server w (sent (trace w) ++ update :: uploads) details
           = Responded answer ->
         is_2xx (status answer) = true ->
         tail = deletion_requests token sku
             (map me_id (EditProductScreen.existingImages s))
                  (default [] (media_gallery_ids (data answer)))
         /\ r = Return tt
         /\ exists w0,
              w1 = log (Alerted "Success" "Product updated successfully") w0.
Proof.
  cbn zeta. intros Hn Hp Ha.
  destruct (accepted_inv _ Ha) as (resp & Hresp & H2).
  rewrite (submit_valid u sku s Hn Hp).
  set (token := token_or_empty u).
  set (update := updateProduct_request token sku
      (updateData (EditProductScreen.formData s)))
    in *.
  set (wa := log (Sent update) (log ConsoleLogged w)).
  assert (H1 : void (api.updateProduct token sku
      (updateData (EditProductScreen.formData s))) w
               = (Return tt, wa)).
  { unfold void.
    rewrite (bind_return _ _ w wa (data resp)); [reflexivity|].
    apply updateProduct_accepted; assumption. }
  rewrite (bind_return _ _ _ _ _ H1).
  destruct (uploads_sent token sku
      (EditProductScreen.newImages s) wa) as (wb & H2' & Hs2 & Hv2).
  rewrite (bind_return _ _ _ _ _ H2').
  assert (Hsa : sent (trace wa) = (sent (trace w) ++ [update])%list).
  { unfold wa. rewrite sent_log_Sent, sent_log_other by discriminate.
    reflexivity. }
  assert (Hsb : sent (trace wb)
                = (sent (trace w)
                     ++ update :: upload_requests token sku
                         (EditProductScreen.newImages s))%list).
  { rewrite Hs2, Hsa, <- app_assoc. reflexivity. }
  assert (Hvb : server wb = server w) by (rewrite Hv2; reflexivity).
  rewrite getProductDetails_eq.
  set (details := getProductDetails_request token sku).
  destruct (accepted (server wb (sent (trace wb)) details)) eqn:Hd.
  - destruct (accepted_inv _ Hd) as (r & Hr & Hr2).
    rewrite (bind_return _ _ _ _ _
               (guarded_accepted details (fun resp => data resp) _ _ wb r
                  Hr Hr2)).
    destruct (deletes_sent token sku
        (map me_id (EditProductScreen.existingImages s))
                (default [] (media_gallery_ids (data r)))
                (log (Sent details) wb)) as (wc & H3 & Hs3 & Hv3).
    rewrite (bind_return _ _ _ _ _ H3). unfold effect.
    eexists _, _, _. split; [reflexivity|]. split.
    + rewrite sent_log_other by discriminate.
      rewrite Hs3, sent_log_Sent, Hsb, <- !app_assoc. cbn [app].
      reflexivity.
    + intros answer Hanswer Hanswer2.
      rewrite Hvb, Hsb in Hr. rewrite Hr in Hanswer.
      injection Hanswer as <-.
      split; [reflexivity|]. split; [reflexivity|]. eexists. reflexivity.
  - rewrite (bind_throw _ _ _ _ _
               (guarded_rejected details (fun resp => data resp) _ _ wb Hd)).
    eexists _, _, []. split; [reflexivity|]. split.
    + match goal with |- context [after_auth_error ?e ?w0] =>
        destruct (after_auth_error_frame e w0) as (_ & Hs & _) end.
      rewrite Hs, sent_log_Sent, Hsb, <- !app_assoc. cbn [app].
      reflexivity.
    + intros answer Hanswer Hanswer2.
      rewrite Hvb, Hsb in Hd. rewrite Hanswer in Hd. cbn in Hd.
      congruence.
Qed.

(** X27.  On a form with a name and a
    price, when the platform accepts the update, the requests of
    [handleSubmit] are the update, then one upload for each new image in
    order, whatever the platform answers to the uploads, then the
    product details.  When the details are answered with success, the
    requests that follow are exactly the deletions of the platform's
    media entries that are not among the remaining images, the last
    alert is the success message although uploads or deletions may have
    failed, and [saving] ends [false]. *)
Theorem edit_submit_requests (u : option User) (sku : string)
    (s : EditProductScreen.State Number)
    (w : World) :
  let token := token_or_empty u in
  let update :=
    updateProduct_request token sku
        (updateData (EditProductScreen.formData s)) in
  let uploads := upload_requests token sku (EditProductScreen.newImages s) in
  let details := getProductDetails_request token sku in
  trim (EditProductScreen.fd_name (EditProductScreen.formData s)) <> "" ->
  trim (toString (EditProductScreen.fd_price
                      (EditProductScreen.formData s))) <> "" ->
  accepted (server w (sent (trace w)) update) = true ->
  let result :=
    EditProductScreen.handleSubmit toString trim updateData
      media_gallery_ids u sku s w in
  EditProductScreen.saving (fst result) = false
  /\ exists tail,
       sent (trace (snd result))
       = (sent (trace w) ++ update :: uploads ++ details :: tail)%list
       /\ forall answer,
            server w (sent (trace w) ++ update :: uploads) details
              = Responded answer ->
            is_2xx (status answer) = true ->
            tail = deletion_requests token sku
                     (map me_id (EditProductScreen.existingImages s))
                     (default [] (media_gallery_ids (data answer)))
            /\ last (alerts (trace (snd result)))
               = Some ("Success", "Product updated successfully").
Proof.
  cbn zeta. intros Hn Hp Ha.
  unfold EditProductScreen.handleSubmit.
  destruct (submit_runs u sku (EditProductScreen.set_saving true s) w
              Hn Hp Ha) as (r & w1 & tail & Hrun & Hsent & Hok).
  cbn [EditProductScreen.set_saving EditProductScreen.formData
       EditProductScreen.newImages EditProductScreen.existingImages]
    in Hrun, Hsent, Hok.
  unfold try_catch. rewrite Hrun.
  destruct r as [[]|e].
  - cbn [fst snd EditProductScreen.saving EditProductScreen.set_saving].
    split; [reflexivity|]. exists tail. split; [exact Hsent|].
    intros answer H1 H2. destruct (Hok answer H1 H2) as (Ht & _ & w0 & ->).
    split; [exact Ht|]. rewrite alerts_log_Alerted. apply last_snoc.
  - unfold bind, effect.
    cbn [fst snd EditProductScreen.saving EditProductScreen.set_saving].
    split; [reflexivity|]. exists tail. split.
    + rewrite !sent_log_other by discriminate. exact Hsent.
    + intros answer H1 H2. destruct (Hok answer H1 H2) as (_ & Hr & _).
      discriminate.
Qed.

(** X28.  When the platform does not
    accept the update, [handleSubmit] sends nothing else: no new image
    is uploaded and no image is deleted.  It shows one alert, with the
    message of the error of the gateway, and [saving] ends [false].
    On a form without a name or without a price it sends no request at
    all and shows the alert of the validation. *)
Theorem edit_submit_update_rejected (u : option User) (sku : string)
    (s : EditProductScreen.State Number) (w : World) :
  let token := token_or_empty u in
  let update :=
    updateProduct_request token sku
        (updateData (EditProductScreen.formData s)) in
  let result :=
    EditProductScreen.handleSubmit toString trim updateData
      media_gallery_ids u sku s w in
  (trim (EditProductScreen.fd_name (EditProductScreen.formData s)) = ""
   \/ trim (toString (EditProductScreen.fd_price
                       (EditProductScreen.formData s))) = "" ->
   EditProductScreen.saving (fst result) = false
   /\ sent (trace (snd result)) = sent (trace w)
   /\ alerts (trace (snd result))
      = (alerts (trace w) ++ [("Error", "Name and price are required")])%list)
  /\ (trim (EditProductScreen.fd_name (EditProductScreen.formData s)) <> "" ->
      trim (toString (EditProductScreen.fd_price
                          (EditProductScreen.formData s))) <> "" ->
      accepted (server w (sent (trace w)) update) = false ->
      let error := thrown (rejection (server w (sent (trace w)) update)) in
      EditProductScreen.saving (fst result) = false
      /\ sent (trace (snd result)) = (sent (trace w) ++ [update])%list
      /\ alerts (trace (snd result))
         = (alerts (trace w)
              ++ [("Error",
                   Js.or_string (Some (message error))
                     "Failed to update product")])%list).
Proof.
  cbn zeta. split.
  - intros Hempty.
    unfold EditProductScreen.handleSubmit, try_catch,
      EditProductScreen.submit.
    cbn [EditProductScreen.set_saving EditProductScreen.formData].
    assert (Hc :
      negb (negb (String.eqb
                    (trim (EditProductScreen.fd_name
                             (EditProductScreen.formData s))) ""))
      || negb (negb (String.eqb
                       (trim (toString
                                (EditProductScreen.fd_price
                                   (EditProductScreen.formData s)))) ""))
      = true).
    { destruct Hempty as [-> | ->]; cbn; [reflexivity|].
      apply orb_true_r. }
    rewrite Hc. unfold effect.
    cbn [fst snd EditProductScreen.saving EditProductScreen.set_saving].
    split; [reflexivity|]. split.
    + apply sent_log_other. discriminate.
    + apply alerts_log_Alerted.
  - intros Hn Hp Ha.
    unfold EditProductScreen.handleSubmit, try_catch.
    rewrite (submit_valid u sku (EditProductScreen.set_saving true s))
      by assumption.
    cbn [EditProductScreen.set_saving EditProductScreen.formData
         EditProductScreen.newImages EditProductScreen.existingImages].
    pose proof (updateProduct_rejected (token_or_empty u) sku
                  (updateData (EditProductScreen.formData s)) w Ha) as Hrun.
    cbn zeta in Hrun.
    pose proof (bind_throw _ (fun _ => ret tt) _ _ _ Hrun) as Hv.
    fold (void (api.updateProduct (token_or_empty u) sku
                  (updateData (EditProductScreen.formData s)))) in Hv.
    rewrite (bind_throw _ _ _ _ _ Hv). unfold bind, effect.
    cbn [fst snd EditProductScreen.saving EditProductScreen.set_saving].
    split; [reflexivity|]. split.
    + rewrite !sent_log_other by discriminate.
      match goal with |- context [after_auth_error ?e ?w0] =>
        destruct (after_auth_error_frame e w0) as (_ & Hs & _) end.
      rewrite Hs, sent_log_other by discriminate.
      rewrite sent_log_Sent, sent_log_other by discriminate. reflexivity.
    + rewrite alerts_log_Alerted, alerts_log_other by discriminate.
      rewrite alerts_after_auth_error.
      rewrite !alerts_log_other by discriminate. reflexivity.
Qed.

End EditSubmit.

Lemma edit_submit_requests_witness :
  let w :=
    logged_in
      (platform_rejecting (BASE_URL ++ "/rest/V1/products/A/media") 500) in
  let result :=
    EditProductScreen.handleSubmit pretty id (fun _ => "{}") no_media
      (user w) "A" edited w in
  EditProductScreen.saving (fst result) = false
  /\ exists tail,
       sent (trace (snd result))
       = (updateProduct_request (VString "t0ken") "A" "{}"
          :: upload_requests (VString "t0ken") "A"
               (EditProductScreen.newImages edited)
          ++ getProductDetails_request (VString "t0ken") "A" :: tail)%list
       /\ forall answer,
            server w
              (updateProduct_request (VString "t0ken") "A" "{}"
               :: upload_requests (VString "t0ken") "A"
                    (EditProductScreen.newImages edited))
              (getProductDetails_request (VString "t0ken") "A")
              = Responded answer ->
            is_2xx (status answer) = true ->
            tail = deletion_requests (VString "t0ken") "A" [5]
                     (default [] (no_media (data answer)))
            /\ last (alerts (trace (snd result)))
               = Some ("Success", "Product updated successfully").
Proof.
  apply (edit_submit_requests Z pretty id (fun _ => "{}") no_media
           (Some {| username := "admin"; token := VString "t0ken" |})
           "A" edited
           (logged_in
              (platform_rejecting
                 (BASE_URL ++ "/rest/V1/products/A/media") 500))).
  - discriminate.
  - vm_compute. discriminate.
  - reflexivity.
Defined.

Lemma edit_submit_update_rejected_witness :
  let w := logged_in (platform_always 500 (VString "")) in
  let result :=
    EditProductScreen.handleSubmit pretty id (fun _ => "{}") no_media
      (user w) "A" edited w in
  EditProductScreen.saving (fst result) = false
  /\ sent (trace (snd result))
     = [updateProduct_request (VString "t0ken") "A" "{}"]
  /\ alerts (trace (snd result))
     = [("Error", "Request failed with status code 500")].
Proof.
  apply (proj2 (edit_submit_update_rejected Z pretty id (fun _ => "{}")
                  no_media
                  (Some {| username := "admin"; token := VString "t0ken" |})
                  "A" edited
                  (logged_in (platform_always 500 (VString ""))))).
  - discriminate.
  - vm_compute. discriminate.
  - reflexivity.
Defined.

(** ** Adding a product *)

Lemma void_guarded_attempt {A} (q : Request) (f : Response -> A)
    (failed other : string) (w : World) :
  void (guarded q f failed other) w = attempt q w.
Proof.
  unfold attempt, void, bind.
  destruct (accepted (server w (sent (trace w)) q)) eqn:Ha.
  - destruct (accepted_inv _ Ha) as (resp & Hs & H2).
    rewrite (guarded_accepted q f _ _ w resp Hs H2).
    rewrite (guarded_accepted q (fun _ => tt) _ _ w resp Hs H2).
    reflexivity.
  - rewrite !(guarded_rejected q _ _ _ w Ha). reflexivity.
Qed.

Lemma bind_assoc {A B C} (m : M A) (k : A -> M B) (k' : B -> M C)
    (w : World) :
  bind (bind m k) k' w = bind m (fun a => bind (k a) k') w.
Proof. unfold bind. destruct (m w) as [[a|e] w1]; reflexivity. Qed.

Lemma bind_ext {A B} (m m' : M A) (k k' : A -> M B) :
  (forall w, m w = m' w) ->
  (forall a w, k a w = k' a w) ->
  forall w, bind m k w = bind m' k' w.
Proof.
  intros Hm Hk w. unfold bind. rewrite Hm.
  destruct (m' w) as [[a|e] w1]; [apply Hk|reflexivity].
Qed.

(** The counting loop runs its body on the elements with their indices. *)
Lemma for_index_imap {A} (h : nat -> A -> Request) (l : list A) (i : nat)
    (body : nat -> A -> M unit) :
  (forall j x w, body j x w = attempt (h j x) w) ->
  forall w,
    for_index i l body w
    = for_of (imap (fun j => h (i + j)%nat) l) attempt w.
Proof.
  intros Hbody. revert i. induction l as [|x l IH]; intros i w;
    [reflexivity|].
  cbn [for_index imap for_of]. rewrite Nat.add_0_r.
  apply bind_ext; [intros w0; apply Hbody|].
  intros _ w0. rewrite (IH (S i) w0). f_equal.
  apply imap_ext. intros j y _. cbn. f_equal. lia.
Qed.

Section AddSubmit.

Variable Number : Type.
Variable truthy_number : Number -> bool.
Variable productData : AddProductScreen.FormData Number -> Payload.

(** The [try] block of [handleSubmit] is the sequence of its requests,
    between [setLoading (true)] and the alert of the success. *)
Lemma add_submit_body (u : option User)
    (formData : AddProductScreen.FormData Number)
    (mainImage : option string) (additionalImages : list string)
    (w : World) :
  AddProductScreen.fd_sku formData <> "" ->
  AddProductScreen.fd_name formData <> "" ->
  truthy_number (AddProductScreen.fd_price formData) = true ->
  AddProductScreen.handleSubmit truthy_number productData u formData
    mainImage additionalImages w
  = try_finally
      (try_catch
         (effect (log (SetLoading true)) ;;
          for_of (add_requests (token_or_empty u)
                    (AddProductScreen.fd_sku formData)
                    (productData formData) mainImage additionalImages)
            attempt ;;
          effect (log (Alerted "Success" "Product created successfully")))
         (fun error =>
            effect (log ConsoleLogged) ;;
            effect (log (Alerted "Error"
                           (AddProductScreen.shown_message error)))))
      (log (SetLoading false)) w.
Proof.
  intros Hsku Hname Hprice. unfold AddProductScreen.handleSubmit.
  destruct (String.eqb_spec (AddProductScreen.fd_sku formData) "");
    [contradiction|].
  destruct (String.eqb_spec (AddProductScreen.fd_name formData) "");
    [contradiction|].
  rewrite Hprice. cbn [negb orb].
  unfold try_finally, try_catch.
  match goal with |- (let (_, _) := match ?a w with _ => _ end in _)
                     = (let (_, _) := match ?b w with _ => _ end in _) =>
    assert (Hbody : a w = b w); [|rewrite Hbody; reflexivity] end.
  apply bind_ext; [reflexivity|]. intros _ w0.
  unfold add_requests. cbn [for_of]. rewrite bind_assoc.
  apply bind_ext.
  { intros w1. apply (void_guarded_attempt
                        (createProduct_request (token_or_empty u)
                           (productData formData))). }
  intros _ w1.
  rewrite (bind_ext _ _ _ _ (for_of_app _ _ attempt) (fun _ _ => eq_refl)).
  rewrite bind_assoc.
  apply bind_ext.
  { intros w2. destruct (Js.truthy_string mainImage); [|reflexivity].
    cbn [for_of]. rewrite uploadProductImage_eq, void_guarded_attempt.
    unfold bind. destruct (attempt _ w2) as [[[]|e] w3]; reflexivity. }
  intros _ w2. apply bind_ext; [|reflexivity].
  intros w3.
  apply (for_index_imap
           (fun i image =>
              uploadProductImage_request (token_or_empty u)
                (AddProductScreen.fd_sku formData) image (Z.of_nat i + 1)
                "image/jpeg") additionalImages 0).
  intros j x w4. rewrite uploadProductImage_eq.
  apply void_guarded_attempt.
Qed.

(** X29.  On a form with a sku, a name
    and a price, when the platform accepts every request, [handleSubmit]
    sends the product first, then the main image at position 0 if one
    was picked, then the additional images in order, the image of index
    [i] at position [i + 1]; it then shows the alert of the success, and
    the loading flag is raised before the first request and lowered
    after the alert. *)
Theorem add_submit_requests (u : option User)
    (formData : AddProductScreen.FormData Number)
    (mainImage : option string) (additionalImages : list string)
    (w : World) :
  let requests :=
    add_requests (token_or_empty u) (AddProductScreen.fd_sku formData)
      (productData formData) mainImage additionalImages in
  AddProductScreen.fd_sku formData <> "" ->
  AddProductScreen.fd_name formData <> "" ->
  truthy_number (AddProductScreen.fd_price formData) = true ->
  all_accepted (server w) (sent (trace w)) requests = true ->
  exists w',
    AddProductScreen.handleSubmit truthy_number productData u formData
      mainImage additionalImages w = (Return tt, w')
    /\ trace w'
       = (trace w
            ++ SetLoading true
            :: map Sent requests
            ++ [Alerted "Success" "Product created successfully";
                SetLoading false])%list.
Proof.
  cbn zeta. intros Hsku Hname Hprice Hall.
  rewrite add_submit_body by assumption.
  unfold try_finally, try_catch. unfold bind at 1. unfold effect at 1.
  unfold bind at 1.
  rewrite attempts_accepted
    by (rewrite sent_log_other by discriminate; exact Hall).
  unfold effect. eexists. split; [reflexivity|].
  cbn [trace log].
  destruct (logs_frame
              (map Sent
                 (add_requests (token_or_empty u)
                    (AddProductScreen.fd_sku formData)
                    (productData formData) mainImage additionalImages))
              (log (SetLoading true) w)) as [Ht _].
  rewrite Ht. cbn [trace log]. rewrite <- !app_assoc. reflexivity.
Qed.

(** X30.  [handleSubmit] stops at the
    first request that the platform does not accept: the requests after
    it are not sent, so a product whose image is refused stays created
    without its remaining images.  It shows one alert and lowers the
    loading flag.  The alert shows the message in the body of the
    platform's answer when the answer is not a 401 and has one, and the
    message of the expired session when the answer is a 401. *)
Theorem add_submit_stops (u : option User)
    (formData : AddProductScreen.FormData Number)
    (mainImage : option string) (additionalImages : list string)
    (w : World) (before : list Request) (q : Request)
    (after : list Request) :
  add_requests (token_or_empty u) (AddProductScreen.fd_sku formData)
    (productData formData) mainImage additionalImages
  = (before ++ q :: after)%list ->
  AddProductScreen.fd_sku formData <> "" ->
  AddProductScreen.fd_name formData <> "" ->
  truthy_number (AddProductScreen.fd_price formData) = true ->
  all_accepted (server w) (sent (trace w)) before = true ->
  accepted (server w (sent (trace w) ++ before)%list q) = false ->
  let o := server w (sent (trace w) ++ before)%list q in
  let error := thrown (rejection o) in
  exists w',
    AddProductScreen.handleSubmit truthy_number productData u formData
      mainImage additionalImages w = (Return tt, w')
    /\ sent (trace w') = (sent (trace w) ++ before ++ [q])%list
    /\ alerts (trace w')
       = (alerts (trace w)
            ++ [("Error", AddProductScreen.shown_message error)])%list
    /\ last (trace w') = Some (SetLoading false)
    /\ (forall resp m,
          o = Responded resp -> status resp <> 401%Z ->
          data_message (data resp) = Some m -> m <> "" ->
          AddProductScreen.shown_message error = m)
    /\ (forall resp,
          o = Responded resp -> status resp = 401%Z ->
          AddProductScreen.shown_message error
          = "Your session has expired. Please login again.").
Proof.
  intros Hreqs Hsku Hname Hprice Hbefore Hq. cbn zeta.
  rewrite add_submit_body by assumption. rewrite Hreqs.
  unfold try_finally, try_catch. unfold bind at 1. unfold effect at 1.
  unfold bind at 1.
  pose proof (attempts_rejected before q after (log (SetLoading true) w))
    as Hrun.
  cbn zeta in Hrun.
  rewrite sent_log_other in Hrun by discriminate.
  change (server (log (SetLoading true) w)) with (server w) in Hrun.
  rewrite (Hrun Hbefore Hq). clear Hrun.
  unfold bind, effect. eexists. split; [reflexivity|].
  set (o := server w (sent (trace w) ++ before)%list q) in *.
  split; [|split; [|split; [|split]]].
  - rewrite !sent_log_other by discriminate.
    destruct (after_auth_error_frame (rejection o)
                (log (Sent q)
                   (logs (map Sent before) (log (SetLoading true) w))))
      as (_ & Hs & _).
    rewrite Hs, sent_log_Sent.
    destruct (logs_frame (map Sent before) (log (SetLoading true) w))
      as [Ht _].
    rewrite Ht, sent_app, sent_map_Sent, sent_log_other by discriminate.
    rewrite <- app_assoc. reflexivity.
  - rewrite alerts_log_other by discriminate.
    rewrite alerts_log_Alerted, alerts_log_other by discriminate.
    rewrite alerts_after_auth_error, alerts_log_other by discriminate.
    destruct (logs_frame (map Sent before) (log (SetLoading true) w))
      as [Ht _].
    rewrite Ht, alerts_app, alerts_map_Sent, app_nil_r.
    rewrite alerts_log_other by discriminate. reflexivity.
  - cbn [trace log]. apply last_snoc.
  - intros resp m Ho Hstatus Hm Hne. rewrite Ho.
    unfold thrown, is_401, rejection. cbn [response].
    destruct (Z.eqb_spec (status resp) 401); [contradiction|].
    unfold AddProductScreen.shown_message. cbn [response]. rewrite Hm.
    cbn [Js.or_string].
    destruct (String.eqb_spec m ""); [contradiction|reflexivity].
  - intros resp Ho Hstatus. rewrite Ho.
    unfold thrown, is_401, rejection. cbn [response].
    rewrite Hstatus. reflexivity.
Qed.

End AddSubmit.

Lemma add_submit_requests_witness :
  exists w',
    AddProductScreen.handleSubmit (fun price => negb (price =? 0)%Z)
      (fun _ => "{}")
      (Some {| username := "admin"; token := VString "t0ken" |})
      filled (Some "bWFpbg") ["b25l"; "dHdv"]
      (logged_in (platform_always 200 (VString ""))) = (Return tt, w')
    /\ trace w'
       = [SetLoading true;
          Sent (createProduct_request (VString "t0ken") "{}");
          Sent (uploadProductImage_request (VString "t0ken") "A" "bWFpbg" 0
                  "image/jpeg");
          Sent (uploadProductImage_request (VString "t0ken") "A" "b25l" 1
                  "image/jpeg");
          Sent (uploadProductImage_request (VString "t0ken") "A" "dHdv" 2
                  "image/jpeg");
          Alerted "Success" "Product created successfully";
          SetLoading false].
Proof.
  apply (add_submit_requests Z (fun price => negb (price =? 0)%Z)
           (fun _ => "{}")
           (Some {| username := "admin"; token := VString "t0ken" |})
           filled (Some "bWFpbg") ["b25l"; "dHdv"]
           (logged_in (platform_always 200 (VString "")))).
  - discriminate.
  - discriminate.
  - reflexivity.
  - reflexivity.
Defined.

Lemma add_submit_stops_witness :
  exists w',
    AddProductScreen.handleSubmit (fun price => negb (price =? 0)%Z)
      (fun _ => "{}")
      (Some {| username := "admin"; token := VString "t0ken" |})
      filled (Some "bWFpbg") ["b25l"; "dHdv"]
      (logged_in
         (platform_always 400 (complaint "A product with this sku exists.")))
    = (Return tt, w')
    /\ sent (trace w') = [createProduct_request (VString "t0ken") "{}"]
    /\ alerts (trace w') = [("Error", "A product with this sku exists.")].
Proof.
  destruct (add_submit_stops Z (fun price => negb (price =? 0)%Z)
              (fun _ => "{}")
              (Some {| username := "admin"; token := VString "t0ken" |})
              filled (Some "bWFpbg") ["b25l"; "dHdv"]
              (logged_in
                 (platform_always 400
                    (complaint "A product with this sku exists.")))
              [] (createProduct_request (VString "t0ken") "{}")
              [uploadProductImage_request (VString "t0ken") "A" "bWFpbg" 0
                 "image/jpeg";
               uploadProductImage_request (VString "t0ken") "A" "b25l" 1
                 "image/jpeg";
               uploadProductImage_request (VString "t0ken") "A" "dHdv" 2
                 "image/jpeg"])
    as (w' & Hrun & Hsent & Halerts & _).
  - reflexivity.
  - discriminate.
  - discriminate.
  - reflexivity.
  - reflexivity.
  - reflexivity.
  - exists w'. split; [exact Hrun|]. split; [exact Hsent|exact Halerts].
Defined.
